(** * communitysources: the multi-source feed aggregation engine

    A shallow embedding of [server/src/server.js]: the token bucket in
    front of the Bluesky fetcher, the TTL cache in front of the Nostr
    fetcher, the cursor-paginated Mastodon fetcher, the tab patterns they
    share and the [/api/feed] route that runs the three fetchers.

    Conventions.
    - Timestamps are the integer milliseconds of [Date.now()], as [Z];
      [Math.floor (a / b)] on such integers is [Z.div].
    - JavaScript strings are [string]s; every pattern of the server is
      ASCII, and under the [i] flag a code unit outside ASCII never
      canonicalises to an ASCII one, so the comparison on ASCII letters
      below is the one the engine performs.
    - A promise that settles is an [Outcome]: [Resolved v] or [Rejected e].
    - Everything the network answers is an argument of the fetcher. *)

From Stdlib Require Import ZArith Ascii String List Bool Lia.
From stdpp Require Import base option list strings gmap pretty sorting.

Local Open Scope string_scope.
Local Open Scope list_scope.
Local Open Scope Z_scope.

(** ** Settled promises *)

Inductive JsError : Type :=
  | TypeError (msg : string)
  | Error (msg : string).

Inductive Outcome (A : Type) : Type :=
  | Resolved (v : A)
  | Rejected (e : JsError).
Arguments Resolved {A} v.
Arguments Rejected {A} e.

Definition error_message (e : JsError) : string :=
  match e with TypeError m => m | Error m => m end.

(** ** Regular expressions of the tab patterns

    The seven patterns are alternations of literal texts in which [.] and
    [/] are written escaped.  [RegExp.branches] reads exactly that
    fragment of a pattern source and answers [None] on anything else. *)

Module RegExp.

Record t : Type := mk { source : string; ignoreCase : bool }.

(** [new RegExp(src, 'i')]: the source text is kept as it is. *)
Definition new (src flags : string) : t :=
  {| source := src; ignoreCase := if decide (flags = "i") then true else false |}.

Definition is_meta (c : ascii) : bool :=
  existsb (Ascii.eqb c)
    ["."; "*"; "+"; "?"; "("; ")"; "["; "]"; "{"; "}"; "^"; "$"]%char.

Definition is_escapable (c : ascii) : bool :=
  existsb (Ascii.eqb c) ["."; "/"; "|"; "\"]%char.

(** The alternatives of a source, each one the literal text it stands for. *)
Fixpoint branches_from (s : string) (cur : string) : option (list string) :=
  match s with
  | EmptyString => Some [cur]
  | String "\" (String c r) =>
      if is_escapable c then branches_from r (cur +:+ String c EmptyString)
      else None
  | String "\" EmptyString => None
  | String "|" r =>
      match branches_from r EmptyString with
      | Some bs => Some (cur :: bs)
      | None => None
      end
  | String c r =>
      if is_meta c then None
      else branches_from r (cur +:+ String c EmptyString)
  end.

Definition branches (re : t) : option (list string) :=
  branches_from (source re) EmptyString.

(** Canonicalisation under the [i] flag, on one code unit. *)
Definition canonicalize (c : ascii) : ascii :=
  let n := N_of_ascii c in
  if ((97 <=? n) && (n <=? 122))%N then ascii_of_N (n - 32) else c.

Definition char_matches (ic : bool) (p c : ascii) : bool :=
  if ic then Ascii.eqb (canonicalize p) (canonicalize c) else Ascii.eqb p c.

(** Does the literal [p] match at the head of [s]? *)
Fixpoint matches_here (ic : bool) (p s : string) : bool :=
  match p, s with
  | EmptyString, _ => true
  | String _ _, EmptyString => false
  | String a p', String b s' => char_matches ic a b && matches_here ic p' s'
  end.

(** Does one of the alternatives match somewhere in [s]? *)
Fixpoint search (ic : bool) (alts : list string) (s : string) : bool :=
  existsb (fun p => matches_here ic p s) alts
  || match s with
     | EmptyString => false
     | String _ s' => search ic alts s'
     end.

(** [re.test(s)] for a pattern without the [g] and [y] flags: no
    [lastIndex] is read or written, the answer depends on [s] alone. *)
Definition test (re : t) (s : string) : bool :=
  match branches re with
  | Some alts => search (ignoreCase re) alts s
  | None => false
  end.

End RegExp.

(** ** The tab tables *)

Definition feedLinks : list string :=
  [ "at://did:plc:hd4p7hmwqy3egilcv6lgjpzf/app.bsky.feed.generator/aaap7msb6vmdg";
    "at://did:plc:hd4p7hmwqy3egilcv6lgjpzf/app.bsky.feed.generator/aaap7i2f6e3kq";
    "at://did:plc:hd4p7hmwqy3egilcv6lgjpzf/app.bsky.feed.generator/aaacsjo76q5g4";
    "at://did:plc:hd4p7hmwqy3egilcv6lgjpzf/app.bsky.feed.generator/aaab4n3ofdehe";
    "at://did:plc:hd4p7hmwqy3egilcv6lgjpzf/app.bsky.feed.generator/aaaburmrbef3k";
    "at://did:plc:hd4p7hmwqy3egilcv6lgjpzf/app.bsky.feed.generator/aaab4xs76ypte";
    "at://did:plc:hd4p7hmwqy3egilcv6lgjpzf/app.bsky.feed.generator/aaabut5jyrc6c";
    "at://did:plc:hd4p7hmwqy3egilcv6lgjpzf/app.bsky.feed.generator/gggp7i2f6e3kq" ].

(** The texts between the slashes of the seven regular-expression literals. *)
Definition pattern_sources : list string :=
  [ "\.gov\/|bea\.gov|stlouisfed\.org|worldbank\.org|bls\.gov|imf\.org|oecd\.org|europa\.eu\/eurostat|unstats\.un\.org|arxiv\.org|nih\.gov|nasa\.gov|science\.org|cell\.com|pnas\.org";
    "\.gov\/";
    "bea\.gov|stlouisfed\.org|worldbank\.org|bls\.gov|imf\.org|oecd\.org|europa\.eu\/eurostat|unstats\.un\.org";
    "arxiv\.org|nih\.gov|nasa\.gov|science\.org|cell\.com|pnas\.org";
    "imdb\.com|rottentomatoes\.com|netflix\.com|hulu\.com|amazon\.com\/gp\/video\/|play\.max\.com";
    "podcasts\.apple\.com|open\.spotify\.com\/episode\/|open\.spotify\.com\/show\/";
    "spotify\.com\/artist|spotify\.com\/track|spotify\.com\/album|music\.apple\.com|soundcloud\.com" ].

Definition nostrSearchPatterns : list RegExp.t :=
  map (fun src => RegExp.new src "i") pattern_sources.

(** [arr[activeTab]] for an integer index: [undefined] (here [None]) below
    zero and from the length on. *)
Definition js_index {A : Type} (arr : list A) (i : Z) : option A :=
  if i <? 0 then None else nth_error arr (Z.to_nat i).

(** ** The search query of the Mastodon fetcher *)

(** [s.replace(/\\\./g, '.')]: every backslash-dot becomes a dot. *)
Fixpoint replace_escaped_dots (s : string) : string :=
  match s with
  | EmptyString => EmptyString
  | String "\" (String "." r) => String "." (replace_escaped_dots r)
  | String c r => String c (replace_escaped_dots r)
  end.

(** [s.replace(/\|/g, ' OR ')]: every bar becomes [ OR ]. *)
Fixpoint replace_bars (s : string) : string :=
  match s with
  | EmptyString => EmptyString
  | String "|" r => " OR " +:+ replace_bars r
  | String c r => String c (replace_bars r)
  end.

Definition searchQuery_of (searchPattern : RegExp.t) : string :=
  replace_bars (replace_escaped_dots (RegExp.source searchPattern)).

Definition searchQuery (activeTab : Z) : option string :=
  searchQuery_of <$> js_index nostrSearchPatterns activeTab.

(** ** Token bucket for Bluesky rate limiting *)

Record TokenBucket : Type := mkBucket {
  tokens : Z;
  lastRefill : Z;
  refillRate : Z;
  capacity : Z
}.

(** The bucket as the module creates it, [start] being [Date.now()] then. *)
Definition tokenBucket (start : Z) : TokenBucket :=
  {| tokens := 5; lastRefill := start; refillRate := 60000; capacity := 5 |}.

(** [getToken()], [now] being what [Date.now()] answers in the call. *)
Definition getToken (now : Z) (b : TokenBucket) : bool * TokenBucket :=
  let timeSinceLastRefill := now - lastRefill b in
  let refillAmount := timeSinceLastRefill / refillRate b in
  let b1 :=
    if 0 <? refillAmount then
      {| tokens := Z.min (capacity b) (tokens b + refillAmount);
         lastRefill := now;
         refillRate := refillRate b;
         capacity := capacity b |}
    else b in
  if 0 <? tokens b1 then
    (true, {| tokens := tokens b1 - 1;
              lastRefill := lastRefill b1;
              refillRate := refillRate b1;
              capacity := capacity b1 |})
  else (false, b1).

(** A run of calls, one [Date.now()] reading per call; the answers in
    call order and the bucket left behind. *)
Fixpoint getToken_seq (times : list Z) (b : TokenBucket) : list bool * TokenBucket :=
  match times with
  | [] => ([], b)
  | now :: rest =>
      let '(ok, b') := getToken now b in
      let '(oks, b'') := getToken_seq rest b' in
      (ok :: oks, b'')
  end.

(** ** Relay (Nostr) events and the result cache *)

Record NostrEvent : Type := mkEvent {
  ev_id : string;
  ev_pubkey : string;
  ev_content : string;
  ev_created_at : Z;
  ev_tags : list (list string)
}.

Record NostrPost : Type := mkNostrPost {
  np_id : string;
  np_pubkey : string;
  np_content : string;
  np_created_at : Z;
  np_tags : list (list string);
  np_npub : string
}.

Module NodeCache.

Record entry : Type := mkEntry { value : list NostrPost; expires : Z }.

(** [new NodeCache({ stdTTL: 600 })]: the default time to live, in seconds. *)
Definition stdTTL : Z := 600.

Definition empty : gmap string entry := ∅.

(** Modelled from the spec: the [get] of the node-cache package, which the
    server loads and which is not among its sources.  Expiry is passive: a
    [get] on an entry past its expiry instant behaves as a miss. *)
Definition get (now : Z) (c : gmap string entry) (key : string)
  : option (list NostrPost) :=
  match c !! key with
  | Some e => if expires e <? now then None else Some (value e)
  | None => None
  end.

(** Modelled from the spec: the [set] of the node-cache package, called
    without a time to live, so the entry lives [stdTTL] seconds from the
    instant of the call. *)
Definition set (now : Z) (c : gmap string entry) (key : string)
  (v : list NostrPost) : gmap string entry :=
  <[key := {| value := v; expires := now + stdTTL * 1000 |}]> c.

End NodeCache.

(** The template literal [nostr_${activeTab}]. *)
Definition cacheKey (activeTab : Z) : string := "nostr_" +:+ pretty activeTab.

(** What the relay pool does during one fetch. *)
Inductive RelayRun : Type :=
  | SubscribeThrows (e : JsError)
      (* [pool.sub] raises inside the promise executor *)
  | Collected (delivered : list NostrEvent) (timerAt : Z).
      (* the events handed to the listener before the 10 s timer fires,
         in delivery order, and [Date.now()] when the result is cached *)

Inductive RelayEffect : Type :=
  | PoolSub
  | SubUnsub
  | PoolClose.

Record NostrFetch : Type := mkNostrFetch {
  nf_result : Outcome (list NostrPost);
  nf_cache : gmap string NodeCache.entry;
  nf_effects : list RelayEffect
}.

(** The ['event'] listener.  With no pattern at [activeTab] the lookup
    raises inside the pool's dispatch, before the push. *)
Definition on_event (activeTab : Z) (collectedEvents : list NostrEvent)
  (event : NostrEvent) : list NostrEvent :=
  match js_index nostrSearchPatterns activeTab with
  | Some re =>
      if RegExp.test re (ev_content event)
      then collectedEvents ++ [event]
      else collectedEvents
  | None => collectedEvents
  end.

(** [xs.map(f)] for an [f] that may raise. *)
Fixpoint map_throwing {A B : Type} (f : A -> option B) (xs : list A)
  : option (list B) :=
  match xs with
  | [] => Some []
  | x :: rest =>
      match f x with
      | Some y =>
          match map_throwing f rest with
          | Some ys => Some (y :: ys)
          | None => None
          end
      | None => None
      end
  end.

Section Nostr.

(** [nip19.npubEncode], of the nostr-tools package; [None] when it raises. *)
Variable npubEncode : string -> option string.

Definition process_event (event : NostrEvent) : option NostrPost :=
  match npubEncode (ev_pubkey event) with
  | Some npub =>
      Some {| np_id := ev_id event;
              np_pubkey := ev_pubkey event;
              np_content := ev_content event;
              np_created_at := ev_created_at event;
              np_tags := ev_tags event;
              np_npub := npub |}
  | None => None
  end.

(** [fetchNostrPosts(activeTab)]; [now] is the instant of the cache
    lookup, [nostrCache] the cache before the call. *)
Definition fetchNostrPosts (activeTab : Z) (now : Z) (run : RelayRun)
  (nostrCache : gmap string NodeCache.entry) : NostrFetch :=
  match NodeCache.get now nostrCache (cacheKey activeTab) with
  | Some cachedResult =>
      (* an array, the empty one too, is truthy *)
      {| nf_result := Resolved cachedResult;
         nf_cache := nostrCache;
         nf_effects := [] |}
  | None =>
      match run with
      | SubscribeThrows _ =>
          {| nf_result := Resolved [];
             nf_cache := nostrCache;
             nf_effects := [PoolClose] |}
      | Collected delivered timerAt =>
          let events := fold_left (on_event activeTab) delivered [] in
          match map_throwing process_event events with
          | Some processedEvents =>
              {| nf_result := Resolved processedEvents;
                 nf_cache := NodeCache.set timerAt nostrCache
                               (cacheKey activeTab) processedEvents;
                 nf_effects := [PoolSub; SubUnsub; PoolClose] |}
          | None =>
              {| nf_result := Resolved [];
                 nf_cache := nostrCache;
                 nf_effects := [PoolSub; SubUnsub; PoolClose] |}
          end
      end
  end.

End Nostr.

(** ** The federated (Mastodon) fetcher *)

Record Account : Type := mkAccount {
  acc_username : string;
  acc_display_name : string
}.

(** One element of [data.statuses]; a status without [account] makes the
    final [map] raise. *)
Record Status : Type := mkStatus {
  st_id : string;
  st_content : string;
  st_created_at : string;
  st_account : option Account;
  st_url : string
}.

Record MastodonPost : Type := mkMastodonPost {
  mp_id : string;
  mp_content : string;
  mp_createdAt : string;
  mp_username : string;
  mp_displayName : string;
  mp_url : string
}.

(** The [URLSearchParams] of one search request.  The bearer token in the
    header is the same in every request and is left out. *)
Record SearchParams : Type := mkParams {
  sp_q : string;
  sp_type : string;
  sp_limit : string;
  sp_max_id : option string
}.

Inductive JsonBody : Type :=
  | BodyUnparsable (e : JsError)      (* [response.json()] rejects *)
  | BodyNull                          (* [data] is falsy *)
  | BodyNoStatuses                    (* [data.statuses] is falsy *)
  | BodyStatuses (statuses : list Status).

Inductive FetchResult : Type :=
  | NetworkFailure (e : JsError)      (* [fetch] rejects *)
  | HttpResponse (ok : bool) (status : Z) (body : JsonBody).

(** The upstream: what it answers to the request of each page. *)
Definition Upstream : Type := nat -> SearchParams -> FetchResult.

Definition postsPerPage : Z := 40.
Definition maxPages : Z := 10.

(** [...(maxId && { max_id: maxId })]: [null] and the empty string are
    falsy and add no parameter. *)
Definition max_id_param (maxId : option string) : option string :=
  match maxId with
  | Some s => if decide (s = "") then None else Some s
  | None => None
  end.

Inductive LoopEnd : Type :=
  | Thrown (e : JsError)
  | Finished (allPosts : list Status).

(** The [for] loop, [remaining] being [maxPages - page]: the requests
    issued from this page on and how the loop ends. *)
Fixpoint mastodon_pages (up : Upstream) (searchPattern : RegExp.t)
  (remaining : nat) (page : nat) (maxId : option string)
  (allPosts : list Status) : list SearchParams * LoopEnd :=
  match remaining with
  | O => ([], Finished allPosts)
  | S remaining' =>
      let params :=
        {| sp_q := searchQuery_of searchPattern;
           sp_type := "statuses";
           sp_limit := pretty postsPerPage;
           sp_max_id := max_id_param maxId |} in
      match up page params with
      | NetworkFailure e => ([params], Thrown e)
      | HttpResponse ok status body =>
          if negb ok then
            ([params], Thrown (Error ("HTTP error! status: " +:+ pretty status)))
          else
            match body with
            | BodyUnparsable e => ([params], Thrown e)
            | BodyNull => ([params], Finished allPosts)
            | BodyNoStatuses => ([params], Finished allPosts)
            | BodyStatuses statuses =>
                if Z.of_nat (length statuses) =? 0 then
                  ([params], Finished allPosts)
                else
                  let filteredPosts :=
                    List.filter
                      (fun post => RegExp.test searchPattern (st_content post))
                      statuses in
                  let allPosts' := (allPosts ++ filteredPosts)%list in
                  if Z.of_nat (length statuses) <? postsPerPage then
                    ([params], Finished allPosts')
                  else
                    let maxId' := st_id <$> last statuses in
                    let '(later, res) :=
                      mastodon_pages up searchPattern remaining' (S page)
                        maxId' allPosts' in
                    (params :: later, res)
            end
      end
  end.

Definition process_status (post : Status) : option MastodonPost :=
  match st_account post with
  | Some account =>
      Some {| mp_id := st_id post;
              mp_content := st_content post;
              mp_createdAt := st_created_at post;
              mp_username := acc_username account;
              mp_displayName := acc_display_name account;
              mp_url := st_url post |}
  | None => None
  end.

Record MastodonFetch : Type := mkMastodonFetch {
  mf_result : Outcome (list MastodonPost);
  mf_requests : list SearchParams
}.

(** [fetchMastodonPosts(activeTab)].  The pattern lookup and the reading of
    its [source] stand before the [try]. *)
Definition fetchMastodonPosts (activeTab : Z) (up : Upstream) : MastodonFetch :=
  match js_index nostrSearchPatterns activeTab with
  | None =>
      {| mf_result :=
           Rejected (TypeError "Cannot read properties of undefined (reading 'source')");
         mf_requests := [] |}
  | Some searchPattern =>
      let '(requests, loop) :=
        mastodon_pages up searchPattern (Z.to_nat maxPages) O None [] in
      match loop with
      | Thrown _ => {| mf_result := Resolved []; mf_requests := requests |}
      | Finished allPosts =>
          match map_throwing process_status allPosts with
          | Some processedPosts =>
              {| mf_result := Resolved processedPosts; mf_requests := requests |}
          | None => {| mf_result := Resolved []; mf_requests := requests |}
          end
      end
  end.

(** ** The AT-Protocol (Bluesky) fetcher *)

Inductive Segment : Type :=
  | SegLink (uri : string)
  | SegMention (text did : string)
  | SegText (text : string).

(** One element of [data.feed]: the post with its record, and the
    segments [RichText] gives for the record's text once the facets are
    detected ([None] when that raises). *)
Record FeedItem : Type := mkFeedItem {
  fi_uri : string;
  fi_text : string;
  fi_record_facets : option string;
  fi_record_embed : option string;
  fi_segments : option (list Segment)
}.

Record BlueskyPost : Type := mkBlueskyPost {
  bp_item : FeedItem;
  bp_markdown : string;
  bp_facets : option string;
  bp_embed : option string
}.

Inductive GetFeedResult : Type :=
  | GetFeedThrows (e : JsError)
  | GetFeedData (feed : option (list FeedItem)).   (* [None]: no [feed] in [data] *)

Record BlueskyUpstream : Type := mkBluesky {
  bs_login : option JsError;          (* [Some e]: [agent.login] rejects *)
  bs_getFeed : option string -> string -> GetFeedResult
}.

Definition segment_markdown (segment : Segment) : string :=
  match segment with
  | SegLink uri => uri
  | SegMention text did =>
      "[" +:+ text +:+ "](https://my-bsky-app.com/user/" +:+ did +:+ ")"
  | SegText text => text
  end.

Definition process_item (item : FeedItem) : option BlueskyPost :=
  match fi_segments item with
  | Some segments =>
      let markdown :=
        fold_left (fun md segment => md +:+ segment_markdown segment)
          segments "" in
      Some {| bp_item := item;
              bp_markdown := markdown;
              bp_facets := fi_record_facets item;
              bp_embed := fi_record_embed item |}
  | None => None
  end.

(** [fetchBlueskyPosts(activeTab, preferredLanguages)]; [now] is what
    [Date.now()] answers inside [getToken]. *)
Definition fetchBlueskyPosts (activeTab : Z) (preferredLanguages : string)
  (now : Z) (up : BlueskyUpstream) (bucket : TokenBucket)
  : Outcome (list BlueskyPost) * TokenBucket :=
  let '(granted, bucket') := getToken now bucket in
  if negb granted then (Resolved [], bucket')
  else
    match bs_login up with
    | Some _ => (Resolved [], bucket')
    | None =>
        match bs_getFeed up (js_index feedLinks activeTab) preferredLanguages with
        | GetFeedThrows _ => (Resolved [], bucket')
        | GetFeedData None => (Resolved [], bucket')
        | GetFeedData (Some postsArray) =>
            match map_throwing process_item postsArray with
            | Some processedPosts => (Resolved processedPosts, bucket')
            | None => (Resolved [], bucket')
            end
        end
    end.

(** ** The feed route *)

Record ServerState : Type := mkState {
  s_tokenBucket : TokenBucket;
  s_nostrCache : gmap string NodeCache.entry
}.

(** What the outside world does during one request. *)
Record World : Type := mkWorld {
  w_now_bluesky : Z;                  (* [Date.now()] inside [getToken] *)
  w_bluesky : BlueskyUpstream;
  w_now_nostr : Z;                    (* the instant of the cache lookup *)
  w_relays : RelayRun;
  w_mastodon : Upstream
}.

Inductive HttpReply : Type :=
  | Reply200 (blueskyFeed : list BlueskyPost) (nostrFeed : list NostrPost)
      (mastodonFeed : list MastodonPost)
  | Reply500 (error details : string).

(** [parseInt(req.query.activeTab) || 0], from what [parseInt] answers:
    [None] is [NaN]; [NaN] and zero are falsy. *)
Definition activeTab_of (parsed : option Z) : Z :=
  match parsed with
  | Some n => if n =? 0 then 0 else n
  | None => 0
  end.

(** [req.query.preferredLanguages || 'en-US']. *)
Definition preferredLanguages_of (q : option string) : string :=
  match q with
  | Some s => if decide (s = "") then "en-US" else s
  | None => "en-US"
  end.

(** [await Promise.all([a, b, c])]: the three values, or a rejection. *)
Definition promise_all3 {A B C : Type} (a : Outcome A) (b : Outcome B)
  (c : Outcome C) : Outcome (A * B * C) :=
  match a, b, c with
  | Resolved x, Resolved y, Resolved z => Resolved (x, y, z)
  | Rejected e, _, _ => Rejected e
  | _, Rejected e, _ => Rejected e
  | _, _, Rejected e => Rejected e
  end.

Section Route.

Variable npubEncode : string -> option string.

(** The handler of [GET /api/feed]: the reply and the state the three
    fetchers leave behind. *)
Definition api_feed (parsedActiveTab : option Z)
  (queryLanguages : option string) (w : World) (s : ServerState)
  : HttpReply * ServerState :=
  let activeTab := activeTab_of parsedActiveTab in
  let preferredLanguages := preferredLanguages_of queryLanguages in
  let '(blueskyFeed, bucket') :=
    fetchBlueskyPosts activeTab preferredLanguages (w_now_bluesky w)
      (w_bluesky w) (s_tokenBucket s) in
  let nostr :=
    fetchNostrPosts npubEncode activeTab (w_now_nostr w) (w_relays w)
      (s_nostrCache s) in
  let mastodon := fetchMastodonPosts activeTab (w_mastodon w) in
  let s' := {| s_tokenBucket := bucket'; s_nostrCache := nf_cache nostr |} in
  match promise_all3 blueskyFeed (nf_result nostr) (mf_result mastodon) with
  | Resolved (b, n, m) => (Reply200 b n m, s')
  | Rejected error =>
      (Reply500 "Error fetching feed" (error_message error), s')
  end.

End Route.

(** ** Vocabulary of the properties *)

(** The answer is an HTTP-level failure: [response.ok] is false. *)
Definition http_failed (r : FetchResult) : bool :=
  match r with
  | HttpResponse false _ _ => true
  | _ => false
  end.

(** The statuses of an answer that carries some. *)
Definition page_statuses (r : FetchResult) : option (list Status) :=
  match r with
  | HttpResponse true _ (BodyStatuses statuses) => Some statuses
  | _ => None
  end.

(** An answer that ends the pagination without an error: no statuses, an
    empty page, or fewer results than were asked for. *)
Definition page_exhausted (r : FetchResult) : bool :=
  match r with
  | HttpResponse true _ BodyNull => true
  | HttpResponse true _ BodyNoStatuses => true
  | HttpResponse true _ (BodyStatuses statuses) =>
      Z.of_nat (length statuses) <? postsPerPage
  | _ => false
  end.

(** The test of the [filter] callback. *)
Definition passes (searchPattern : RegExp.t) (post : Status) : bool :=
  RegExp.test searchPattern (st_content post).

(** Does the text match the pattern of the tab?  No pattern, no match. *)
Definition tab_matches (activeTab : Z) (text : string) : bool :=
  match js_index nostrSearchPatterns activeTab with
  | Some re => RegExp.test re text
  | None => false
  end.

(** *** Relay fetches in flight

    [fetchNostrPosts] reads the cache before its [await] and writes it
    after: between the two the server takes other requests, so fetches of
    one tab can overlap.  A fetch is therefore run in its two parts, the
    part up to the [await] when the request arrives and the continuation
    when the 10 s timer of that fetch has fired. *)

(** The continuation of a fetch that missed the cache: what it resolves
    to, the cache it leaves, and the pool effects of the whole fetch. *)
Definition fetchNostrPosts_settle (npubEncode : string -> option string)
  (activeTab : Z) (run : RelayRun) (nostrCache : gmap string NodeCache.entry)
  : NostrFetch :=
  match run with
  | SubscribeThrows _ =>
      {| nf_result := Resolved [];
         nf_cache := nostrCache;
         nf_effects := [PoolClose] |}
  | Collected delivered timerAt =>
      let events := fold_left (on_event activeTab) delivered [] in
      match map_throwing (process_event npubEncode) events with
      | Some processedEvents =>
          {| nf_result := Resolved processedEvents;
             nf_cache := NodeCache.set timerAt nostrCache
                           (cacheKey activeTab) processedEvents;
             nf_effects := [PoolSub; SubUnsub; PoolClose] |}
      | None =>
          {| nf_result := Resolved [];
             nf_cache := nostrCache;
             nf_effects := [PoolSub; SubUnsub; PoolClose] |}
      end
  end.

(** The cache and the tabs of the fetches that have missed and not yet
    settled, oldest first. *)
Record RelayServer : Type := mkRelayServer {
  rs_nostrCache : gmap string NodeCache.entry;
  rs_inflight : list Z
}.

Inductive RelayEvent : Type :=
  | Arrives (activeTab now : Z)
      (* a call of [fetchNostrPosts]: the lookup at the instant [now] *)
  | Settles (k : nat) (run : RelayRun).
      (* the [k]-th fetch in flight runs its continuation *)

Inductive RelayObservation : Type :=
  | Served (cachedResult : list NostrPost)   (* a hit: returned at once *)
  | Missed                                   (* a miss: the fetch is in flight *)
  | Settled (fetch : NostrFetch)
  | Ignored.                                 (* no such fetch in flight *)

Definition relay_step (npubEncode : string -> option string)
  (ev : RelayEvent) (st : RelayServer) : RelayObservation * RelayServer :=
  match ev with
  | Arrives activeTab now =>
      match NodeCache.get now (rs_nostrCache st) (cacheKey activeTab) with
      | Some cachedResult => (Served cachedResult, st)
      | None =>
          (Missed,
           {| rs_nostrCache := rs_nostrCache st;
              rs_inflight := rs_inflight st ++ [activeTab] |})
      end
  | Settles k run =>
      match rs_inflight st !! k with
      | Some activeTab =>
          let fetch :=
            fetchNostrPosts_settle npubEncode activeTab run (rs_nostrCache st) in
          (Settled fetch,
           {| rs_nostrCache := nf_cache fetch;
              rs_inflight := delete k (rs_inflight st) |})
      | None => (Ignored, st)
      end
  end.

(** The events of the server in the order they happen. *)
Fixpoint relay_run (npubEncode : string -> option string)
  (evs : list RelayEvent) (st : RelayServer)
  : list RelayObservation * RelayServer :=
  match evs with
  | [] => ([], st)
  | ev :: rest =>
      let '(o, st') := relay_step npubEncode ev st in
      let '(os, st'') := relay_run npubEncode rest st' in
      (o :: os, st'')
  end.

(** A call for the tab arrives only between the two instants. *)
Definition in_window (activeTab earliest latest : Z) (ev : RelayEvent) : Prop :=
  match ev with
  | Arrives t now => t = activeTab -> earliest <= now <= latest
  | Settles _ _ => True
  end.

(** The caches the running server can hold: filled by the fetcher only. *)
Inductive cache_reachable (npubEncode : string -> option string)
  : gmap string NodeCache.entry -> Prop :=
  | cache_start : cache_reachable npubEncode NodeCache.empty
  | cache_fetch (activeTab now : Z) (run : RelayRun)
      (c : gmap string NodeCache.entry) :
      cache_reachable npubEncode c ->
      cache_reachable npubEncode
        (nf_cache (fetchNostrPosts npubEncode activeTab now run c)).

(** Every entry of the cache holds posts that match the tab of its key. *)
Definition cache_classified (c : gmap string NodeCache.entry) : Prop :=
  forall activeTab (e : NodeCache.entry),
    c !! cacheKey activeTab = Some e ->
    Forall (fun post => tab_matches activeTab (np_content post) = true)
      (NodeCache.value e).

(** The entry under the tab's key is [posts], alive until [expiry], and no
    fetch for the tab is in flight. *)
Definition holds_list (activeTab : Z) (posts : list NostrPost) (expiry : Z)
  (st : RelayServer) : Prop :=
  rs_nostrCache st !! cacheKey activeTab
  = Some {| NodeCache.value := posts; NodeCache.expires := expiry |}
  /\ Forall (fun t => t <> activeTab) (rs_inflight st).

Section PageTurn.

Variable up : Upstream.
Variable searchPattern : RegExp.t.

Implicit Types (remaining page : nat) (maxId : option string)
  (allPosts : list Status).

(** The loop takes exactly one of four turns at a page. *)
Inductive page_turn page maxId allPosts : list SearchParams * LoopEnd -> nat -> Prop :=
  | turn_throw remaining params e :
      params = mkParams (searchQuery_of searchPattern) "statuses"
                 (pretty postsPerPage) (max_id_param maxId) ->
      page_statuses (up page params) = None ->
      page_exhausted (up page params) = false ->
      page_turn page maxId allPosts ([params], Thrown e) remaining
  | turn_empty remaining params :
      params = mkParams (searchQuery_of searchPattern) "statuses"
                 (pretty postsPerPage) (max_id_param maxId) ->
      http_failed (up page params) = false ->
      page_exhausted (up page params) = true ->
      page_turn page maxId allPosts ([params], Finished allPosts) remaining
  | turn_short remaining params statuses :
      params = mkParams (searchQuery_of searchPattern) "statuses"
                 (pretty postsPerPage) (max_id_param maxId) ->
      page_statuses (up page params) = Some statuses ->
      page_exhausted (up page params) = true ->
      page_turn page maxId allPosts
        ([params],
         Finished (allPosts ++ List.filter
                     (fun post => RegExp.test searchPattern (st_content post))
                     statuses)%list) remaining
  | turn_next remaining params statuses lastStatus :
      params = mkParams (searchQuery_of searchPattern) "statuses"
                 (pretty postsPerPage) (max_id_param maxId) ->
      page_statuses (up page params) = Some statuses ->
      page_exhausted (up page params) = false ->
      (postsPerPage <= Z.of_nat (length statuses)) ->
      last statuses = Some lastStatus ->
      let rest :=
        mastodon_pages up searchPattern remaining (S page)
          (Some (st_id lastStatus))
          (allPosts ++ List.filter
             (fun post => RegExp.test searchPattern (st_content post))
             statuses)%list in
      page_turn page maxId allPosts (params :: fst rest, snd rest) remaining.

End PageTurn.

(** ** Sample upstreams *)

Definition sample_status (n : nat) : Status :=
  {| st_id := pretty n;
     st_content := "<p>New CPI release at https://www.bls.gov/cpi/</p>";
     st_created_at := "2024-05-01T00:00:00.000Z";
     st_account := Some {| acc_username := "econ"; acc_display_name := "Econ Desk" |};
     st_url := "https://mastodon.social/@econ/" +:+ pretty n |}.

Definition sample_page (first count : nat) : list Status :=
  map sample_status (seq first count).

(** A full first page, then a 503. *)
Definition failing_second_page : Upstream :=
  fun page _ =>
    match page with
    | O => HttpResponse true 200 (BodyStatuses (sample_page 1 40))
    | _ => HttpResponse false 503 BodyNull
    end.

(** Forty results on each of nine pages, five on the tenth. *)
Definition nine_full_then_five : Upstream :=
  fun page _ =>
    if (page <? 9)%nat
    then HttpResponse true 200 (BodyStatuses (sample_page (1 + 40 * page) 40))
    else HttpResponse true 200 (BodyStatuses (sample_page (1 + 40 * page) 5)).

(** One short page: a status that names a statistics site and one that
    names none. *)
Definition mixed_single_page : Upstream :=
  fun _ _ =>
    HttpResponse true 200
      (BodyStatuses
         [ sample_status 7;
           {| st_id := "8";
              st_content := "<p>lunch break</p>";
              st_created_at := "2024-05-01T00:05:00.000Z";
              st_account := Some {| acc_username := "sam";
                                    acc_display_name := "Sam" |};
              st_url := "https://mastodon.social/@sam/8" |} ]).

Definition sample_mastodon_post : MastodonPost :=
  {| mp_id := "7";
     mp_content := "<p>New CPI release at https://www.bls.gov/cpi/</p>";
     mp_createdAt := "2024-05-01T00:00:00.000Z";
     mp_username := "econ";
     mp_displayName := "Econ Desk";
     mp_url := "https://mastodon.social/@econ/7" |}.

Definition empty_first_page : Upstream :=
  fun _ _ => HttpResponse true 200 (BodyStatuses []).

(** ** Sample relay data *)

Definition sample_npubEncode : string -> option string :=
  fun pubkey => Some ("npub1" +:+ pubkey).

Definition sample_event (id content : string) : NostrEvent :=
  {| ev_id := id;
     ev_pubkey := "3bf0c63fcb93463407af97a5e5ee64fa883d107ef9e558472c4eb9aaaefa459d";
     ev_content := content;
     ev_created_at := 1714521600;
     ev_tags := [] |}.

Definition sample_post (id content : string) : NostrPost :=
  {| np_id := id;
     np_pubkey := "3bf0c63fcb93463407af97a5e5ee64fa883d107ef9e558472c4eb9aaaefa459d";
     np_content := content;
     np_created_at := 1714521600;
     np_tags := [];
     np_npub := "npub13bf0c63fcb93463407af97a5e5ee64fa883d107ef9e558472c4eb9aaaefa459d" |}.

(** ** Sample feed of the AT-Protocol upstream *)

Definition sample_feed_item : FeedItem :=
  {| fi_uri := "at://did:plc:ewvi7nxzyoun6zhxrhs64oiz/app.bsky.feed.post/3kq";
     fi_text := "good morning";
     fi_record_facets := None;
     fi_record_embed := None;
     fi_segments := Some [SegText "good morning"] |}.

Definition sample_bluesky : BlueskyUpstream :=
  {| bs_login := None;
     bs_getFeed := fun _ _ => GetFeedData (Some [sample_feed_item]) |}.

(** ** A sample request environment *)

Definition sample_world : World :=
  {| w_now_bluesky := 1714521600000;
     w_bluesky := sample_bluesky;
     w_now_nostr := 1714521600001;
     w_relays := Collected [sample_event "e1" "see https://www.usa.gov/x"]
                   1714521610001;
     w_mastodon := mixed_single_page |}.

Definition sample_state : ServerState :=
  {| s_tokenBucket := tokenBucket 1714521000000;
     s_nostrCache := NodeCache.empty |}.

Definition has_backslash (s : string) : bool :=
  existsb (Ascii.eqb "\"%char) (list_ascii_of_string s).

(** ** Runs of the fetchers *)

(** How many calls of a run were granted a token. *)
Fixpoint granted (answers : list bool) : Z :=
  match answers with
  | [] => 0
  | ok :: rest => (if ok then 1 else 0) + granted rest
  end.

(** One call of the Bluesky fetcher: its arguments, the clock, the upstream. *)
Record BlueskyCall : Type := mkBlueskyCall {
  bc_activeTab : Z;
  bc_preferredLanguages : string;
  bc_now : Z;
  bc_upstream : BlueskyUpstream
}.

(** Bluesky fetches one after the other on the shared bucket. *)
Fixpoint fetchBlueskyPosts_seq (calls : list BlueskyCall) (bucket : TokenBucket)
  : list (Outcome (list BlueskyPost)) * TokenBucket :=
  match calls with
  | [] => ([], bucket)
  | call :: rest =>
      let '(r, bucket') :=
        fetchBlueskyPosts (bc_activeTab call) (bc_preferredLanguages call)
          (bc_now call) (bc_upstream call) bucket in
      let '(rs, bucket'') := fetchBlueskyPosts_seq rest bucket' in
      (r :: rs, bucket'')
  end.

(** The statuses the upstream sent back for the requests of a fetch, page
    after page, in the order it sent them. *)
Fixpoint statuses_seen (up : Upstream) (page : nat)
  (requests : list SearchParams) : list Status :=
  match requests with
  | [] => []
  | params :: rest =>
      match page_statuses (up page params) with
      | Some statuses => statuses
      | None => []
      end ++ statuses_seen up (S page) rest
  end.

(** An answer that makes the loop throw: a rejected [fetch], a response
    that is not [ok], a body that does not parse. *)
Definition page_failed (r : FetchResult) : bool :=
  match r with
  | NetworkFailure _ => true
  | HttpResponse false _ _ => true
  | HttpResponse true _ (BodyUnparsable _) => true
  | _ => false
  end.

(** Did the fetch give back at least one post? *)
Definition returned_posts {A : Type} (r : Outcome (list A)) : bool :=
  match r with
  | Resolved (_ :: _) => true
  | _ => false
  end.

(** A feed item whose segments cannot be computed, and an upstream that
    serves it after a good one. *)
Definition broken_feed_item : FeedItem :=
  {| fi_uri := "at://did:plc:ewvi7nxzyoun6zhxrhs64oiz/app.bsky.feed.post/3kr";
     fi_text := "see you at the census.gov/ booth";
     fi_record_facets := None;
     fi_record_embed := None;
     fi_segments := None |}.

Definition sample_bluesky_broken : BlueskyUpstream :=
  {| bs_login := None;
     bs_getFeed := fun _ _ =>
       GetFeedData (Some [sample_feed_item; broken_feed_item]) |}.

(** An encoder that rejects one public key. *)
Definition picky_npubEncode : string -> option string :=
  fun pubkey => if decide (pubkey = "bad") then None else Some ("npub1" +:+ pubkey).

Definition bad_event (id content : string) : NostrEvent :=
  {| ev_id := id; ev_pubkey := "bad"; ev_content := content;
     ev_created_at := 1714521600; ev_tags := [] |}.

(** A full first page, then a connection that drops. *)
Definition dropped_second_page : Upstream :=
  fun page _ =>
    match page with
    | O => HttpResponse true 200 (BodyStatuses (sample_page 1 40))
    | _ => NetworkFailure (TypeError "fetch failed")
    end.

(** One short page whose second status matches and has no account. *)
Definition accountless_page : Upstream :=
  fun _ _ =>
    HttpResponse true 200
      (BodyStatuses
         [ sample_status 7;
           {| st_id := "9";
              st_content := "<p>tables at https://www.bea.gov/data</p>";
              st_created_at := "2024-05-01T00:07:00.000Z";
              st_account := None;
              st_url := "https://mastodon.social/@x/9" |} ]).

(** The text with every ASCII letter in upper case. *)
Fixpoint canonical (s : string) : string :=
  match s with
  | EmptyString => EmptyString
  | String c r => String (RegExp.canonicalize c) (canonical r)
  end.

(** A pattern source in which a backslash only ever escapes a dot, and
    which has no other special character than the bar. *)
Fixpoint dots_only (s : string) : bool :=
  match s with
  | EmptyString => true
  | String "\" (String "." r) => dots_only r
  | String "\" _ => false
  | String "|" r => dots_only r
  | String c r => negb (RegExp.is_meta c) && dots_only r
  end.

(** * The client ([client/src/App.js])

    The parts of the [App] component that compute: the relative time of a
    post, the cards of a Bluesky post, the bookmarks, the network switches
    and the combined feed. *)

(** ** [formatTimeAgo] *)

(** [formatTimeAgo(dateString)]: [now] is the time value of [new Date()]
    and [date] that of [new Date(dateString)], [None] for an invalid date
    (a [NaN] that fails every comparison and prints as [NaN]). *)
Definition formatTimeAgo (now : Z) (date : option Z) : string :=
  match date with
  | None => "NaN days ago"
  | Some date =>
      let differenceInSeconds := (now - date) / 1000 in
      if differenceInSeconds <? 60 then
        pretty differenceInSeconds +:+ " second"
          +:+ (if differenceInSeconds =? 1 then "" else "s") +:+ " ago"
      else if differenceInSeconds <? 3600 then
        let minutes := differenceInSeconds / 60 in
        pretty minutes +:+ " minute"
          +:+ (if minutes =? 1 then "" else "s") +:+ " ago"
      else if differenceInSeconds <? 86400 then
        let hours := differenceInSeconds / 3600 in
        pretty hours +:+ " hour"
          +:+ (if hours =? 1 then "" else "s") +:+ " ago"
      else
        let days := differenceInSeconds / 86400 in
        pretty days +:+ " day"
          +:+ (if days =? 1 then "" else "s") +:+ " ago"
  end.

(** ** The cards of a Bluesky post *)

Record External : Type := mkExternal {
  ext_uri : string;
  ext_title : string;
  ext_description : string
}.

(** [post.embed], with its [$type] and, when present, its [external]. *)
Record Embed : Type := mkEmbed {
  em_type : string;
  em_external : option External
}.

Record Feature : Type := mkFeature {
  ft_type : string;
  ft_uri : option string
}.

Record Facet : Type := mkFacet {
  fc_features : option (list Feature)
}.

(** [post.facets]: an array of facets, or a value that is falsy or no
    array. *)
Inductive Facets : Type :=
  | NoFacetArray
  | FacetArray (facets : list Facet).

Inductive Card : Type :=
  | ExternalCard (uri title description : string)
  | LinkCard (uri : string).

(** What a render function gives: an element, [null], or an exception. *)
Inductive Rendered : Type :=
  | Element (card : Card)
  | Null
  | Throws (e : JsError).

Definition is_external (embed : option Embed) : bool :=
  match embed with
  | Some e => if decide (em_type e = "app.bsky.embed.external") then true else false
  | None => false
  end.

(** [renderEmbed(embed)]; destructuring a missing [external] raises. *)
Definition renderEmbed (embed : option Embed) : Rendered :=
  if is_external embed then
    match embed with
    | Some {| em_external := Some ext |} =>
        Element (ExternalCard (ext_uri ext) (ext_title ext) (ext_description ext))
    | _ => Throws (TypeError "Cannot destructure property 'uri' of 'embed.external' as it is undefined.")
    end
  else Null.

(** [facet.features?.find(feature => feature.$type === '...#link')?.uri || ''] *)
Definition facet_link (facet : Facet) : string :=
  match fc_features facet with
  | Some features =>
      match List.find
              (fun feature =>
                 if decide (ft_type feature = "app.bsky.richtext.facet#link")
                 then true else false) features with
      | Some feature =>
          match ft_uri feature with
          | Some uri => uri      (* the empty string is falsy: [|| ''] gives it back *)
          | None => ""
          end
      | None => ""
      end
  | None => ""
  end.

Definition truthy (s : string) : bool := if decide (s = "") then false else true.

(** [renderLink(facets, embed)]. *)
Definition renderLink (facets : Facets) (embed : option Embed) : Rendered :=
  if negb (is_external embed) then
    match facets with
    | NoFacetArray => Null
    | FacetArray facets =>
        let uriLink :=
          fold_left
            (fun link facet => if truthy link then link else facet_link facet)
            facets "" in
        if truthy uriLink then Element (LinkCard uriLink) else Null
    end
  else Null.

(** ** The entries of the combined feed and the bookmarks *)

(** What the client reads of a Bluesky item.  Such an item has no [id] of
    its own: [renderPost] keys it by [post.uri]. *)
Record BlueskyView : Type := mkBlueskyView {
  bv_uri : string;
  bv_indexedAt : string;
  bv_author_did : string;
  bv_author_displayName : string;
  bv_facets : Facets;
  bv_embed : option Embed;
  bv_markdown : string
}.

(** An item with its [source] tag. *)
Inductive FeedEntry : Type :=
  | FromBluesky (item : BlueskyView)
  | FromNostr (item : NostrPost)
  | FromMastodon (item : MastodonPost).

(** [item.id]; [None] is [undefined]. *)
Definition entry_id (item : FeedEntry) : option string :=
  match item with
  | FromBluesky _ => None
  | FromNostr post => Some (np_id post)
  | FromMastodon post => Some (mp_id post)
  end.

(** [bookmark.id === item.id] *)
Definition same_id (item bookmark : FeedEntry) : bool :=
  if decide (entry_id bookmark = entry_id item) then true else false.

(** [arr.findIndex(f)]; [None] is [-1]. *)
Fixpoint findIndex {A : Type} (f : A -> bool) (arr : list A) : option nat :=
  match arr with
  | [] => None
  | x :: rest =>
      if f x then Some O
      else match findIndex f rest with
           | Some i => Some (S i)
           | None => None
           end
  end.

(** [handleBookmark(item)]: the list that becomes the state and is
    written to [localStorage]. *)
Definition handleBookmark (item : FeedEntry) (bookmarks : list FeedEntry)
  : list FeedEntry :=
  match findIndex (same_id item) bookmarks with
  | None => bookmarks ++ [item]
  | Some index => take index bookmarks ++ drop (S index) bookmarks
  end.

Definition isBookmarked (item : FeedEntry) (bookmarks : list FeedEntry) : bool :=
  existsb (same_id item) bookmarks.

(** ** The network switches and the combined feed *)

Inductive Network : Type := Nostr | Bluesky | Mastodon.

#[global] Instance Network_eq_dec : EqDecision Network.
Proof. solve_decision. Defined.

Record EnabledNetworks : Type := mkEnabled {
  en_nostr : bool;
  en_bluesky : bool;
  en_mastodon : bool
}.

(** [toggleNetwork(network)], for the three networks that have a button. *)
Definition toggleNetwork (network : Network) (prev : EnabledNetworks)
  : EnabledNetworks :=
  match network with
  | Nostr => {| en_nostr := negb (en_nostr prev);
                en_bluesky := en_bluesky prev;
                en_mastodon := en_mastodon prev |}
  | Bluesky => {| en_nostr := en_nostr prev;
                  en_bluesky := negb (en_bluesky prev);
                  en_mastodon := en_mastodon prev |}
  | Mastodon => {| en_nostr := en_nostr prev;
                   en_bluesky := en_bluesky prev;
                   en_mastodon := negb (en_mastodon prev) |}
  end.

Record Feed : Type := mkFeed {
  blueskyFeed : list BlueskyView;
  nostrFeed : list NostrPost;
  mastodonFeed : list MastodonPost
}.

Inductive Page : Type := MainPage | BookmarksPage.

(** [arr.sort(compare)].  The sort of ECMAScript is stable, and for a
    consistent comparator its result is the one this insertion sort
    gives; for an inconsistent one the language leaves the order open. *)
Fixpoint sort_insert {A : Type} (compare : A -> A -> Z) (x : A) (arr : list A)
  : list A :=
  match arr with
  | [] => [x]
  | y :: rest =>
      if compare x y <=? 0 then x :: y :: rest
      else y :: sort_insert compare x rest
  end.

Definition js_sort {A : Type} (compare : A -> A -> Z) (arr : list A) : list A :=
  fold_right (sort_insert compare) [] arr.

Section CombinedFeed.

(** [Date.parse] on the date strings; [None] is [NaN]. *)
Variable Date_parse : string -> option Z.

(** The time value of [new Date(v)] for a number [v]. *)
Definition time_clip (v : Z) : option Z :=
  if Z.abs v <=? 8640000000000000 then Some v else None.

(** The time value of
    [new Date(a.source === 'nostr' ? a.created_at * 1000
                                   : a.post?.indexedAt || a.createdAt)]. *)
Definition entry_time (a : FeedEntry) : option Z :=
  match a with
  | FromNostr post => time_clip (np_created_at post * 1000)
  | FromBluesky view =>
      if truthy (bv_indexedAt view) then Date_parse (bv_indexedAt view)
      else None
  | FromMastodon post => Date_parse (mp_createdAt post)
  end.

(** [dateB - dateA]; a [NaN] counts as [+0] in the sort. *)
Definition by_date (a b : FeedEntry) : Z :=
  match entry_time b, entry_time a with
  | Some dateB, Some dateA => dateB - dateA
  | _, _ => 0
  end.

Definition filteredCombinedFeed (currentPage : Page)
  (enabledNetworks : EnabledNetworks) (feed : Feed)
  (bookmarks : list FeedEntry) : list FeedEntry :=
  match currentPage with
  | MainPage =>
      js_sort by_date
        ((if en_bluesky enabledNetworks
          then map FromBluesky (blueskyFeed feed) else [])
         ++ (if en_nostr enabledNetworks
             then map FromNostr (nostrFeed feed) else [])
         ++ (if en_mastodon enabledNetworks
             then map FromMastodon (mastodonFeed feed) else []))
  | BookmarksPage => bookmarks
  end.

End CombinedFeed.

(** The network an entry comes from. *)
Definition entry_network (a : FeedEntry) : Network :=
  match a with
  | FromBluesky _ => Bluesky
  | FromNostr _ => Nostr
  | FromMastodon _ => Mastodon
  end.

Definition enabled (enabledNetworks : EnabledNetworks) (network : Network)
  : bool :=
  match network with
  | Nostr => en_nostr enabledNetworks
  | Bluesky => en_bluesky enabledNetworks
  | Mastodon => en_mastodon enabledNetworks
  end.

(** All entries of a feed, whatever the switches. *)
Definition all_entries (feed : Feed) : list FeedEntry :=
  map FromBluesky (blueskyFeed feed)
  ++ map FromNostr (nostrFeed feed)
  ++ map FromMastodon (mastodonFeed feed).

(** [a] has a valid date, [b] has one, and [b] is not newer than [a]. *)
Definition not_older (Date_parse : string -> option Z) (a b : FeedEntry) : Prop :=
  exists ta tb,
    entry_time Date_parse a = Some ta
    /\ entry_time Date_parse b = Some tb
    /\ tb <= ta.

(** ** Sample entries of the client *)

Definition sample_view (uri indexedAt : string) : BlueskyView :=
  {| bv_uri := uri;
     bv_indexedAt := indexedAt;
     bv_author_did := "did:plc:ewvi7nxzyoun6zhxrhs64oiz";
     bv_author_displayName := "Econ Desk";
     bv_facets := NoFacetArray;
     bv_embed := None;
     bv_markdown := "good morning" |}.

(** A parser that knows three instants. *)
Definition sample_Date_parse (s : string) : option Z :=
  if decide (s = "2024-05-01T00:00:00.000Z") then Some 1714521600000
  else if decide (s = "2024-05-01T00:10:00.000Z") then Some 1714522200000
  else if decide (s = "2024-05-02T00:00:00.000Z") then Some 1714608000000
  else None.

Definition sample_feed : Feed :=
  {| blueskyFeed :=
       [ sample_view "at://did:plc:a/app.bsky.feed.post/1" "2024-05-01T00:10:00.000Z";
         sample_view "at://did:plc:a/app.bsky.feed.post/2" "2024-05-02T00:00:00.000Z" ];
     nostrFeed := [ sample_post "e1" "see https://www.usa.gov/x" ];
     mastodonFeed := [ sample_mastodon_post ] |}.

(** * Properties *)

(** ** The embedding on concrete inputs *)

Example test_ignores_case :
  tab_matches 1 "FORMS AT HTTPS://WWW.IRS.GOV/FORMS" = true.
Proof. reflexivity. Qed.

Example test_wants_the_slash : tab_matches 1 "irs.gov" = false.
Proof. reflexivity. Qed.

Example test_dot_is_literal : tab_matches 3 "arxivXorg" = false.
Proof. reflexivity. Qed.

Example searchQuery_tab3 :
  searchQuery 3
  = Some "arxiv.org OR nih.gov OR nasa.gov OR science.org OR cell.com OR pnas.org".
Proof. reflexivity. Qed.

Example searchQuery_no_tab : searchQuery 7 = None /\ searchQuery (-1) = None.
Proof. split; reflexivity. Qed.

Example activeTab_defaults :
  activeTab_of None = 0 /\ activeTab_of (Some 0) = 0 /\ activeTab_of (Some 5) = 5.
Proof. repeat split. Qed.

Example getToken_drains :
  fst (getToken_seq [10; 20; 30; 40; 50; 60] (tokenBucket 0))
  = [true; true; true; true; true; false].
Proof. reflexivity. Qed.

Example getToken_caps_at_capacity :
  tokens (snd (getToken 6000000 (tokenBucket 0))) = 4.
Proof. reflexivity. Qed.

Example api_feed_tab1 :
  fst (api_feed sample_npubEncode (Some 1) None sample_world sample_state)
  = Reply200
      [ {| bp_item := sample_feed_item; bp_markdown := "good morning";
           bp_facets := None; bp_embed := None |} ]
      [ sample_post "e1" "see https://www.usa.gov/x" ]
      [ sample_mastodon_post ].
Proof. vm_compute. reflexivity. Qed.

Example markdown_of_segments :
  bp_markdown <$>
    process_item
      {| fi_uri := "at://x"; fi_text := "see bls.gov/cpi by @econ.bsky.social";
         fi_record_facets := None; fi_record_embed := None;
         fi_segments :=
           Some [SegText "see "; SegLink "https://bls.gov/cpi";
                 SegText " by "; SegMention "@econ.bsky.social" "did:plc:abc"] |}
  = Some "see https://bls.gov/cpi by [@econ.bsky.social](https://my-bsky-app.com/user/did:plc:abc)".
Proof. reflexivity. Qed.

(** ** The token bucket *)

Section TokenBucketFacts.

Implicit Types (b : TokenBucket) (now start : Z).

Lemma getToken_idle now b :
  0 < refillRate b -> now - lastRefill b < refillRate b ->
  getToken now b =
    if 0 <? tokens b
    then (true, {| tokens := tokens b - 1; lastRefill := lastRefill b;
                   refillRate := refillRate b; capacity := capacity b |})
    else (false, b).
Proof.
  intros Hrate Hidle. unfold getToken.
  assert ((now - lastRefill b) / refillRate b < 1) as Hq
    by (apply Z.div_lt_upper_bound; lia).
  destruct (Z.ltb_spec 0 ((now - lastRefill b) / refillRate b)); [lia|].
  reflexivity.
Qed.

Lemma getToken_refilled now b :
  0 < refillRate b -> refillRate b <= now - lastRefill b ->
  0 <= tokens b -> 0 < capacity b ->
  getToken now b =
    (true, {| tokens :=
                Z.min (capacity b)
                  (tokens b + (now - lastRefill b) / refillRate b) - 1;
              lastRefill := now;
              refillRate := refillRate b; capacity := capacity b |}).
Proof.
  intros Hrate Hdue Htok Hcap. unfold getToken.
  assert (1 <= (now - lastRefill b) / refillRate b) as Hq
    by (apply Z.div_le_lower_bound; lia).
  destruct (Z.ltb_spec 0 ((now - lastRefill b) / refillRate b)); [|lia].
  cbn [tokens lastRefill refillRate capacity].
  destruct (Z.ltb_spec 0
    (Z.min (capacity b) (tokens b + (now - lastRefill b) / refillRate b)));
    [reflexivity | lia].
Qed.

(** The bucket keeps its two constants. *)
Lemma getToken_constants now b :
  refillRate (snd (getToken now b)) = refillRate b
  /\ capacity (snd (getToken now b)) = capacity b.
Proof.
  unfold getToken.
  destruct (0 <? (now - lastRefill b) / refillRate b);
    cbn [tokens lastRefill refillRate capacity];
    match goal with |- context [if ?c then _ else _] => destruct c end;
    auto.
Qed.

(** One call keeps the count between zero and the capacity. *)
Lemma getToken_bounds now b :
  0 <= tokens b <= capacity b ->
  0 <= tokens (snd (getToken now b)) <= capacity b.
Proof.
  intros Hb. unfold getToken.
  destruct (Z.ltb_spec 0 ((now - lastRefill b) / refillRate b));
    cbn [tokens lastRefill refillRate capacity];
    match goal with |- context [if ?c then _ else _] =>
      destruct c eqn:Hc end;
    cbn [snd tokens]; apply Z.ltb_lt in Hc || apply Z.ltb_ge in Hc; lia.
Qed.

(** A refusal writes nothing, on a bucket whose count is not negative. *)
Lemma getToken_refusal_pure now b :
  0 <= tokens b -> 0 < capacity b ->
  fst (getToken now b) = false -> snd (getToken now b) = b.
Proof.
  intros Htok Hcap. unfold getToken.
  destruct (Z.ltb_spec 0 ((now - lastRefill b) / refillRate b));
    cbn [tokens lastRefill refillRate capacity].
  - destruct (Z.ltb_spec 0
      (Z.min (capacity b) (tokens b + (now - lastRefill b) / refillRate b)));
      cbn [fst snd]; [discriminate | lia].
  - destruct (0 <? tokens b); cbn [fst snd]; [discriminate | reflexivity].
Qed.

Lemma getToken_seq_cons now times b :
  getToken_seq (now :: times) b
  = (fst (getToken now b) :: fst (getToken_seq times (snd (getToken now b))),
     snd (getToken_seq times (snd (getToken now b)))).
Proof.
  cbn [getToken_seq]. destruct (getToken now b) as [ok b1]. cbn [fst snd].
  destruct (getToken_seq times b1); reflexivity.
Qed.

Lemma getToken_seq_snoc times now b :
  snd (getToken_seq (times ++ [now]) b)
  = snd (getToken now (snd (getToken_seq times b))).
Proof.
  revert b. induction times as [|t times IH]; intros b.
  - cbn [app]. rewrite getToken_seq_cons. reflexivity.
  - cbn [app]. rewrite !getToken_seq_cons. cbn [snd]. apply IH.
Qed.

Lemma getToken_seq_invariant start times :
  let b := snd (getToken_seq times (tokenBucket start)) in
  0 <= tokens b <= 5 /\ capacity b = 5 /\ refillRate b = 60000.
Proof.
  induction times as [|t times IH] using rev_ind.
  - cbn. lia.
  - cbn zeta in *. rewrite getToken_seq_snoc.
    destruct IH as (Hb & Hc & Hr).
    destruct (getToken_constants t (snd (getToken_seq times (tokenBucket start))))
      as [Hr' Hc'].
    rewrite Hc', Hr'. repeat split; try assumption;
      pose proof (getToken_bounds t
        (snd (getToken_seq times (tokenBucket start)))) as Hn;
      rewrite Hc in Hn; lia.
Qed.

End TokenBucketFacts.

(** C4, as amended.  From a full bucket (5 tokens, 60000 ms), five calls
    made before the first interval is over each succeed and a sixth is
    refused; a call made at least 60 and less than 120 seconds after the
    baseline succeeds and the call right after it is refused.  A call adds
    [floor(elapsed / refillRate)] tokens, capped at the capacity, and moves
    the baseline to now only when that amount is at least one; it then
    succeeds and takes one token iff the count is positive. *)
Theorem getToken_full_bucket_scenario :
  (forall start t1 t2 t3 t4 t5 t6 t7 t8 : Z,
      Forall (fun t => t - start < 60000) [t1; t2; t3; t4; t5; t6] ->
      60000 <= t7 - start < 120000 ->
      t8 - t7 < 60000 ->
      fst (getToken_seq [t1; t2; t3; t4; t5; t6; t7; t8] (tokenBucket start))
      = [true; true; true; true; true; false; true; false])
  /\ (forall (now : Z) (b : TokenBucket),
      let earned := (now - lastRefill b) / refillRate b in
      let available :=
        if 1 <=? earned then Z.min (capacity b) (tokens b + earned)
        else tokens b in
      fst (getToken now b) = (0 <? available)
      /\ tokens (snd (getToken now b))
         = (if 0 <? available then available - 1 else available)
      /\ lastRefill (snd (getToken now b))
         = (if 1 <=? earned then now else lastRefill b)).
Proof.
  split.
  - intros start t1 t2 t3 t4 t5 t6 t7 t8 Himm H7 H8.
    repeat match goal with
           | H : Forall _ (_ :: _) |- _ =>
               apply Forall_cons_iff in H; destruct H as [? H]
           end.
    assert ((t7 - start) / 60000 = 1) as Hone.
    { symmetry.
      apply (Z.div_unique (t7 - start) 60000 1 (t7 - start - 60000)); lia. }
    repeat (rewrite getToken_seq_cons; cbn [fst snd]).
    repeat (rewrite getToken_idle;
      cbn [tokens lastRefill refillRate capacity tokenBucket]; [| lia | lia];
      change (0 <? 5) with true; change (0 <? 5 - 1) with true;
      change (0 <? 5 - 1 - 1) with true;
      change (0 <? 5 - 1 - 1 - 1) with true;
      change (0 <? 5 - 1 - 1 - 1 - 1) with true;
      change (0 <? 5 - 1 - 1 - 1 - 1 - 1) with false;
      cbn [fst snd tokens lastRefill refillRate capacity]).
    rewrite getToken_refilled;
      cbn [tokens lastRefill refillRate capacity tokenBucket fst snd];
      try lia.
    rewrite Hone.
    rewrite getToken_idle;
      cbn [tokens lastRefill refillRate capacity tokenBucket fst snd];
      try lia.
    reflexivity.
  - intros now b earned available. subst earned available. unfold getToken.
    destruct (Z.ltb_spec 0 ((now - lastRefill b) / refillRate b)) as [Hq|Hq];
      destruct (Z.leb_spec 1 ((now - lastRefill b) / refillRate b)); try lia;
      cbn [tokens lastRefill refillRate capacity];
      match goal with |- context [if ?c then _ else _] => destruct c end;
      cbn [fst snd tokens lastRefill]; auto.
Qed.

Lemma getToken_full_bucket_scenario_witness :
  Forall (fun t => t - 1000 < 60000) [1000; 1001; 1002; 1003; 1004; 1005]
  /\ 60000 <= 61500 - 1000 < 120000
  /\ 70000 - 61500 < 60000
  /\ fst (getToken_seq [1000; 1001; 1002; 1003; 1004; 1005; 61500; 70000]
            (tokenBucket 1000))
     = [true; true; true; true; true; false; true; false].
Proof.
  assert (Forall (fun t => t - 1000 < 60000)
            [1000; 1001; 1002; 1003; 1004; 1005]) as Himm
    by (repeat constructor; lia).
  assert (60000 <= 61500 - 1000 < 120000) as H7 by lia.
  assert (70000 - 61500 < 60000) as H8 by lia.
  split; [exact Himm|]. split; [exact H7|]. split; [exact H8|].
  exact (proj1 getToken_full_bucket_scenario 1000 1000 1001 1002 1003 1004
           1005 61500 70000 Himm H7 H8).
Defined.

(** C4 as stated fails: once the bucket is drained, two whole intervals
    later two calls in a row succeed, not exactly one; and a call that
    earns no token leaves the baseline where it was, not at now. *)
Lemma getToken_two_grants_after_two_intervals :
  let drained := snd (getToken_seq [0; 0; 0; 0; 0; 0] (tokenBucket 0)) in
  fst (getToken_seq [0; 0; 0; 0; 0; 0] (tokenBucket 0))
  = [true; true; true; true; true; false]
  /\ 60000 <= 120000 - lastRefill drained
  /\ fst (getToken_seq [120000; 120000] drained) = [true; true]
  /\ lastRefill (snd (getToken 30000 (tokenBucket 0))) = 0
  /\ lastRefill (snd (getToken 30000 (tokenBucket 0))) <> 30000.
Proof.
  vm_compute.
  split; [reflexivity|]. split; [discriminate|]. split; [reflexivity|].
  split; [reflexivity | discriminate].
Qed.

(** C8.  Whatever the times of the calls, the count of the bucket stays
    between zero and the capacity, which is 5, and a call that answers
    [false] leaves the bucket (count and baseline) as it found it. *)
Theorem getToken_tokens_in_range :
  forall (start : Z) (times : list Z),
    let b := snd (getToken_seq times (tokenBucket start)) in
    0 <= tokens b <= capacity b
    /\ capacity b = 5
    /\ forall now : Z, fst (getToken now b) = false -> snd (getToken now b) = b.
Proof.
  intros start times b.
  destruct (getToken_seq_invariant start times) as (Hb & Hc & Hr).
  fold b in Hb, Hc, Hr. rewrite Hc.
  split; [lia|]. split; [reflexivity|].
  intros now. apply getToken_refusal_pure; lia.
Qed.

Lemma getToken_tokens_in_range_witness :
  let b := snd (getToken_seq [0; 0; 0; 0; 0] (tokenBucket 0)) in
  fst (getToken 0 b) = false /\ snd (getToken 0 b) = b.
Proof.
  intros b.
  assert (fst (getToken 0 b) = false) as Hno by reflexivity.
  split; [exact Hno|].
  exact (proj2 (proj2 (getToken_tokens_in_range 0 [0; 0; 0; 0; 0])) 0 Hno).
Defined.

(** ** The Mastodon pagination *)

Section MastodonPages.

Variable up : Upstream.
Variable searchPattern : RegExp.t.

Implicit Types (remaining page k : nat) (maxId : option string)
  (allPosts : list Status) (requests : list SearchParams) (loop : LoopEnd).

Lemma mastodon_pages_turn remaining page maxId allPosts :
  page_turn up searchPattern page maxId allPosts
    (mastodon_pages up searchPattern (S remaining) page maxId allPosts)
    remaining.
Proof.
  cbn [mastodon_pages].
  set (params := {| sp_q := _; sp_max_id := _ |}).
  destruct (up page params) as [e | ok status body] eqn:Hup.
  { apply turn_throw; rewrite ?Hup; reflexivity. }
  destruct ok; cbn [negb].
  2:{ apply turn_throw; rewrite ?Hup; reflexivity. }
  destruct body as [e | | | statuses].
  - apply turn_throw; rewrite ?Hup; reflexivity.
  - apply turn_empty; rewrite ?Hup; reflexivity.
  - apply turn_empty; rewrite ?Hup; reflexivity.
  - destruct (Z.eqb_spec (Z.of_nat (length statuses)) 0) as [Hz | Hnz].
    { apply turn_empty; rewrite ?Hup; cbn [http_failed page_exhausted];
        [reflexivity | reflexivity |].
      rewrite Hz. reflexivity. }
    destruct (Z.ltb_spec (Z.of_nat (length statuses)) postsPerPage) as [Hlt | Hge].
    { apply turn_short with (statuses := statuses); rewrite ?Hup;
        cbn [page_statuses page_exhausted]; [reflexivity | reflexivity |].
      apply Z.ltb_lt. exact Hlt. }
    destruct (last statuses) as [lastStatus|] eqn:Hlast.
    2:{ destruct statuses; [cbn in Hnz; lia |].
        apply last_None in Hlast. discriminate. }
    cbn [fmap option_fmap option_map].
    destruct (mastodon_pages up searchPattern remaining (S page)
                (Some (st_id lastStatus)) _) as [later res] eqn:Hrec.
    pose proof (turn_next up searchPattern page maxId allPosts remaining
                  params statuses lastStatus eq_refl) as Hturn.
    rewrite Hup in Hturn. cbn [page_statuses page_exhausted] in Hturn.
    specialize (Hturn eq_refl).
    rewrite (proj2 (Z.ltb_ge _ _) Hge) in Hturn.
    specialize (Hturn eq_refl Hge Hlast). cbn zeta in Hturn.
    rewrite Hrec in Hturn. exact Hturn.
Qed.

Lemma http_failed_no_page (r : FetchResult) :
  http_failed r = true -> page_statuses r = None /\ page_exhausted r = false.
Proof. destruct r as [e | [] status body]; cbn; intros; try discriminate; auto. Qed.

Lemma at_first {A : Type} (x : A) (l : list A) : (x :: l) !! 0%nat = Some x.
Proof. reflexivity. Qed.

Lemma at_later {A : Type} (x : A) (l : list A) k : (x :: l) !! S k = l !! k.
Proof. reflexivity. Qed.

Lemma pages_length remaining page maxId allPosts :
  (length (fst (mastodon_pages up searchPattern remaining page maxId allPosts))
   <= remaining)%nat.
Proof.
  revert page maxId allPosts.
  induction remaining as [|remaining IH]; intros page maxId allPosts.
  - cbn. lia.
  - destruct (mastodon_pages_turn remaining page maxId allPosts);
      cbn [fst length]; try lia.
    subst rest.
    match goal with
    | |- context [mastodon_pages up searchPattern remaining ?pg ?cursor ?acc] =>
        specialize (IH pg cursor acc)
    end.
    lia.
Qed.

Lemma pages_first remaining page maxId allPosts :
  head (fst (mastodon_pages up searchPattern (S remaining) page maxId allPosts))
  = Some (mkParams (searchQuery_of searchPattern) "statuses"
            (pretty postsPerPage) (max_id_param maxId)).
Proof.
  destruct (mastodon_pages_turn remaining page maxId allPosts);
    cbn [fst head]; congruence.
Qed.

Lemma pages_params remaining page maxId allPosts :
  Forall (fun params =>
            sp_q params = searchQuery_of searchPattern
            /\ sp_type params = "statuses"
            /\ sp_limit params = "40")
    (fst (mastodon_pages up searchPattern remaining page maxId allPosts)).
Proof.
  revert page maxId allPosts.
  induction remaining as [|remaining IH]; intros page maxId allPosts.
  - constructor.
  - destruct (mastodon_pages_turn remaining page maxId allPosts);
      cbn [fst]; subst params;
      (constructor; [cbn; auto | try constructor]).
    apply IH.
Qed.

(** A request after the first follows a full page and carries, as cursor,
    the identifier of that page's last status. *)
Lemma pages_cursor remaining page maxId allPosts k (params : SearchParams) :
  fst (mastodon_pages up searchPattern remaining page maxId allPosts) !! S k
    = Some params ->
  exists previous statuses lastStatus,
    fst (mastodon_pages up searchPattern remaining page maxId allPosts) !! k
      = Some previous
    /\ page_statuses (up (page + k)%nat previous) = Some statuses
    /\ postsPerPage <= Z.of_nat (length statuses)
    /\ last statuses = Some lastStatus
    /\ sp_max_id params = max_id_param (Some (st_id lastStatus)).
Proof.
  revert page maxId allPosts k.
  induction remaining as [|remaining IH]; intros page maxId allPosts k.
  - cbn. discriminate.
  - destruct (mastodon_pages_turn remaining page maxId allPosts)
      as [? ? ? ? ? ?|? ? ? ? ?|? ? ? ? ? ?|? p0 statuses lastStatus Hp Hst Hex Hfull Hlast rest];
      cbn [fst]; rewrite ?at_later, ?lookup_nil; try discriminate.
    destruct k as [|k].
    + intros Hk. exists p0, statuses, lastStatus.
      rewrite Nat.add_0_r. repeat split; try assumption.
      subst rest. destruct remaining as [|remaining']; [cbn in Hk; discriminate|].
      rewrite <- head_lookup in Hk. rewrite pages_first in Hk.
      injection Hk as <-. reflexivity.
    + intros Hk. subst rest. destruct (IH _ _ _ _ Hk)
        as (previous & sts & lst & H1 & H2 & H3 & H4 & H5).
      exists previous, sts, lst. rewrite <- Nat.add_succ_comm.
      repeat split; assumption.
Qed.

(** An HTTP failure at a page that was asked for ends the loop by a throw. *)
Lemma pages_http_failed remaining page maxId allPosts k (params : SearchParams) :
  fst (mastodon_pages up searchPattern remaining page maxId allPosts) !! k
    = Some params ->
  http_failed (up (page + k)%nat params) = true ->
  exists e, snd (mastodon_pages up searchPattern remaining page maxId allPosts)
            = Thrown e.
Proof.
  revert page maxId allPosts k.
  induction remaining as [|remaining IH]; intros page maxId allPosts k.
  - cbn. discriminate.
  - destruct (mastodon_pages_turn remaining page maxId allPosts)
      as [? p0 e Hp Hst Hex|? p0 Hp Hok Hex|? p0 sts Hp Hst Hex
          |? p0 sts lst Hp Hst Hex Hfull Hlast rest];
      cbn [fst snd]; destruct k as [|k]; rewrite ?at_first, ?at_later, ?lookup_nil;
      rewrite ?Nat.add_0_r;
      try (intros [= <-] Hf; apply http_failed_no_page in Hf; destruct Hf;
           congruence);
      try discriminate.
    + intros _ _. eauto.
    + intros Hk Hf. subst rest. rewrite <- Nat.add_succ_comm in Hf.
      exact (IH _ _ _ _ Hk Hf).
Qed.

(** After an exhausted page no further request is issued. *)
Lemma pages_exhausted remaining page maxId allPosts k (params : SearchParams) :
  fst (mastodon_pages up searchPattern remaining page maxId allPosts) !! k
    = Some params ->
  page_exhausted (up (page + k)%nat params) = true ->
  length (fst (mastodon_pages up searchPattern remaining page maxId allPosts))
  = S k.
Proof.
  revert page maxId allPosts k.
  induction remaining as [|remaining IH]; intros page maxId allPosts k.
  - cbn. discriminate.
  - destruct (mastodon_pages_turn remaining page maxId allPosts)
      as [? p0 e Hp Hst Hex|? p0 Hp Hok Hex|? p0 sts Hp Hst Hex
          |? p0 sts lst Hp Hst Hex Hfull Hlast rest];
      cbn [fst snd length]; destruct k as [|k]; rewrite ?at_first, ?at_later, ?lookup_nil;
      rewrite ?Nat.add_0_r;
      try (intros [= <-] Hf; congruence);
      try discriminate;
      try reflexivity.
    intros Hk Hf. subst rest. rewrite <- Nat.add_succ_comm in Hf.
    f_equal. exact (IH _ _ _ _ Hk Hf).
Qed.

(** What the loop accumulates has passed the pattern. *)
Lemma pages_filtered remaining page maxId allPosts (kept : list Status) :
  Forall (fun post => passes searchPattern post = true) allPosts ->
  snd (mastodon_pages up searchPattern remaining page maxId allPosts)
    = Finished kept ->
  Forall (fun post => passes searchPattern post = true) kept.
Proof.
  revert page maxId allPosts.
  induction remaining as [|remaining IH]; intros page maxId allPosts Hall.
  - cbn. intros [= <-]. exact Hall.
  - assert (forall statuses,
              Forall (fun post => passes searchPattern post = true)
                (allPosts ++ List.filter
                   (fun post => RegExp.test searchPattern (st_content post))
                   statuses)) as Happ.
    { intros statuses. apply Forall_app. split; [exact Hall|].
      apply Forall_forall. intros post Hin.
      apply list_elem_of_In, filter_In in Hin. exact (proj2 Hin). }
    destruct (mastodon_pages_turn remaining page maxId allPosts)
      as [? p0 e Hp Hst Hex|? p0 Hp Hok Hex|? p0 sts Hp Hst Hex
          |? p0 sts lst Hp Hst Hex Hfull Hlast rest];
      cbn [snd]; try discriminate; try (intros [= <-]; auto).
    subst rest. apply IH. apply Happ.
Qed.

Lemma full_page_not_exhausted (r : FetchResult) (statuses : list Status) :
  page_statuses r = Some statuses ->
  postsPerPage <= Z.of_nat (length statuses) ->
  page_exhausted r = false.
Proof.
  destruct r as [e | [] status [e | | | sts]]; cbn; try discriminate.
  intros [= ->] Hfull. apply Z.ltb_ge. exact Hfull.
Qed.

(** After a full page, and with budget left, the next page is asked for. *)
Lemma pages_full remaining page maxId allPosts k (params : SearchParams)
  (statuses : list Status) :
  fst (mastodon_pages up searchPattern remaining page maxId allPosts) !! k
    = Some params ->
  page_statuses (up (page + k)%nat params) = Some statuses ->
  postsPerPage <= Z.of_nat (length statuses) ->
  (S k < remaining)%nat ->
  is_Some
    (fst (mastodon_pages up searchPattern remaining page maxId allPosts) !! S k).
Proof.
  revert page maxId allPosts k.
  induction remaining as [|remaining IH]; intros page maxId allPosts k.
  - cbn. discriminate.
  - destruct (mastodon_pages_turn remaining page maxId allPosts)
      as [? p0 e Hp Hst Hex|? p0 Hp Hok Hex|? p0 sts Hp Hst Hex
          |? p0 sts lst Hp Hst Hex Hfull Hlast rest];
      cbn [fst snd]; destruct k as [|k];
      rewrite ?at_first, ?at_later, ?lookup_nil, ?Nat.add_0_r;
      try discriminate;
      try (intros [= <-] Hpage Hlen _;
           pose proof (full_page_not_exhausted _ _ Hpage Hlen); congruence).
    + intros _ _ _ Hbudget. subst rest.
      destruct remaining as [|remaining']; [lia|].
      rewrite <- head_lookup, pages_first. eauto.
    + intros Hk Hpage Hlen Hbudget. subst rest.
      rewrite <- Nat.add_succ_comm in Hpage.
      apply (IH _ _ _ _ Hk Hpage Hlen). lia.
Qed.

Lemma pages_empty_first remaining page maxId allPosts :
  (forall params, exists status,
      up page params = HttpResponse true status (BodyStatuses [])) ->
  mastodon_pages up searchPattern (S remaining) page maxId allPosts
  = ([mkParams (searchQuery_of searchPattern) "statuses"
        (pretty postsPerPage) (max_id_param maxId)],
     Finished allPosts).
Proof.
  intros Hempty. cbn [mastodon_pages].
  destruct (Hempty (mkParams (searchQuery_of searchPattern) "statuses"
                      (pretty postsPerPage) (max_id_param maxId)))
    as [status ->].
  reflexivity.
Qed.

End MastodonPages.

Lemma map_throwing_Forall {A B : Type} (f : A -> option B)
  (P : A -> Prop) (Q : B -> Prop) (xs : list A) (ys : list B) :
  (forall x y, f x = Some y -> P x -> Q y) ->
  Forall P xs -> map_throwing f xs = Some ys -> Forall Q ys.
Proof.
  intros Hf. revert ys. induction xs as [|x xs IH]; intros ys Hall; cbn.
  - intros [= <-]. constructor.
  - destruct (f x) as [y|] eqn:Hy; [|discriminate].
    destruct (map_throwing f xs) as [ys'|]; [|discriminate].
    intros [= <-]. apply Forall_cons_iff in Hall. destruct Hall as [Hx Hxs].
    constructor; eauto.
Qed.

(** ** The Mastodon fetcher *)

Section MastodonFetcher.

Variable up : Upstream.

Lemma fetchMastodonPosts_requests activeTab searchPattern :
  js_index nostrSearchPatterns activeTab = Some searchPattern ->
  mf_requests (fetchMastodonPosts activeTab up)
  = fst (mastodon_pages up searchPattern (Z.to_nat maxPages) 0 None []).
Proof.
  intros Hre. unfold fetchMastodonPosts. rewrite Hre.
  destruct (mastodon_pages up searchPattern (Z.to_nat maxPages) 0 None [])
    as [requests [e | allPosts]]; cbn [fst]; [reflexivity|].
  destruct (map_throwing process_status allPosts); reflexivity.
Qed.

Lemma fetchMastodonPosts_result activeTab searchPattern :
  js_index nostrSearchPatterns activeTab = Some searchPattern ->
  mf_result (fetchMastodonPosts activeTab up)
  = match snd (mastodon_pages up searchPattern (Z.to_nat maxPages) 0 None []) with
    | Thrown _ => Resolved []
    | Finished allPosts =>
        match map_throwing process_status allPosts with
        | Some processedPosts => Resolved processedPosts
        | None => Resolved []
        end
    end.
Proof.
  intros Hre. unfold fetchMastodonPosts. rewrite Hre.
  destruct (mastodon_pages up searchPattern (Z.to_nat maxPages) 0 None [])
    as [requests [e | allPosts]]; cbn [snd]; [reflexivity|].
  destruct (map_throwing process_status allPosts); reflexivity.
Qed.

Lemma fetchMastodonPosts_no_pattern activeTab :
  js_index nostrSearchPatterns activeTab = None ->
  fetchMastodonPosts activeTab up
  = {| mf_result :=
         Rejected (TypeError "Cannot read properties of undefined (reading 'source')");
       mf_requests := [] |}.
Proof. intros Hre. unfold fetchMastodonPosts. rewrite Hre. reflexivity. Qed.

(** With a pattern at the tab, the fetcher resolves, whatever the upstream. *)
Lemma fetchMastodonPosts_resolves activeTab searchPattern :
  js_index nostrSearchPatterns activeTab = Some searchPattern ->
  exists posts, mf_result (fetchMastodonPosts activeTab up) = Resolved posts.
Proof.
  intros Hre. rewrite (fetchMastodonPosts_result _ _ Hre).
  destruct (snd _) as [e | allPosts]; [eauto|].
  destruct (map_throwing process_status allPosts); eauto.
Qed.

(** Every post of the result matches the pattern of the tab. *)
Lemma fetchMastodonPosts_matching activeTab (posts : list MastodonPost) :
  mf_result (fetchMastodonPosts activeTab up) = Resolved posts ->
  Forall (fun post => tab_matches activeTab (mp_content post) = true) posts.
Proof.
  destruct (js_index nostrSearchPatterns activeTab) as [re|] eqn:Hre.
  2:{ rewrite (fetchMastodonPosts_no_pattern _ Hre). discriminate. }
  rewrite (fetchMastodonPosts_result _ _ Hre).
  destruct (snd _) as [e | allPosts] eqn:Hloop.
  { intros [= <-]. constructor. }
  destruct (map_throwing process_status allPosts) as [ps|] eqn:Hmap.
  2:{ intros [= <-]. constructor. }
  intros [= <-].
  apply (map_throwing_Forall process_status
           (fun post => passes re post = true) _ allPosts ps); [| |exact Hmap].
  - intros x y Hxy Hx. unfold process_status in Hxy.
    destruct (st_account x); [|discriminate]. injection Hxy as <-.
    unfold tab_matches. rewrite Hre. exact Hx.
  - apply (pages_filtered up re (Z.to_nat maxPages) 0%nat None [] allPosts);
      [constructor | exact Hloop].
Qed.

End MastodonFetcher.

(** C3.  When a page the fetcher asks for fails at the HTTP level, the call
    resolves to the empty list: nothing kept from the pages before it is
    returned. *)
Theorem fetchMastodonPosts_http_error_empty :
  forall (activeTab : Z) (up : Upstream) (k : nat) (params : SearchParams),
    mf_requests (fetchMastodonPosts activeTab up) !! k = Some params ->
    http_failed (up k params) = true ->
    mf_result (fetchMastodonPosts activeTab up) = Resolved [].
Proof.
  intros activeTab up k params Hk Hfail.
  destruct (js_index nostrSearchPatterns activeTab) as [re|] eqn:Hre.
  2:{ rewrite (fetchMastodonPosts_no_pattern _ _ Hre) in Hk.
      cbn [mf_requests] in Hk. rewrite lookup_nil in Hk. discriminate. }
  rewrite (fetchMastodonPosts_requests _ _ _ Hre) in Hk.
  rewrite (fetchMastodonPosts_result _ _ _ Hre).
  destruct (pages_http_failed up re _ 0%nat None [] k params Hk Hfail)
    as [e ->].
  reflexivity.
Qed.

Lemma fetchMastodonPosts_http_error_empty_witness :
  let cursor :=
    {| sp_q := "bea.gov OR stlouisfed.org OR worldbank.org OR bls.gov OR imf.org OR oecd.org OR europa.eu\/eurostat OR unstats.un.org";
       sp_type := "statuses"; sp_limit := "40"; sp_max_id := Some "40" |} in
  mf_requests (fetchMastodonPosts 2 failing_second_page) !! 1%nat = Some cursor
  /\ http_failed (failing_second_page 1%nat cursor) = true
  /\ mf_result (fetchMastodonPosts 2 failing_second_page) = Resolved [].
Proof.
  intros cursor.
  assert (mf_requests (fetchMastodonPosts 2 failing_second_page) !! 1%nat
          = Some cursor) as Hasked by (vm_compute; reflexivity).
  assert (http_failed (failing_second_page 1%nat cursor) = true) as Hfail
    by reflexivity.
  split; [exact Hasked|]. split; [exact Hfail|].
  exact (fetchMastodonPosts_http_error_empty 2 failing_second_page 1%nat cursor
           Hasked Hfail).
Defined.

(** C5.  With a pattern at the tab, the fetcher issues between one and ten
    requests, each asking for 40 statuses with the tab's query; the first
    has no cursor and every later one follows a page of at least 40
    statuses and carries the identifier of that page's last status; a page
    with fewer than 40 statuses, or none, is the last one asked for.  So
    nine pages of 40 and a tenth of 5 make exactly ten requests, and an
    empty first page gives the empty list after exactly one request. *)
Theorem fetchMastodonPosts_pagination :
  forall (activeTab : Z) (searchPattern : RegExp.t) (up : Upstream),
    js_index nostrSearchPatterns activeTab = Some searchPattern ->
    let requests := mf_requests (fetchMastodonPosts activeTab up) in
    (1 <= length requests <= 10)%nat
    /\ Forall (fun params =>
                 sp_q params = searchQuery_of searchPattern
                 /\ sp_type params = "statuses"
                 /\ sp_limit params = "40") requests
    /\ (exists first, requests !! 0%nat = Some first /\ sp_max_id first = None)
    /\ (forall (k : nat) (params : SearchParams),
          requests !! S k = Some params ->
          exists previous statuses lastStatus,
            requests !! k = Some previous
            /\ page_statuses (up k previous) = Some statuses
            /\ 40 <= Z.of_nat (length statuses)
            /\ last statuses = Some lastStatus
            /\ (st_id lastStatus <> "" ->
                sp_max_id params = Some (st_id lastStatus)))
    /\ (forall (k : nat) (params : SearchParams),
          requests !! k = Some params ->
          page_exhausted (up k params) = true ->
          length requests = S k)
    /\ ((forall (k : nat) (params : SearchParams), (k < 9)%nat ->
           exists statuses,
             page_statuses (up k params) = Some statuses
             /\ length statuses = 40%nat) ->
        (forall params : SearchParams,
           exists statuses,
             page_statuses (up 9%nat params) = Some statuses
             /\ length statuses = 5%nat) ->
        length requests = 10%nat)
    /\ ((forall params : SearchParams, exists status,
           up 0%nat params = HttpResponse true status (BodyStatuses [])) ->
        length requests = 1%nat
        /\ mf_result (fetchMastodonPosts activeTab up) = Resolved []).
Proof.
  intros activeTab re up Hre requests. subst requests.
  rewrite (fetchMastodonPosts_requests up _ _ Hre).
  rewrite (fetchMastodonPosts_result up _ _ Hre).
  change (Z.to_nat maxPages) with 10%nat.
  pose proof (pages_first up re 9%nat 0%nat None []) as Hfirst.
  rewrite head_lookup in Hfirst.
  split; [|split; [|split; [|split; [|split; [|split]]]]].
  - split; [|apply pages_length].
    apply lookup_lt_Some in Hfirst. lia.
  - apply pages_params.
  - eexists. split; [exact Hfirst | reflexivity].
  - intros k params Hk.
    destruct (pages_cursor up re _ _ _ _ _ _ Hk)
      as (previous & statuses & lastStatus & H1 & H2 & H3 & H4 & H5).
    exists previous, statuses, lastStatus.
    repeat (split; [assumption|]).
    intros Hid. rewrite H5. cbn [max_id_param].
    destruct (decide (st_id lastStatus = "")); [contradiction | reflexivity].
  - intros k params Hk Hex. exact (pages_exhausted up re _ _ _ _ _ _ Hk Hex).
  - intros Hfull Hfive.
    assert (forall k, (k <= 9)%nat ->
              is_Some (fst (mastodon_pages up re 10%nat 0%nat None []) !! k)) as Hall.
    { induction k as [|k IHk]; intros Hle.
      - rewrite Hfirst. eauto.
      - destruct IHk as [params Hk]; [lia|].
        destruct (Hfull k params) as (statuses & Hpage & Hlen); [lia|].
        apply (pages_full up re _ _ _ _ _ params statuses Hk Hpage);
          [rewrite Hlen; reflexivity | lia]. }
    destruct (Hall 9%nat) as [params Hk]; [lia|].
    destruct (Hfive params) as (statuses & Hpage & Hlen).
    apply (pages_exhausted up re _ _ _ _ _ _ Hk).
    cbn [Nat.add].
    destruct (up 9%nat params) as [e | [] status [e | | | sts]];
      cbn [page_statuses page_exhausted] in Hpage |- *; try discriminate.
    injection Hpage as ->. rewrite Hlen. reflexivity.
  - intros Hempty.
    rewrite (pages_empty_first up re 9%nat 0%nat None [] Hempty).
    split; reflexivity.
Qed.

Lemma fetchMastodonPosts_pagination_witness :
  let requests := mf_requests (fetchMastodonPosts 2 nine_full_then_five) in
  let second :=
    {| sp_q := "bea.gov OR stlouisfed.org OR worldbank.org OR bls.gov OR imf.org OR oecd.org OR europa.eu\/eurostat OR unstats.un.org";
       sp_type := "statuses"; sp_limit := "40"; sp_max_id := Some "40" |} in
  js_index nostrSearchPatterns 2
  = Some (RegExp.new (nth 2 pattern_sources "") "i")
  /\ length requests = 10%nat
  /\ (requests !! 1%nat = Some second
      /\ exists previous statuses lastStatus,
           requests !! 0%nat = Some previous
           /\ page_statuses (nine_full_then_five 0%nat previous) = Some statuses
           /\ 40 <= Z.of_nat (length statuses)
           /\ last statuses = Some lastStatus
           /\ (st_id lastStatus <> "" ->
               sp_max_id second = Some (st_id lastStatus)))
  /\ length (mf_requests (fetchMastodonPosts 2 empty_first_page)) = 1%nat
  /\ mf_result (fetchMastodonPosts 2 empty_first_page) = Resolved [].
Proof.
  intros requests second.
  assert (js_index nostrSearchPatterns 2
          = Some (RegExp.new (nth 2 pattern_sources "") "i")) as Hre
    by reflexivity.
  pose proof (fetchMastodonPosts_pagination 2 _ nine_full_then_five Hre)
    as (_ & _ & _ & Hcursor & _ & Hscenario & _).
  split; [exact Hre|].
  split; [|split].
  - apply Hscenario.
    + intros k params Hk. unfold nine_full_then_five.
      destruct (Nat.ltb_spec k 9) as [_ | Hge]; [|lia].
      eexists. split; [reflexivity|].
      unfold sample_page. rewrite length_map, length_seq. reflexivity.
    + intros params. eexists. split; reflexivity.
  - assert (requests !! 1%nat = Some second) as Hsecond
      by (vm_compute; reflexivity).
    split; [exact Hsecond|].
    exact (Hcursor 0%nat second Hsecond).
  - apply (fetchMastodonPosts_pagination 2 _ empty_first_page Hre).
    intros params. exists 200. reflexivity.
Defined.

(** ** The result cache and the relay fetcher *)

Lemma cacheKey_inj (a b : Z) : cacheKey a = cacheKey b -> a = b.
Proof.
  unfold cacheKey. cbn [String.append]. intros [= Heq].
  exact (pretty_Z_inj _ _ Heq).
Qed.

Section CacheFacts.

Implicit Types (c : gmap string NodeCache.entry) (key : string)
  (v : list NostrPost).

Lemma get_set_live c key v (tset tget : Z) :
  tget - tset <= NodeCache.stdTTL * 1000 ->
  NodeCache.get tget (NodeCache.set tset c key v) key = Some v.
Proof.
  intros Hlive. unfold NodeCache.get, NodeCache.set.
  rewrite lookup_insert_eq. cbn [NodeCache.expires NodeCache.value].
  destruct (Z.ltb_spec (tset + NodeCache.stdTTL * 1000) tget); [lia | reflexivity].
Qed.

Lemma get_set_expired c key v (tset tget : Z) :
  NodeCache.stdTTL * 1000 < tget - tset ->
  NodeCache.get tget (NodeCache.set tset c key v) key = None.
Proof.
  intros Hold. unfold NodeCache.get, NodeCache.set.
  rewrite lookup_insert_eq. cbn [NodeCache.expires NodeCache.value].
  destruct (Z.ltb_spec (tset + NodeCache.stdTTL * 1000) tget); [reflexivity | lia].
Qed.

Lemma get_entry c key (e : NodeCache.entry) (now : Z) :
  c !! key = Some e -> now <= NodeCache.expires e ->
  NodeCache.get now c key = Some (NodeCache.value e).
Proof.
  intros He Hlive. unfold NodeCache.get. rewrite He.
  destruct (Z.ltb_spec (NodeCache.expires e) now); [lia | reflexivity].
Qed.

End CacheFacts.

Section NostrFetcher.

Variable npubEncode : string -> option string.

Implicit Types (c : gmap string NodeCache.entry) (run : RelayRun)
  (activeTab now : Z).

Lemma fetchNostrPosts_hit activeTab now run c (cachedResult : list NostrPost) :
  NodeCache.get now c (cacheKey activeTab) = Some cachedResult ->
  fetchNostrPosts npubEncode activeTab now run c
  = {| nf_result := Resolved cachedResult; nf_cache := c; nf_effects := [] |}.
Proof. intros Hhit. unfold fetchNostrPosts. rewrite Hhit. reflexivity. Qed.

(** The relay fetcher always resolves. *)
Lemma fetchNostrPosts_resolves activeTab now run c :
  exists posts,
    nf_result (fetchNostrPosts npubEncode activeTab now run c) = Resolved posts.
Proof.
  unfold fetchNostrPosts.
  destruct (NodeCache.get now c (cacheKey activeTab)); [eauto|].
  destruct run as [e | delivered timerAt]; [eauto|].
  destruct (map_throwing _ _); eauto.
Qed.

(** Another tab's fetch leaves this tab's entry alone. *)
Lemma fetchNostrPosts_other_key activeTab other now run c :
  other <> activeTab ->
  nf_cache (fetchNostrPosts npubEncode other now run c) !! cacheKey activeTab
  = c !! cacheKey activeTab.
Proof.
  intros Hne. unfold fetchNostrPosts.
  destruct (NodeCache.get now c (cacheKey other)); [reflexivity|].
  destruct run as [e | delivered timerAt]; [reflexivity|].
  destruct (map_throwing _ _); [|reflexivity].
  cbn [nf_cache]. unfold NodeCache.set. apply lookup_insert_ne.
  intros Heq. apply Hne. exact (cacheKey_inj _ _ Heq).
Qed.

(** What the listener keeps has matched the pattern of the tab. *)
Lemma collected_matching activeTab (delivered acc : list NostrEvent) :
  Forall (fun ev => tab_matches activeTab (ev_content ev) = true) acc ->
  Forall (fun ev => tab_matches activeTab (ev_content ev) = true)
    (fold_left (on_event activeTab) delivered acc).
Proof.
  revert acc. induction delivered as [|ev delivered IH]; intros acc Hacc;
    cbn [fold_left]; [exact Hacc|].
  apply IH. unfold on_event.
  destruct (js_index nostrSearchPatterns activeTab) as [re|] eqn:Hre;
    [|exact Hacc].
  destruct (RegExp.test re (ev_content ev)) eqn:Htest; [|exact Hacc].
  apply Forall_app. split; [exact Hacc|].
  constructor; [|constructor]. unfold tab_matches. rewrite Hre. exact Htest.
Qed.

(** With no matching event the listener keeps nothing. *)
Lemma collected_none activeTab (delivered : list NostrEvent) :
  Forall (fun ev => tab_matches activeTab (ev_content ev) = false) delivered ->
  fold_left (on_event activeTab) delivered [] = [].
Proof.
  induction delivered as [|ev delivered IH]; intros Hnone;
    cbn [fold_left]; [reflexivity|].
  apply Forall_cons_iff in Hnone. destruct Hnone as [Hev Hrest].
  replace (on_event activeTab [] ev) with (@nil NostrEvent); [exact (IH Hrest)|].
  unfold on_event, tab_matches in *.
  destruct (js_index nostrSearchPatterns activeTab); [|reflexivity].
  rewrite Hev. reflexivity.
Qed.

Lemma process_event_content (ev : NostrEvent) (post : NostrPost) :
  process_event npubEncode ev = Some post -> np_content post = ev_content ev.
Proof.
  unfold process_event. destruct (npubEncode (ev_pubkey ev)); [|discriminate].
  intros [= <-]. reflexivity.
Qed.

Lemma fetchNostrPosts_classified activeTab now run c :
  cache_classified c ->
  cache_classified (nf_cache (fetchNostrPosts npubEncode activeTab now run c))
  /\ forall posts,
       nf_result (fetchNostrPosts npubEncode activeTab now run c) = Resolved posts ->
       Forall (fun post => tab_matches activeTab (np_content post) = true) posts.
Proof.
  intros Hinv. unfold fetchNostrPosts.
  destruct (NodeCache.get now c (cacheKey activeTab)) as [cached|] eqn:Hget.
  { cbn [nf_cache nf_result]. split; [exact Hinv|]. intros posts [= <-].
    unfold NodeCache.get in Hget.
    destruct (c !! cacheKey activeTab) as [e|] eqn:He; [|discriminate].
    destruct (NodeCache.expires e <? now); [discriminate|].
    injection Hget as <-. exact (Hinv _ _ He). }
  destruct run as [err | delivered timerAt].
  { cbn [nf_cache nf_result]. split; [exact Hinv|].
    intros posts [= <-]. constructor. }
  destruct (map_throwing (process_event npubEncode)
              (fold_left (on_event activeTab) delivered []))
    as [processedEvents|] eqn:Hmap; cbn [nf_cache nf_result].
  2:{ split; [exact Hinv|]. intros posts [= <-]. constructor. }
  assert (Forall (fun post => tab_matches activeTab (np_content post) = true)
            processedEvents) as Hok.
  { apply (map_throwing_Forall (process_event npubEncode)
             (fun ev => tab_matches activeTab (ev_content ev) = true) _
             (fold_left (on_event activeTab) delivered []) processedEvents);
      [| |exact Hmap].
    - intros ev post Hp Hev. rewrite (process_event_content _ _ Hp). exact Hev.
    - apply collected_matching. constructor. }
  split; [|intros posts [= <-]; exact Hok].
  intros tab e. unfold NodeCache.set.
  destruct (decide (tab = activeTab)) as [-> | Hne].
  - rewrite lookup_insert_eq. intros [= <-]. exact Hok.
  - rewrite lookup_insert_ne; [apply Hinv|].
    intros Heq. apply Hne. symmetry. exact (cacheKey_inj _ _ Heq).
Qed.

Lemma cache_reachable_classified c :
  cache_reachable npubEncode c -> cache_classified c.
Proof.
  induction 1 as [|activeTab now run c Hreach IH].
  - intros tab e. unfold NodeCache.empty. rewrite lookup_empty. discriminate.
  - exact (proj1 (fetchNostrPosts_classified activeTab now run c IH)).
Qed.

End NostrFetcher.

(** C6.  A [set] followed by a [get] of the same key no more than 600
    seconds later gives the value back; later than that the [get] is a
    miss; and on a hit the relay fetcher resolves to the cached list,
    touches neither the cache nor the pool, and opens no subscription. *)
Theorem nostrCache_ttl_and_hit :
  forall npubEncode : string -> option string,
    (forall (c : gmap string NodeCache.entry) (key : string)
            (v : list NostrPost) (tset tget : Z),
        tget - tset <= 600 * 1000 ->
        NodeCache.get tget (NodeCache.set tset c key v) key = Some v)
    /\ (forall (c : gmap string NodeCache.entry) (key : string)
               (v : list NostrPost) (tset tget : Z),
        600 * 1000 < tget - tset ->
        NodeCache.get tget (NodeCache.set tset c key v) key = None)
    /\ (forall (activeTab now : Z) (run : RelayRun)
               (c : gmap string NodeCache.entry) (cachedResult : list NostrPost),
        NodeCache.get now c (cacheKey activeTab) = Some cachedResult ->
        fetchNostrPosts npubEncode activeTab now run c
        = {| nf_result := Resolved cachedResult;
             nf_cache := c;
             nf_effects := [] |}).
Proof.
  intros npubEncode. split; [|split].
  - intros c key v tset tget Hlive. apply get_set_live. exact Hlive.
  - intros c key v tset tget Hold. apply get_set_expired. exact Hold.
  - intros activeTab now run c cachedResult Hhit.
    apply fetchNostrPosts_hit. exact Hhit.
Qed.

Lemma nostrCache_ttl_and_hit_witness :
  let v := [sample_post "e1" "minutes at https://www.federalreserve.gov/x"] in
  let c := NodeCache.set 1000 NodeCache.empty (cacheKey 1) v in
  (600000 - 1000 <= 600 * 1000 /\ NodeCache.get 600000 c (cacheKey 1) = Some v)
  /\ (600 * 1000 < 601001 - 1000 /\ NodeCache.get 601001 c (cacheKey 1) = None)
  /\ fetchNostrPosts sample_npubEncode 1 600000
       (Collected [sample_event "e2" "later, usa.gov/y"] 610000) c
     = {| nf_result := Resolved v; nf_cache := c; nf_effects := [] |}.
Proof.
  intros v c.
  assert (600000 - 1000 <= 600 * 1000) as Hlive by lia.
  assert (600 * 1000 < 601001 - 1000) as Hold by lia.
  pose proof (nostrCache_ttl_and_hit sample_npubEncode) as (Hget & Hmiss & Hhit).
  assert (NodeCache.get 600000 c (cacheKey 1) = Some v) as Hcached
    by exact (Hget NodeCache.empty (cacheKey 1) v 1000 600000 Hlive).
  split; [split; [exact Hlive | exact Hcached]|].
  split; [split; [exact Hold|]|].
  - exact (Hmiss NodeCache.empty (cacheKey 1) v 1000 601001 Hold).
  - exact (Hhit 1 600000 _ c v Hcached).
Defined.

(** ** Relay fetches in flight *)

Section RelayInFlight.

Variable npubEncode : string -> option string.

Implicit Types (c : gmap string NodeCache.entry) (st : RelayServer)
  (activeTab t now expiry : Z) (posts : list NostrPost).

(** A whole fetch is its lookup and, on a miss, its continuation on the
    same cache. *)
Lemma fetchNostrPosts_phases activeTab now (run : RelayRun) c :
  fetchNostrPosts npubEncode activeTab now run c
  = match NodeCache.get now c (cacheKey activeTab) with
    | Some cachedResult =>
        {| nf_result := Resolved cachedResult; nf_cache := c; nf_effects := [] |}
    | None => fetchNostrPosts_settle npubEncode activeTab run c
    end.
Proof.
  unfold fetchNostrPosts, fetchNostrPosts_settle.
  destruct (NodeCache.get now c (cacheKey activeTab)); [reflexivity|].
  destruct run; reflexivity.
Qed.

Lemma settle_other_key activeTab t (run : RelayRun) c :
  t <> activeTab ->
  nf_cache (fetchNostrPosts_settle npubEncode t run c) !! cacheKey activeTab
  = c !! cacheKey activeTab.
Proof.
  intros Hne. unfold fetchNostrPosts_settle.
  destruct run as [e | delivered timerAt]; [reflexivity|].
  destruct (map_throwing _ _); [|reflexivity].
  cbn [nf_cache]. unfold NodeCache.set. apply lookup_insert_ne.
  intros Heq. apply Hne. exact (cacheKey_inj _ _ Heq).
Qed.

Lemma relay_run_cons (ev : RelayEvent) (rest : list RelayEvent) st :
  relay_run npubEncode (ev :: rest) st
  = (fst (relay_step npubEncode ev st)
       :: fst (relay_run npubEncode rest (snd (relay_step npubEncode ev st))),
     snd (relay_run npubEncode rest (snd (relay_step npubEncode ev st)))).
Proof.
  cbn [relay_run]. destruct (relay_step npubEncode ev st) as [o st'].
  cbn [fst snd]. destruct (relay_run npubEncode rest st'); reflexivity.
Qed.

(** While the entry is alive and calls for the tab arrive inside the
    window, each of them is served the entry and none goes in flight, so
    the entry stays. *)
Lemma holds_list_step activeTab posts (earliest expiry : Z)
  (ev : RelayEvent) st :
  holds_list activeTab posts expiry st ->
  in_window activeTab earliest expiry ev ->
  holds_list activeTab posts expiry (snd (relay_step npubEncode ev st))
  /\ (forall now, ev = Arrives activeTab now ->
      fst (relay_step npubEncode ev st) = Served posts).
Proof.
  intros [Hentry Hnone] Hwin. destruct ev as [t now | k run]; cbn [relay_step].
  - destruct (decide (t = activeTab)) as [-> | Hne].
    + cbn [in_window] in Hwin. specialize (Hwin eq_refl).
      rewrite (get_entry _ _ _ now Hentry); [|cbn; lia].
      cbn [fst snd NodeCache.value]. split; [split; assumption|].
      intros now' _. reflexivity.
    + split; [|intros now' [= H _]; contradiction].
      destruct (NodeCache.get now (rs_nostrCache st) (cacheKey t));
        cbn [snd]; [split; assumption|].
      split; [exact Hentry|]. cbn [rs_inflight].
      apply Forall_app. split; [exact Hnone|]. constructor; [exact Hne|constructor].
  - split; [|discriminate].
    destruct (rs_inflight st !! k) as [t|] eqn:Hk; cbn [snd];
      [|split; assumption].
    assert (t <> activeTab) as Hne.
    { rewrite Forall_forall in Hnone. apply Hnone.
      eapply list_elem_of_lookup_2. exact Hk. }
    split; cbn [rs_nostrCache rs_inflight].
    + rewrite (settle_other_key activeTab t run _ Hne). exact Hentry.
    + apply Forall_delete. exact Hnone.
Qed.

Lemma holds_list_run activeTab posts (earliest expiry : Z)
  (evs : list RelayEvent) st :
  holds_list activeTab posts expiry st ->
  Forall (in_window activeTab earliest expiry) evs ->
  holds_list activeTab posts expiry (snd (relay_run npubEncode evs st))
  /\ (forall (i : nat) now,
        evs !! i = Some (Arrives activeTab now) ->
        fst (relay_run npubEncode evs st) !! i = Some (Served posts)).
Proof.
  revert st. induction evs as [|ev rest IH]; intros st Hst Hwin.
  - cbn [relay_run snd]. split; [exact Hst|]. intros i now.
    rewrite lookup_nil. discriminate.
  - apply Forall_cons_iff in Hwin. destruct Hwin as [Hev Hrest].
    destruct (holds_list_step activeTab posts earliest expiry ev st Hst Hev)
      as [Hnext Hserved].
    destruct (IH _ Hnext Hrest) as [Hend Hlater].
    rewrite relay_run_cons. cbn [fst snd]. split; [exact Hend|].
    intros [|i] now; rewrite ?at_first, ?at_later.
    + intros [= ->]. f_equal. exact (Hserved now eq_refl).
    + apply Hlater.
Qed.

(** A continuation that goes through leaves its list under the tab's key;
    with no other fetch for the tab in flight, the entry is safe. *)
Lemma settle_holds_list activeTab (k : nat) (delivered : list NostrEvent)
  (timerAt : Z) posts st :
  rs_inflight st !! k = Some activeTab ->
  Forall (fun t => t <> activeTab) (delete k (rs_inflight st)) ->
  map_throwing (process_event npubEncode)
    (fold_left (on_event activeTab) delivered []) = Some posts ->
  relay_step npubEncode (Settles k (Collected delivered timerAt)) st
  = (Settled {| nf_result := Resolved posts;
                nf_cache := NodeCache.set timerAt (rs_nostrCache st)
                              (cacheKey activeTab) posts;
                nf_effects := [PoolSub; SubUnsub; PoolClose] |},
     {| rs_nostrCache := NodeCache.set timerAt (rs_nostrCache st)
                           (cacheKey activeTab) posts;
        rs_inflight := delete k (rs_inflight st) |})
  /\ holds_list activeTab posts (timerAt + 600 * 1000)
       (snd (relay_step npubEncode (Settles k (Collected delivered timerAt)) st)).
Proof.
  intros Hk Hothers Hposts. cbn [relay_step]. rewrite Hk.
  cbn [fetchNostrPosts_settle]. rewrite Hposts. cbn [nf_cache snd].
  split; [reflexivity|]. split; [|exact Hothers].
  cbn [rs_nostrCache]. unfold NodeCache.set. apply lookup_insert_eq.
Qed.

End RelayInFlight.

(** C10, as amended.  When the continuation of a fetch runs with no event
    matching the tab's pattern, it resolves to the empty list and stores it
    under the tab's key for 600 seconds.  If no other fetch for that tab
    is in flight at that moment then, whatever else the server does, every
    call for that tab that arrives from then on and within those 600
    seconds is answered the empty list from the cache, and none of them
    goes to the relay pool. *)
Theorem fetchNostrPosts_empty_result_cached :
  forall (npubEncode : string -> option string) (activeTab : Z)
         (delivered : list NostrEvent) (timerAt : Z) (st : RelayServer)
         (k : nat),
    rs_inflight st !! k = Some activeTab ->
    Forall (fun t => t <> activeTab) (delete k (rs_inflight st)) ->
    Forall (fun ev => tab_matches activeTab (ev_content ev) = false) delivered ->
    let settled :=
      relay_step npubEncode (Settles k (Collected delivered timerAt)) st in
    (exists fetch,
        fst settled = Settled fetch /\ nf_result fetch = Resolved [])
    /\ rs_nostrCache (snd settled) !! cacheKey activeTab
       = Some {| NodeCache.value := [];
                 NodeCache.expires := timerAt + 600 * 1000 |}
    /\ forall later : list RelayEvent,
         Forall (in_window activeTab timerAt (timerAt + 600 * 1000)) later ->
         (forall (i : nat) (now : Z),
             later !! i = Some (Arrives activeTab now) ->
             fst (relay_run npubEncode later (snd settled)) !! i
             = Some (Served []))
         /\ Forall (fun t => t <> activeTab)
              (rs_inflight (snd (relay_run npubEncode later (snd settled)))).
Proof.
  intros npubEncode activeTab delivered timerAt st k Hk Hothers Hnone settled.
  assert (map_throwing (process_event npubEncode)
            (fold_left (on_event activeTab) delivered []) = Some []) as Hposts.
  { rewrite (collected_none activeTab delivered Hnone). reflexivity. }
  destruct (settle_holds_list npubEncode activeTab k delivered timerAt [] st
              Hk Hothers Hposts) as [Hstep Hholds].
  fold settled in Hstep, Hholds.
  split; [|split].
  - rewrite Hstep. cbn [fst]. eexists. split; reflexivity.
  - exact (proj1 Hholds).
  - intros later Hwin.
    destruct (holds_list_run npubEncode activeTab [] timerAt
                (timerAt + 600 * 1000) later (snd settled) Hholds Hwin)
      as [Hend Hserved].
    split; [exact Hserved | exact (proj2 Hend)].
Qed.

Lemma fetchNostrPosts_empty_result_cached_witness :
  let st := {| rs_nostrCache := NodeCache.empty; rs_inflight := [3; 1] |} in
  let delivered := [sample_event "e1" "gm"; sample_event "e2" "coffee time"] in
  let settled :=
    relay_step sample_npubEncode (Settles 1 (Collected delivered 10000)) st in
  let later :=
    [ Arrives 1 10000;
      Settles 0 (Collected [sample_event "e3" "read arxiv.org/abs/1"] 12000);
      Arrives 4 20000;
      Arrives 1 610000 ] in
  rs_inflight st !! 1%nat = Some 1
  /\ Forall (fun t => t <> 1) (delete 1%nat (rs_inflight st))
  /\ Forall (fun ev => tab_matches 1 (ev_content ev) = false) delivered
  /\ Forall (in_window 1 10000 (10000 + 600 * 1000)) later
  /\ fst (relay_run sample_npubEncode later (snd settled)) !! 0%nat
     = Some (Served [])
  /\ fst (relay_run sample_npubEncode later (snd settled)) !! 3%nat
     = Some (Served []).
Proof.
  intros st delivered settled later.
  assert (rs_inflight st !! 1%nat = Some 1) as Hk by reflexivity.
  assert (Forall (fun t => t <> 1) (delete 1%nat (rs_inflight st))) as Hothers
    by (repeat constructor; discriminate).
  assert (Forall (fun ev => tab_matches 1 (ev_content ev) = false) delivered)
    as Hnone by (repeat constructor).
  assert (Forall (in_window 1 10000 (10000 + 600 * 1000)) later) as Hwin.
  { repeat constructor; cbn [in_window]; try exact I; intros; try lia;
      discriminate. }
  split; [exact Hk|]. split; [exact Hothers|]. split; [exact Hnone|].
  split; [exact Hwin|].
  destruct (fetchNostrPosts_empty_result_cached sample_npubEncode 1 delivered
              10000 st 1%nat Hk Hothers Hnone) as (_ & _ & Hlater).
  destruct (Hlater later Hwin) as [Hserved _].
  split.
  - exact (Hserved 0%nat 10000 eq_refl).
  - exact (Hserved 3%nat 610000 eq_refl).
Defined.

(** C10 as stated fails when two fetches for the tab overlap.  Both miss;
    the first settles at 10000 with no matching event and stores the empty
    list; the second, in flight since 5000, settles at 15000 with one
    matching event and stores its own list over it.  A call at 20000, well
    within 600 seconds of the first store, is served that list and not the
    empty one. *)
Lemma relay_overlapping_fetch_overwrites :
  let evs :=
    [ Arrives 1 0;
      Arrives 1 5000;
      Settles 0 (Collected [sample_event "e1" "gm"] 10000);
      Settles 0 (Collected [sample_event "e2" "forms at irs.gov/forms"] 15000);
      Arrives 1 20000 ] in
  fst (relay_run sample_npubEncode evs
         {| rs_nostrCache := NodeCache.empty; rs_inflight := [] |})
  = [ Missed;
      Missed;
      Settled {| nf_result := Resolved [];
                 nf_cache := NodeCache.set 10000 NodeCache.empty (cacheKey 1) [];
                 nf_effects := [PoolSub; SubUnsub; PoolClose] |};
      Settled {| nf_result := Resolved [sample_post "e2" "forms at irs.gov/forms"];
                 nf_cache :=
                   NodeCache.set 15000
                     (NodeCache.set 10000 NodeCache.empty (cacheKey 1) [])
                     (cacheKey 1) [sample_post "e2" "forms at irs.gov/forms"];
                 nf_effects := [PoolSub; SubUnsub; PoolClose] |};
      Served [sample_post "e2" "forms at irs.gov/forms"] ]
  /\ 20000 - 10000 <= 600 * 1000
  /\ Served [sample_post "e2" "forms at irs.gov/forms"] <> Served [].
Proof.
  split; [vm_compute; reflexivity|]. split; [lia | discriminate].
Qed.

(** ** The Bluesky fetcher *)

(** The Bluesky fetcher always resolves; an index without a feed link is
    a failed feed request, inside the [try]. *)
Lemma fetchBlueskyPosts_resolves (activeTab : Z) (preferredLanguages : string)
  (now : Z) (up : BlueskyUpstream) (bucket : TokenBucket) :
  exists posts,
    fst (fetchBlueskyPosts activeTab preferredLanguages now up bucket)
    = Resolved posts.
Proof.
  unfold fetchBlueskyPosts.
  destruct (getToken now bucket) as [[] bucket']; cbn [negb fst]; [|eauto].
  destruct (bs_login up); [eauto|].
  destruct (bs_getFeed up _ _) as [e | [postsArray|]]; [eauto | | eauto].
  destruct (map_throwing process_item postsArray); eauto.
Qed.

Lemma map_throwing_process_item (postsArray : list FeedItem)
  (posts : list BlueskyPost) :
  map_throwing process_item postsArray = Some posts ->
  map bp_item posts = postsArray.
Proof.
  revert posts. induction postsArray as [|item rest IH]; intros posts; cbn.
  - intros [= <-]. reflexivity.
  - unfold process_item at 1. destruct (fi_segments item); [|discriminate].
    destruct (map_throwing process_item rest) as [ps|]; [|discriminate].
    intros [= <-]. cbn [map bp_item]. f_equal. apply IH. reflexivity.
Qed.

(** What the Bluesky fetcher returns, when it returns posts, is the whole
    feed of the tab's generator, post by post. *)
Lemma fetchBlueskyPosts_whole_feed (activeTab : Z) (preferredLanguages : string)
  (now : Z) (up : BlueskyUpstream) (bucket : TokenBucket)
  (posts : list BlueskyPost) :
  fst (fetchBlueskyPosts activeTab preferredLanguages now up bucket)
  = Resolved posts ->
  posts = []
  \/ bs_getFeed up (js_index feedLinks activeTab) preferredLanguages
     = GetFeedData (Some (map bp_item posts)).
Proof.
  unfold fetchBlueskyPosts.
  destruct (getToken now bucket) as [[] bucket']; cbn [negb fst];
    [|intros [= <-]; auto].
  destruct (bs_login up); [intros [= <-]; auto|].
  destruct (bs_getFeed up _ _) as [e | [postsArray|]];
    [intros [= <-]; auto | | intros [= <-]; auto].
  destruct (map_throwing process_item postsArray) as [ps|] eqn:Hmap;
    intros [= <-]; [|auto].
  right. rewrite (map_throwing_process_item _ _ Hmap). reflexivity.
Qed.

(** C1, as amended.  Whatever the tab and whatever the upstreams answer,
    every status the Mastodon fetcher returns and every event the relay
    fetcher returns (fresh or from a cache only it has filled) has a
    content that matches the pattern of the tab.  The Bluesky fetcher
    tests no pattern: what it returns is the feed of the tab's generator. *)
Theorem fetchers_classified :
  forall npubEncode : string -> option string,
    (forall (activeTab : Z) (up : Upstream) (posts : list MastodonPost),
        mf_result (fetchMastodonPosts activeTab up) = Resolved posts ->
        Forall (fun post => tab_matches activeTab (mp_content post) = true) posts)
    /\ (forall (c : gmap string NodeCache.entry),
          cache_reachable npubEncode c ->
          forall (activeTab now : Z) (run : RelayRun) (posts : list NostrPost),
            nf_result (fetchNostrPosts npubEncode activeTab now run c)
            = Resolved posts ->
            Forall (fun post => tab_matches activeTab (np_content post) = true)
              posts)
    /\ (forall (activeTab : Z) (preferredLanguages : string) (now : Z)
               (up : BlueskyUpstream) (bucket : TokenBucket)
               (posts : list BlueskyPost),
          fst (fetchBlueskyPosts activeTab preferredLanguages now up bucket)
          = Resolved posts ->
          posts = []
          \/ bs_getFeed up (js_index feedLinks activeTab) preferredLanguages
             = GetFeedData (Some (map bp_item posts))).
Proof.
  intros npubEncode. split; [|split].
  - intros activeTab up posts. apply fetchMastodonPosts_matching.
  - intros c Hreach activeTab now run posts.
    apply (fetchNostrPosts_classified npubEncode activeTab now run c).
    apply (cache_reachable_classified npubEncode). exact Hreach.
  - intros activeTab preferredLanguages now up bucket posts.
    apply fetchBlueskyPosts_whole_feed.
Qed.

Lemma fetchers_classified_witness :
  let c :=
    nf_cache (fetchNostrPosts sample_npubEncode 3 0
                (Collected [sample_event "e0" "new on arxiv.org/abs/2401.1"] 10000)
                NodeCache.empty) in
  let delivered :=
    [sample_event "e1" "budget tables at https://www.cbo.GOV/data";
     sample_event "e2" "coffee time"] in
  (mf_result (fetchMastodonPosts 2 mixed_single_page)
   = Resolved [sample_mastodon_post]
   /\ Forall (fun post => tab_matches 2 (mp_content post) = true)
        [sample_mastodon_post])
  /\ (cache_reachable sample_npubEncode c
      /\ nf_result (fetchNostrPosts sample_npubEncode 1 20000
                      (Collected delivered 30000) c)
         = Resolved [sample_post "e1" "budget tables at https://www.cbo.GOV/data"]
      /\ Forall (fun post => tab_matches 1 (np_content post) = true)
           [sample_post "e1" "budget tables at https://www.cbo.GOV/data"])
  /\ (fst (fetchBlueskyPosts 1 "en-US" 0 sample_bluesky (tokenBucket 0))
      = Resolved [ {| bp_item := sample_feed_item;
                      bp_markdown := "good morning";
                      bp_facets := None;
                      bp_embed := None |} ]
      /\ bs_getFeed sample_bluesky (js_index feedLinks 1) "en-US"
         = GetFeedData (Some [sample_feed_item])).
Proof.
  intros c delivered.
  pose proof (fetchers_classified sample_npubEncode)
    as (Hmastodon & Hnostr & Hbluesky).
  split; [|split].
  - assert (mf_result (fetchMastodonPosts 2 mixed_single_page)
            = Resolved [sample_mastodon_post]) as Hres
      by (vm_compute; reflexivity).
    split; [exact Hres|].
    exact (Hmastodon 2 mixed_single_page _ Hres).
  - assert (cache_reachable sample_npubEncode c) as Hreach
      by (apply cache_fetch; apply cache_start).
    assert (nf_result (fetchNostrPosts sample_npubEncode 1 20000
                         (Collected delivered 30000) c)
            = Resolved [sample_post "e1" "budget tables at https://www.cbo.GOV/data"])
      as Hres by (vm_compute; reflexivity).
    split; [exact Hreach|]. split; [exact Hres|].
    exact (Hnostr c Hreach 1 20000 (Collected delivered 30000) _ Hres).
  - assert (fst (fetchBlueskyPosts 1 "en-US" 0 sample_bluesky (tokenBucket 0))
            = Resolved [ {| bp_item := sample_feed_item;
                            bp_markdown := "good morning";
                            bp_facets := None;
                            bp_embed := None |} ]) as Hres
      by reflexivity.
    split; [exact Hres|].
    destruct (Hbluesky 1 "en-US" 0 sample_bluesky (tokenBucket 0) _ Hres)
      as [Hnil | Hfeed]; [discriminate Hnil | exact Hfeed].
Defined.

(** C1 as stated fails on the Bluesky fetcher: at tab 1 (pattern
    [\.gov\/]) it returns a post whose text, and whose markdown, the
    pattern does not match. *)
Lemma fetchBlueskyPosts_unclassified :
  fst (fetchBlueskyPosts 1 "en-US" 0 sample_bluesky (tokenBucket 0))
  = Resolved [ {| bp_item := sample_feed_item;
                  bp_markdown := "good morning";
                  bp_facets := None;
                  bp_embed := None |} ]
  /\ fi_text sample_feed_item = "good morning"
  /\ tab_matches 1 "good morning" = false.
Proof. split; [reflexivity|]. split; reflexivity. Qed.

(** ** Tab indices without a pattern *)

Lemma no_pattern_from_7 (n : Z) :
  7 <= n -> js_index nostrSearchPatterns n = None.
Proof.
  intros Hn. unfold js_index.
  destruct (Z.ltb_spec n 0); [reflexivity|].
  apply nth_error_None. change (length nostrSearchPatterns) with 7%nat. lia.
Qed.

Lemma pattern_in_range (n : Z) :
  0 <= n < 7 -> is_Some (js_index nostrSearchPatterns n).
Proof.
  intros Hn. unfold js_index.
  destruct (Z.ltb_spec n 0); [lia|].
  apply not_eq_None_Some. intros Hnone. apply nth_error_None in Hnone.
  change (length nostrSearchPatterns) with 7%nat in Hnone. lia.
Qed.

(** C2, where the code departs from it.  The route hands the index 7 to
    the fetchers as it is, and there the Mastodon fetcher does not resolve
    to a list: it rejects with the [TypeError] of its pattern lookup,
    having issued no request.  (The Bluesky and the relay fetcher resolve
    at every index, and so does the Mastodon fetcher at the indices 0 to 6:
    [fetchBlueskyPosts_resolves], [fetchNostrPosts_resolves],
    [fetchMastodonPosts_resolves].) *)
Theorem fetchMastodonPosts_rejects_without_pattern :
  activeTab_of (Some 7) = 7
  /\ forall up : Upstream,
       fetchMastodonPosts 7 up
       = {| mf_result :=
              Rejected (TypeError "Cannot read properties of undefined (reading 'source')");
            mf_requests := [] |}.
Proof. split; [reflexivity | intros up; reflexivity]. Qed.

(** C7, where the code departs from it.  The query of tab 1 is [.gov\/]:
    the dot is unescaped, the escaped slash is not.  Of the seven queries
    only that of tab 3 is free of backslashes. *)
Theorem searchQuery_keeps_escaped_slash :
  searchQuery 1 = Some ".gov\/"
  /\ map (fun activeTab => has_backslash <$> searchQuery activeTab)
       [0; 1; 2; 3; 4; 5; 6]
     = [Some true; Some true; Some true; Some false;
        Some true; Some true; Some true].
Proof. split; reflexivity. Qed.

(** C9.  When [parseInt] answers an integer from 7 on, the handler of
    [/api/feed] answers the 500 envelope, not the three lists: the Mastodon
    fetcher has rejected at its pattern lookup. *)
Theorem api_feed_out_of_range_500 :
  forall (npubEncode : string -> option string) (n : Z)
         (queryLanguages : option string) (w : World) (s : ServerState),
    7 <= n ->
    exists details,
      fst (api_feed npubEncode (Some n) queryLanguages w s)
      = Reply500 "Error fetching feed" details.
Proof.
  intros npubEncode n queryLanguages w s Hn. unfold api_feed.
  assert (activeTab_of (Some n) = n) as ->.
  { cbn [activeTab_of]. destruct (Z.eqb_spec n 0); [lia | reflexivity]. }
  rewrite (fetchMastodonPosts_no_pattern _ _ (no_pattern_from_7 n Hn)).
  cbn [mf_result].
  destruct (fetchBlueskyPosts n _ _ _ _) as [[b | eb] bucket'];
    destruct (nf_result _) as [r | er]; cbn [promise_all3 fst]; eauto.
Qed.

Lemma api_feed_out_of_range_500_witness :
  7 <= 7
  /\ exists details,
       fst (api_feed sample_npubEncode (Some 7) None sample_world sample_state)
       = Reply500 "Error fetching feed" details.
Proof.
  assert (7 <= 7) as Hn by lia.
  split; [exact Hn|].
  exact (api_feed_out_of_range_500 sample_npubEncode 7 None sample_world
           sample_state Hn).
Defined.

(** * Further properties of the server *)

(** ** The rate the bucket enforces *)

Lemma div_superadditive (x y r : Z) : 0 < r -> x / r + y / r <= (x + y) / r.
Proof.
  intros Hr. apply Z.div_le_lower_bound; [exact Hr|].
  pose proof (Z.mul_div_le x r Hr). pose proof (Z.mul_div_le y r Hr). lia.
Qed.

(** One call: what it grants and leaves is covered by what was there and
    the whole intervals by which the baseline moved. *)
Lemma getToken_accounting (now : Z) (b : TokenBucket) :
  refillRate b = 60000 -> capacity b = 5 -> 0 <= tokens b <= 5 ->
  (if fst (getToken now b) then 1 else 0) + tokens (snd (getToken now b))
    <= tokens b + (lastRefill (snd (getToken now b)) - lastRefill b) / 60000
  /\ lastRefill b <= lastRefill (snd (getToken now b))
  /\ lastRefill (snd (getToken now b)) <= Z.max (lastRefill b) now.
Proof.
  intros Hr Hc Hb. unfold getToken. rewrite Hr, Hc.
  destruct (Z.ltb_spec 0 ((now - lastRefill b) / 60000)) as [Hq | Hq];
    cbn [tokens lastRefill refillRate capacity].
  - assert (lastRefill b < now) as Hlt.
    { destruct (Z.lt_ge_cases (lastRefill b) now) as [|Hge]; [assumption|].
      assert ((now - lastRefill b) / 60000 <= 0)
        by (apply Z.div_le_upper_bound; lia). lia. }
    destruct (Z.ltb_spec 0
      (Z.min 5 (tokens b + (now - lastRefill b) / 60000)));
      cbn [fst snd tokens lastRefill]; lia.
  - destruct (Z.ltb_spec 0 (tokens b)); cbn [fst snd tokens lastRefill];
      rewrite Z.sub_diag; change (0 / 60000) with 0; lia.
Qed.

Lemma getToken_seq_accounting (times : list Z) (T : Z) (b : TokenBucket) :
  refillRate b = 60000 -> capacity b = 5 -> 0 <= tokens b <= 5 ->
  Forall (fun t => t <= T) times -> lastRefill b <= T ->
  granted (fst (getToken_seq times b)) + tokens (snd (getToken_seq times b))
    <= tokens b + (lastRefill (snd (getToken_seq times b)) - lastRefill b) / 60000
  /\ lastRefill b <= lastRefill (snd (getToken_seq times b)) <= T
  /\ 0 <= tokens (snd (getToken_seq times b)).
Proof.
  revert b. induction times as [|t times IH]; intros b Hr Hc Hb Hall HT.
  - cbn [getToken_seq granted fst snd]. rewrite Z.sub_diag.
    change (0 / 60000) with 0. lia.
  - apply Forall_cons_iff in Hall. destruct Hall as [Ht Hall].
    rewrite getToken_seq_cons. cbn [fst snd granted].
    destruct (getToken_accounting t b Hr Hc Hb) as (Hacc & Hlo & Hhi).
    destruct (getToken_constants t b) as [Hr' Hc'].
    pose proof (getToken_bounds t b) as Hb'. rewrite Hc in Hb'.
    specialize (Hb' Hb).
    destruct (IH (snd (getToken t b))) as (IHacc & IHlr & IHtok);
      [congruence | congruence | exact Hb' | exact Hall | lia |].
    pose proof (div_superadditive
      (lastRefill (snd (getToken_seq times (snd (getToken t b))))
       - lastRefill (snd (getToken t b)))
      (lastRefill (snd (getToken t b)) - lastRefill b) 60000 ltac:(lia)) as Hsup.
    replace (lastRefill (snd (getToken_seq times (snd (getToken t b))))
             - lastRefill (snd (getToken t b))
             + (lastRefill (snd (getToken t b)) - lastRefill b))
      with (lastRefill (snd (getToken_seq times (snd (getToken t b))))
            - lastRefill b) in Hsup by lia.
    lia.
Qed.

(** X1.  However the calls are timed, if none is made after the instant
    [T] then at most 5 plus the number of whole minutes between the start
    and [T] of them are granted a token. *)
Theorem getToken_rate_bound :
  forall (start T : Z) (times : list Z),
    start <= T ->
    Forall (fun t => t <= T) times ->
    granted (fst (getToken_seq times (tokenBucket start)))
    <= 5 + (T - start) / 60000.
Proof.
  intros start T times HT Hall.
  destruct (getToken_seq_accounting times T (tokenBucket start))
    as (Hacc & Hlr & Htok); cbn [tokenBucket refillRate capacity tokens lastRefill];
    try reflexivity; try lia; try assumption.
  cbn [tokenBucket tokens lastRefill] in Hacc, Hlr.
  assert ((lastRefill (snd (getToken_seq times (tokenBucket start))) - start) / 60000
          <= (T - start) / 60000) by (apply Z.div_le_mono; lia).
  unfold tokenBucket in *. lia.
Qed.

Lemma getToken_rate_bound_witness :
  0 <= 130000
  /\ Forall (fun t => t <= 130000)
       [10; 20; 30; 40; 50; 60; 61000; 62000; 125000; 126000; 130000]
  /\ granted (fst (getToken_seq
                     [10; 20; 30; 40; 50; 60; 61000; 62000; 125000; 126000; 130000]
                     (tokenBucket 0)))
     <= 5 + (130000 - 0) / 60000.
Proof.
  assert (0 <= 130000) as HT by lia.
  assert (Forall (fun t => t <= 130000)
            [10; 20; 30; 40; 50; 60; 61000; 62000; 125000; 126000; 130000])
    as Hall by (repeat constructor; lia).
  split; [exact HT|]. split; [exact Hall|].
  exact (getToken_rate_bound 0 130000 _ HT Hall).
Defined.

(** ** The Bluesky fetcher behind the bucket *)

Lemma fetchBlueskyPosts_bucket (activeTab : Z) (preferredLanguages : string)
  (now : Z) (up : BlueskyUpstream) (bucket : TokenBucket) :
  snd (fetchBlueskyPosts activeTab preferredLanguages now up bucket)
  = snd (getToken now bucket).
Proof.
  unfold fetchBlueskyPosts.
  destruct (getToken now bucket) as [[] bucket']; cbn [negb snd]; [|reflexivity].
  destruct (bs_login up); [reflexivity|].
  destruct (bs_getFeed up _ _) as [e | [postsArray|]]; try reflexivity.
  destruct (map_throwing process_item postsArray); reflexivity.
Qed.

Lemma fetchBlueskyPosts_refused (activeTab : Z) (preferredLanguages : string)
  (now : Z) (up : BlueskyUpstream) (bucket : TokenBucket) :
  fst (getToken now bucket) = false ->
  fst (fetchBlueskyPosts activeTab preferredLanguages now up bucket)
  = Resolved [].
Proof.
  unfold fetchBlueskyPosts.
  destruct (getToken now bucket) as [[] bucket']; cbn [negb fst];
    [discriminate | reflexivity].
Qed.

Lemma fetchBlueskyPosts_seq_cons (call : BlueskyCall) (rest : list BlueskyCall)
  (bucket : TokenBucket) :
  fetchBlueskyPosts_seq (call :: rest) bucket
  = (fst (fetchBlueskyPosts (bc_activeTab call) (bc_preferredLanguages call)
            (bc_now call) (bc_upstream call) bucket)
       :: fst (fetchBlueskyPosts_seq rest (snd (getToken (bc_now call) bucket))),
     snd (fetchBlueskyPosts_seq rest (snd (getToken (bc_now call) bucket)))).
Proof.
  cbn [fetchBlueskyPosts_seq].
  rewrite <- (fetchBlueskyPosts_bucket (bc_activeTab call)
                (bc_preferredLanguages call) (bc_now call) (bc_upstream call)).
  destruct (fetchBlueskyPosts _ _ _ _ _) as [r bucket']. cbn [fst snd].
  destruct (fetchBlueskyPosts_seq rest bucket'); reflexivity.
Qed.

Lemma fetchBlueskyPosts_seq_thread (calls : list BlueskyCall)
  (bucket : TokenBucket) :
  snd (fetchBlueskyPosts_seq calls bucket)
  = snd (getToken_seq (map bc_now calls) bucket)
  /\ (forall i : nat,
        fst (getToken_seq (map bc_now calls) bucket) !! i = Some false ->
        fst (fetchBlueskyPosts_seq calls bucket) !! i = Some (Resolved []))
  /\ granted (map returned_posts (fst (fetchBlueskyPosts_seq calls bucket)))
     <= granted (fst (getToken_seq (map bc_now calls) bucket)).
Proof.
  revert bucket. induction calls as [|call rest IH]; intros bucket.
  - cbn. split; [reflexivity|]. split; [|lia]. intros i. rewrite lookup_nil.
    discriminate.
  - cbn [map]. rewrite fetchBlueskyPosts_seq_cons, getToken_seq_cons.
    cbn [fst snd map granted].
    destruct (IH (snd (getToken (bc_now call) bucket))) as (IH1 & IH2 & IH3).
    split; [exact IH1|]. split.
    + intros [|i]; rewrite ?at_first, ?at_later.
      * intros [= Hno]. f_equal. apply fetchBlueskyPosts_refused. exact Hno.
      * apply IH2.
    + destruct (fst (getToken (bc_now call) bucket)) eqn:Hok.
      * destruct (returned_posts _); lia.
      * rewrite fetchBlueskyPosts_refused by exact Hok. cbn [returned_posts].
        lia.
Qed.

(** X2.  Bluesky fetches made one after the other from the start of the
    server use the bucket exactly as the same run of [getToken] calls
    does: a fetch whose call is refused resolves to the empty list whatever
    the upstream would have answered, and of the fetches made up to the
    instant [T] at most 5 plus the whole minutes since the start return
    any post. *)
Theorem fetchBlueskyPosts_seq_limited :
  forall (start T : Z) (calls : list BlueskyCall),
    start <= T ->
    Forall (fun call => bc_now call <= T) calls ->
    let run := fetchBlueskyPosts_seq calls (tokenBucket start) in
    let answers := fst (getToken_seq (map bc_now calls) (tokenBucket start)) in
    snd run = snd (getToken_seq (map bc_now calls) (tokenBucket start))
    /\ (forall i : nat,
          answers !! i = Some false -> fst run !! i = Some (Resolved []))
    /\ granted (map returned_posts (fst run)) <= 5 + (T - start) / 60000.
Proof.
  intros start T calls HT Hall run answers. subst run answers.
  destruct (fetchBlueskyPosts_seq_thread calls (tokenBucket start))
    as (H1 & H2 & H3).
  split; [exact H1|]. split; [exact H2|].
  assert (Forall (fun t => t <= T) (map bc_now calls)) as Htimes.
  { apply Forall_forall. intros t Hin. apply list_elem_of_In, in_map_iff in Hin.
    destruct Hin as (call & <- & Hin).
    rewrite Forall_forall in Hall. apply Hall. apply list_elem_of_In. exact Hin. }
  destruct (getToken_seq_accounting (map bc_now calls) T (tokenBucket start))
    as (Hacc & Hlr & Htok);
    cbn [tokenBucket refillRate capacity tokens lastRefill];
    try reflexivity; try lia; try assumption.
  cbn [tokenBucket tokens lastRefill] in Hacc, Hlr.
  assert ((lastRefill (snd (getToken_seq (map bc_now calls) (tokenBucket start)))
           - start) / 60000 <= (T - start) / 60000)
    by (apply Z.div_le_mono; lia).
  unfold tokenBucket in *. lia.
Qed.

Lemma fetchBlueskyPosts_seq_limited_witness :
  let call := fun now =>
    {| bc_activeTab := 1; bc_preferredLanguages := "en-US"; bc_now := now;
       bc_upstream := sample_bluesky |} in
  let calls := [call 10; call 20; call 30; call 40; call 50; call 60] in
  0 <= 59999
  /\ Forall (fun c => bc_now c <= 59999) calls
  /\ fst (getToken_seq (map bc_now calls) (tokenBucket 0)) !! 5%nat = Some false
  /\ fst (fetchBlueskyPosts_seq calls (tokenBucket 0)) !! 5%nat
     = Some (Resolved [])
  /\ granted (map returned_posts (fst (fetchBlueskyPosts_seq calls (tokenBucket 0))))
     <= 5 + (59999 - 0) / 60000.
Proof.
  intros call calls.
  assert (0 <= 59999) as HT by lia.
  assert (Forall (fun c => bc_now c <= 59999) calls) as Hall
    by (repeat constructor; cbn; lia).
  assert (fst (getToken_seq (map bc_now calls) (tokenBucket 0)) !! 5%nat
          = Some false) as Hno by reflexivity.
  destruct (fetchBlueskyPosts_seq_limited 0 59999 calls HT Hall)
    as (_ & Hrefused & Hbound).
  split; [exact HT|]. split; [exact Hall|]. split; [exact Hno|].
  split; [exact (Hrefused 5%nat Hno) | exact Hbound].
Defined.

(** ** The Bluesky fetcher: all of the feed or nothing *)

Lemma map_throwing_Forall2 {A B : Type} (f : A -> option B) (xs : list A)
  (ys : list B) :
  map_throwing f xs = Some ys <-> Forall2 (fun x y => f x = Some y) xs ys.
Proof.
  revert ys. induction xs as [|x xs IH]; intros ys; cbn.
  - split.
    + intros [= <-]. constructor.
    + intros H. inversion H. reflexivity.
  - destruct (f x) as [y|] eqn:Hy.
    + destruct (map_throwing f xs) as [ys'|] eqn:Hm.
      * split.
        -- intros [= <-]. constructor; [exact Hy | apply IH; reflexivity].
        -- intros H. inversion H as [|x0 y0 xs0 ys0 Hxy Hrest]; subst.
           apply IH in Hrest. congruence.
      * split; [discriminate|].
        intros H. inversion H as [|x0 y0 xs0 ys0 Hxy Hrest]; subst.
        apply IH in Hrest. discriminate.
    + split; [discriminate|].
      intros H. inversion H as [|x0 y0 xs0 ys0 Hxy Hrest]. congruence.
Qed.

Lemma map_throwing_None {A B : Type} (f : A -> option B) (xs : list A) :
  Exists (fun x => f x = None) xs -> map_throwing f xs = None.
Proof.
  induction 1 as [x xs Hx | x xs Hxs IH]; cbn.
  - rewrite Hx. reflexivity.
  - destruct (f x); [|reflexivity]. rewrite IH. reflexivity.
Qed.

Lemma map_throwing_Some {A B : Type} (f : A -> option B) (xs : list A) :
  Forall (fun x => is_Some (f x)) xs -> is_Some (map_throwing f xs).
Proof.
  induction 1 as [|x xs [y Hy] Hxs [ys IH]]; cbn; [eauto|].
  rewrite Hy, IH. eauto.
Qed.

Lemma append_empty_r (s : string) : s +:+ "" = s.
Proof.
  induction s as [|c s IH]; [reflexivity|].
  change (String c (s +:+ "") = String c s). rewrite IH. reflexivity.
Qed.

Lemma append_assoc (a b c : string) : (a +:+ b) +:+ c = a +:+ (b +:+ c).
Proof.
  induction a as [|ch a IH]; [reflexivity|].
  change (String ch ((a +:+ b) +:+ c) = String ch (a +:+ (b +:+ c))).
  rewrite IH. reflexivity.
Qed.

Lemma markdown_concat (segments : list Segment) (md : string) :
  fold_left (fun md segment => md +:+ segment_markdown segment) segments md
  = md +:+ String.concat "" (map segment_markdown segments).
Proof.
  revert md. induction segments as [|seg rest IH]; intros md; cbn [fold_left map].
  - cbn [String.concat]. rewrite append_empty_r. reflexivity.
  - rewrite IH. rewrite append_assoc. f_equal.
    destruct rest as [|seg' rest']; cbn [map String.concat].
    + apply append_empty_r.
    + reflexivity.
Qed.

(** X3.  Once the token is granted, the login passes and the feed
    arrives: if the segments of every item are available the fetcher
    returns one post per item, in feed order, each with its item, the
    facets and the embed of its record and the segments' texts glued into
    the markdown; if the segments of a single item fail, it returns the
    empty list and none of the other posts. *)
Theorem fetchBlueskyPosts_all_or_nothing :
  forall (activeTab : Z) (preferredLanguages : string) (now : Z)
         (up : BlueskyUpstream) (bucket : TokenBucket) (feed : list FeedItem),
    fst (getToken now bucket) = true ->
    bs_login up = None ->
    bs_getFeed up (js_index feedLinks activeTab) preferredLanguages
      = GetFeedData (Some feed) ->
    (Forall (fun item => is_Some (fi_segments item)) feed ->
     exists posts,
       fst (fetchBlueskyPosts activeTab preferredLanguages now up bucket)
         = Resolved posts
       /\ Forall2
            (fun item post =>
               bp_item post = item
               /\ bp_facets post = fi_record_facets item
               /\ bp_embed post = fi_record_embed item
               /\ Some (bp_markdown post)
                  = (fun segments =>
                       String.concat "" (map segment_markdown segments))
                      <$> fi_segments item)
            feed posts)
    /\ (Exists (fun item => fi_segments item = None) feed ->
        fst (fetchBlueskyPosts activeTab preferredLanguages now up bucket)
          = Resolved []).
Proof.
  intros activeTab preferredLanguages now up bucket feed Hok Hlogin Hfeed.
  unfold fetchBlueskyPosts.
  destruct (getToken now bucket) as [ok bucket']. cbn [fst] in Hok. subst ok.
  cbn [negb]. rewrite Hlogin, Hfeed. split.
  - intros Hall.
    destruct (map_throwing_Some process_item feed) as [posts Hposts].
    { eapply Forall_impl; [exact Hall|]. intros item [segs Hsegs].
      unfold process_item. rewrite Hsegs. eauto. }
    rewrite Hposts. exists posts. split; [reflexivity|].
    apply map_throwing_Forall2 in Hposts.
    eapply Forall2_impl; [exact Hposts|].
    intros item post Hp. unfold process_item in Hp.
    destruct (fi_segments item) as [segs|]; [|discriminate].
    injection Hp as <-. cbn [bp_item bp_facets bp_embed bp_markdown].
    repeat split. cbn [fmap option_fmap option_map]. f_equal.
    rewrite markdown_concat. reflexivity.
  - intros Hbad. rewrite (map_throwing_None process_item feed); [reflexivity|].
    eapply Exists_impl; [exact Hbad|]. intros item Hnone.
    unfold process_item. rewrite Hnone. reflexivity.
Qed.

Lemma fetchBlueskyPosts_all_or_nothing_witness :
  fst (getToken 0 (tokenBucket 0)) = true
  /\ (Forall (fun item => is_Some (fi_segments item)) [sample_feed_item]
      /\ exists posts,
           fst (fetchBlueskyPosts 1 "en-US" 0 sample_bluesky (tokenBucket 0))
             = Resolved posts
           /\ Forall2
                (fun item post =>
                   bp_item post = item
                   /\ bp_facets post = fi_record_facets item
                   /\ bp_embed post = fi_record_embed item
                   /\ Some (bp_markdown post)
                      = (fun segments =>
                           String.concat "" (map segment_markdown segments))
                          <$> fi_segments item)
                [sample_feed_item] posts)
  /\ (Exists (fun item => fi_segments item = None)
        [sample_feed_item; broken_feed_item]
      /\ fst (fetchBlueskyPosts 1 "en-US" 0 sample_bluesky_broken (tokenBucket 0))
         = Resolved []).
Proof.
  assert (fst (getToken 0 (tokenBucket 0)) = true) as Hok by reflexivity.
  assert (Forall (fun item => is_Some (fi_segments item)) [sample_feed_item])
    as Hall by (repeat constructor; cbn; eauto).
  assert (Exists (fun item => fi_segments item = None)
            [sample_feed_item; broken_feed_item]) as Hbad
    by (apply Exists_cons_tl, Exists_cons_hd; reflexivity).
  split; [exact Hok|]. split.
  - split; [exact Hall|].
    exact (proj1 (fetchBlueskyPosts_all_or_nothing 1 "en-US" 0 sample_bluesky
                    (tokenBucket 0) [sample_feed_item] Hok eq_refl eq_refl) Hall).
  - split; [exact Hbad|].
    exact (proj2 (fetchBlueskyPosts_all_or_nothing 1 "en-US" 0
                    sample_bluesky_broken (tokenBucket 0)
                    [sample_feed_item; broken_feed_item] Hok eq_refl eq_refl)
             Hbad).
Defined.

(** ** The relay fetcher on a miss *)

Section NostrMiss.

Variable npubEncode : string -> option string.

Implicit Types (c : gmap string NodeCache.entry) (activeTab now timerAt : Z)
  (delivered : list NostrEvent).

(** With a pattern at the tab, the listener keeps the matching events, in
    the order of their delivery. *)
Lemma collected_filter activeTab (re : RegExp.t) delivered
  (acc : list NostrEvent) :
  js_index nostrSearchPatterns activeTab = Some re ->
  fold_left (on_event activeTab) delivered acc
  = acc ++ List.filter (fun ev => RegExp.test re (ev_content ev)) delivered.
Proof.
  intros Hre. revert acc.
  induction delivered as [|ev delivered IH]; intros acc;
    cbn [fold_left List.filter].
  - rewrite app_nil_r. reflexivity.
  - rewrite IH. unfold on_event. rewrite Hre.
    destruct (RegExp.test re (ev_content ev)); [|reflexivity].
    rewrite <- app_assoc. reflexivity.
Qed.


Lemma fetchNostrPosts_miss_collected activeTab now delivered timerAt c :
  NodeCache.get now c (cacheKey activeTab) = None ->
  fetchNostrPosts npubEncode activeTab now (Collected delivered timerAt) c
  = match map_throwing (process_event npubEncode)
            (fold_left (on_event activeTab) delivered []) with
    | Some processedEvents =>
        {| nf_result := Resolved processedEvents;
           nf_cache := NodeCache.set timerAt c (cacheKey activeTab)
                         processedEvents;
           nf_effects := [PoolSub; SubUnsub; PoolClose] |}
    | None =>
        {| nf_result := Resolved []; nf_cache := c;
           nf_effects := [PoolSub; SubUnsub; PoolClose] |}
    end.
Proof. intros Hmiss. unfold fetchNostrPosts. rewrite Hmiss. reflexivity. Qed.

End NostrMiss.

(** X4.  On a miss, with a pattern at the tab and every kept public key
    encodable, the relay fetcher returns the delivered events that match
    the pattern, in delivery order and each with its encoded key, stores
    that list under the tab's key and subscribes, unsubscribes and closes
    the pool, in that order. *)
Theorem fetchNostrPosts_fresh :
  forall (npubEncode : string -> option string) (activeTab : Z)
         (re : RegExp.t) (now : Z) (delivered : list NostrEvent) (timerAt : Z)
         (c : gmap string NodeCache.entry),
    js_index nostrSearchPatterns activeTab = Some re ->
    NodeCache.get now c (cacheKey activeTab) = None ->
    let kept :=
      List.filter (fun ev => RegExp.test re (ev_content ev)) delivered in
    Forall (fun ev => is_Some (npubEncode (ev_pubkey ev))) kept ->
    exists posts,
      fetchNostrPosts npubEncode activeTab now (Collected delivered timerAt) c
      = {| nf_result := Resolved posts;
           nf_cache := NodeCache.set timerAt c (cacheKey activeTab) posts;
           nf_effects := [PoolSub; SubUnsub; PoolClose] |}
      /\ Forall2
           (fun ev post =>
              np_id post = ev_id ev
              /\ np_pubkey post = ev_pubkey ev
              /\ np_content post = ev_content ev
              /\ np_created_at post = ev_created_at ev
              /\ np_tags post = ev_tags ev
              /\ Some (np_npub post) = npubEncode (ev_pubkey ev))
           kept posts.
Proof.
  intros npubEncode activeTab re now delivered timerAt c Hre Hmiss kept Hkeys.
  rewrite (fetchNostrPosts_miss_collected _ _ _ _ _ _ Hmiss).
  rewrite (collected_filter activeTab re delivered [] Hre). cbn [app].
  fold kept.
  destruct (map_throwing_Some (process_event npubEncode) kept) as [posts Hposts].
  { eapply Forall_impl; [exact Hkeys|]. intros ev [npub Hnpub].
    unfold process_event. rewrite Hnpub. eauto. }
  rewrite Hposts. exists posts. split; [reflexivity|].
  apply map_throwing_Forall2 in Hposts.
  eapply Forall2_impl; [exact Hposts|].
  intros ev post Hp. unfold process_event in Hp.
  destruct (npubEncode (ev_pubkey ev)) as [npub|]; [|discriminate].
  injection Hp as <-. cbn. repeat split.
Qed.

Lemma fetchNostrPosts_fresh_witness :
  let delivered :=
    [sample_event "e1" "gm"; sample_event "e2" "forms at IRS.gov/forms";
     sample_event "e3" "coffee"; sample_event "e4" "see https://www.usa.gov/x"] in
  let re := RegExp.new (nth 1 pattern_sources "") "i" in
  let kept := [sample_event "e2" "forms at IRS.gov/forms";
               sample_event "e4" "see https://www.usa.gov/x"] in
  js_index nostrSearchPatterns 1 = Some re
  /\ NodeCache.get 0 NodeCache.empty (cacheKey 1) = None
  /\ List.filter (fun ev => RegExp.test re (ev_content ev)) delivered = kept
  /\ Forall (fun ev => is_Some (sample_npubEncode (ev_pubkey ev))) kept
  /\ exists posts,
       fetchNostrPosts sample_npubEncode 1 0 (Collected delivered 10000)
         NodeCache.empty
       = {| nf_result := Resolved posts;
            nf_cache := NodeCache.set 10000 NodeCache.empty (cacheKey 1) posts;
            nf_effects := [PoolSub; SubUnsub; PoolClose] |}
       /\ Forall2
            (fun ev post =>
               np_id post = ev_id ev
               /\ np_pubkey post = ev_pubkey ev
               /\ np_content post = ev_content ev
               /\ np_created_at post = ev_created_at ev
               /\ np_tags post = ev_tags ev
               /\ Some (np_npub post) = sample_npubEncode (ev_pubkey ev))
            kept posts.
Proof.
  intros delivered re kept.
  assert (js_index nostrSearchPatterns 1 = Some re) as Hre by reflexivity.
  assert (NodeCache.get 0 NodeCache.empty (cacheKey 1) = None) as Hmiss
    by reflexivity.
  assert (List.filter (fun ev => RegExp.test re (ev_content ev)) delivered = kept)
    as Hkept by reflexivity.
  assert (Forall (fun ev => is_Some (sample_npubEncode (ev_pubkey ev))) kept)
    as Hkeys by (repeat constructor; cbn; eauto).
  split; [exact Hre|]. split; [exact Hmiss|]. split; [exact Hkept|].
  split; [exact Hkeys|].
  pose proof (fetchNostrPosts_fresh sample_npubEncode 1 re 0 delivered 10000
                NodeCache.empty Hre Hmiss) as Hfresh.
  cbn zeta in Hfresh. rewrite Hkept in Hfresh. exact (Hfresh Hkeys).
Defined.

(** X5.  A relay fetch that fails after a miss, because the subscription
    raises or because the public key of a kept event cannot be encoded,
    resolves to the empty list, leaves the cache as it was (so the failure
    is not remembered) and still closes the pool as its last act. *)
Theorem fetchNostrPosts_failure_not_cached :
  forall (npubEncode : string -> option string) (activeTab now : Z)
         (run : RelayRun) (c : gmap string NodeCache.entry),
    NodeCache.get now c (cacheKey activeTab) = None ->
    match run with
    | SubscribeThrows _ => True
    | Collected delivered _ =>
        Exists (fun ev => tab_matches activeTab (ev_content ev) = true
                          /\ npubEncode (ev_pubkey ev) = None) delivered
    end ->
    nf_result (fetchNostrPosts npubEncode activeTab now run c) = Resolved []
    /\ nf_cache (fetchNostrPosts npubEncode activeTab now run c) = c
    /\ last (nf_effects (fetchNostrPosts npubEncode activeTab now run c))
       = Some PoolClose.
Proof.
  intros npubEncode activeTab now run c Hmiss Hfail.
  destruct run as [e | delivered timerAt].
  - unfold fetchNostrPosts. rewrite Hmiss. repeat split.
  - rewrite (fetchNostrPosts_miss_collected _ _ _ _ _ _ Hmiss).
    rewrite (map_throwing_None (process_event npubEncode)); [repeat split|].
    apply Exists_exists in Hfail. destruct Hfail as (ev & Hin & Hmatch & Hkey).
    unfold tab_matches in Hmatch.
    destruct (js_index nostrSearchPatterns activeTab) as [re|] eqn:Hre;
      [|discriminate].
    rewrite (collected_filter activeTab re delivered [] Hre). cbn [app].
    apply Exists_exists. exists ev. split.
    + apply list_elem_of_In, filter_In. split;
        [apply list_elem_of_In; exact Hin | exact Hmatch].
    + unfold process_event. rewrite Hkey. reflexivity.
Qed.

Lemma fetchNostrPosts_failure_not_cached_witness :
  let delivered :=
    [sample_event "e1" "forms at irs.gov/forms"; bad_event "e2" "more at usa.gov/x"] in
  NodeCache.get 0 NodeCache.empty (cacheKey 1) = None
  /\ Exists (fun ev => tab_matches 1 (ev_content ev) = true
                       /\ picky_npubEncode (ev_pubkey ev) = None) delivered
  /\ nf_result (fetchNostrPosts picky_npubEncode 1 0 (Collected delivered 10000)
                  NodeCache.empty) = Resolved []
  /\ nf_cache (fetchNostrPosts picky_npubEncode 1 0 (Collected delivered 10000)
                 NodeCache.empty) = NodeCache.empty
  /\ last (nf_effects (fetchNostrPosts picky_npubEncode 1 0
                         (Collected delivered 10000) NodeCache.empty))
     = Some PoolClose.
Proof.
  intros delivered.
  assert (NodeCache.get 0 NodeCache.empty (cacheKey 1) = None) as Hmiss
    by reflexivity.
  assert (Exists (fun ev => tab_matches 1 (ev_content ev) = true
                            /\ picky_npubEncode (ev_pubkey ev) = None) delivered)
    as Hbad by (apply Exists_cons_tl, Exists_cons_hd; split; reflexivity).
  split; [exact Hmiss|]. split; [exact Hbad|].
  exact (fetchNostrPosts_failure_not_cached picky_npubEncode 1 0
           (Collected delivered 10000) NodeCache.empty Hmiss Hbad).
Defined.

(** X6.  A relay fetch for one tab never changes what a lookup for another
    tab finds, at any instant: the keys of different tabs differ. *)
Theorem fetchNostrPosts_tabs_isolated :
  forall (npubEncode : string -> option string) (activeTab other now : Z)
         (run : RelayRun) (c : gmap string NodeCache.entry) (later : Z),
    other <> activeTab ->
    NodeCache.get later
      (nf_cache (fetchNostrPosts npubEncode other now run c))
      (cacheKey activeTab)
    = NodeCache.get later c (cacheKey activeTab).
Proof.
  intros npubEncode activeTab other now run c later Hne.
  unfold NodeCache.get.
  rewrite (fetchNostrPosts_other_key npubEncode _ _ now run c Hne).
  reflexivity.
Qed.

Lemma fetchNostrPosts_tabs_isolated_witness :
  let c :=
    NodeCache.set 1000 NodeCache.empty (cacheKey 1)
      [sample_post "e1" "minutes at https://www.federalreserve.gov/x"] in
  3 <> 1
  /\ NodeCache.get 20000
       (nf_cache (fetchNostrPosts sample_npubEncode 3 5000
                    (Collected [sample_event "e9" "new on arxiv.org/abs/1"] 15000)
                    c))
       (cacheKey 1)
     = NodeCache.get 20000 c (cacheKey 1).
Proof.
  intros c.
  assert (3 <> 1) as Hne by lia.
  split; [exact Hne|].
  exact (fetchNostrPosts_tabs_isolated sample_npubEncode 1 3 5000 _ c 20000 Hne).
Defined.



(** ** The Mastodon fetcher: failures, order and size *)

Section MastodonMore.

Variable up : Upstream.
Variable searchPattern : RegExp.t.

Implicit Types (remaining page k : nat) (maxId : option string)
  (allPosts kept : list Status).

Lemma page_failed_no_page (r : FetchResult) :
  page_failed r = true -> page_statuses r = None /\ page_exhausted r = false.
Proof.
  destruct r as [e | [] status [e | | | sts]]; cbn; intros; try discriminate; auto.
Qed.

(** A failed answer at a page that was asked for ends the loop by a throw. *)
Lemma pages_failed remaining page maxId allPosts k (params : SearchParams) :
  fst (mastodon_pages up searchPattern remaining page maxId allPosts) !! k
    = Some params ->
  page_failed (up (page + k)%nat params) = true ->
  exists e, snd (mastodon_pages up searchPattern remaining page maxId allPosts)
            = Thrown e.
Proof.
  revert page maxId allPosts k.
  induction remaining as [|remaining IH]; intros page maxId allPosts k.
  - cbn. discriminate.
  - destruct (mastodon_pages_turn up searchPattern remaining page maxId allPosts)
      as [? p0 e Hp Hst Hex|? p0 Hp Hok Hex|? p0 sts Hp Hst Hex
          |? p0 sts lst Hp Hst Hex Hfull Hlast rest];
      cbn [fst snd]; destruct k as [|k];
      rewrite ?at_first, ?at_later, ?lookup_nil, ?Nat.add_0_r;
      try (intros [= <-] Hf; apply page_failed_no_page in Hf; destruct Hf;
           congruence);
      try discriminate.
    + intros _ _. eauto.
    + intros Hk Hf. subst rest. rewrite <- Nat.add_succ_comm in Hf.
      exact (IH _ _ _ _ Hk Hf).
Qed.

(** A loop that finishes has appended, page after page, the statuses that
    pass the pattern, and nothing else. *)
Lemma pages_accumulate remaining page maxId allPosts kept :
  snd (mastodon_pages up searchPattern remaining page maxId allPosts)
    = Finished kept ->
  kept
  = allPosts
    ++ List.filter (passes searchPattern)
         (statuses_seen up page
            (fst (mastodon_pages up searchPattern remaining page maxId allPosts))).
Proof.
  revert page maxId allPosts.
  induction remaining as [|remaining IH]; intros page maxId allPosts.
  - cbn. intros [= <-]. rewrite app_nil_r. reflexivity.
  - cbn [mastodon_pages].
    set (params := {| sp_q := _; sp_max_id := _ |}).
    destruct (up page params) as [e | ok status body] eqn:Hup;
      [cbn; discriminate|].
    destruct ok; cbn [negb]; [|cbn; discriminate].
    destruct body as [e | | | statuses]; cbn [fst snd statuses_seen].
    + discriminate.
    + rewrite Hup. cbn. intros [= <-]. rewrite app_nil_r. reflexivity.
    + rewrite Hup. cbn. intros [= <-]. rewrite app_nil_r. reflexivity.
    + destruct (Z.eqb_spec (Z.of_nat (length statuses)) 0) as [Hz | Hnz].
      { cbn [fst snd statuses_seen]. rewrite Hup. cbn [page_statuses].
        destruct statuses; [|cbn in Hz; lia].
        cbn. intros [= <-]. rewrite app_nil_r. reflexivity. }
      destruct (Z.ltb_spec (Z.of_nat (length statuses)) postsPerPage).
      { cbn [fst snd statuses_seen]. rewrite Hup. cbn [page_statuses].
        intros [= <-]. rewrite app_nil_r. reflexivity. }
      destruct (mastodon_pages up searchPattern remaining (S page) _ _)
        as [later res] eqn:Hrec.
      cbn [fst snd statuses_seen]. rewrite Hup. cbn [page_statuses].
      intros Hres.
      pose proof (IH (S page) (st_id <$> last statuses)
                    (allPosts ++ List.filter
                       (fun post => RegExp.test searchPattern (st_content post))
                       statuses)) as IH'.
      rewrite Hrec in IH'. cbn [fst snd] in IH'. rewrite (IH' Hres).
      rewrite List.filter_app, app_assoc. reflexivity.
Qed.

Lemma statuses_seen_length (page : nat) (requests : list SearchParams) :
  (forall (k : nat) (params : SearchParams) (statuses : list Status),
      page_statuses (up k params) = Some statuses ->
      (length statuses <= 40)%nat) ->
  (length (statuses_seen up page requests) <= 40 * length requests)%nat.
Proof.
  intros Hlimit. revert page.
  induction requests as [|params rest IH]; intros page; cbn [statuses_seen length].
  - lia.
  - rewrite length_app. specialize (IH (S page)).
    destruct (page_statuses (up page params)) as [statuses|] eqn:Hp.
    + pose proof (Hlimit _ _ _ Hp). lia.
    + cbn [length]. lia.
Qed.

End MastodonMore.

Lemma filter_length_le {A : Type} (f : A -> bool) (l : list A) :
  (length (List.filter f l) <= length l)%nat.
Proof.
  induction l as [|x l IH]; cbn [List.filter length]; [lia|].
  destruct (f x); cbn [length]; lia.
Qed.

(** X8.  When the answer to a page the Mastodon fetcher asks for is a
    rejected [fetch], a response that is not [ok] or a body that does not
    parse, the call resolves to the empty list, whatever the pages before
    it held. *)
Theorem fetchMastodonPosts_page_failure_empty :
  forall (activeTab : Z) (up : Upstream) (k : nat) (params : SearchParams),
    mf_requests (fetchMastodonPosts activeTab up) !! k = Some params ->
    page_failed (up k params) = true ->
    mf_result (fetchMastodonPosts activeTab up) = Resolved [].
Proof.
  intros activeTab up k params Hk Hfail.
  destruct (js_index nostrSearchPatterns activeTab) as [re|] eqn:Hre.
  2:{ rewrite (fetchMastodonPosts_no_pattern _ _ Hre) in Hk.
      cbn [mf_requests] in Hk. rewrite lookup_nil in Hk. discriminate. }
  rewrite (fetchMastodonPosts_requests _ _ _ Hre) in Hk.
  rewrite (fetchMastodonPosts_result _ _ _ Hre).
  destruct (pages_failed up re _ 0%nat None [] k params Hk Hfail) as [e ->].
  reflexivity.
Qed.

Lemma fetchMastodonPosts_page_failure_empty_witness :
  let cursor :=
    {| sp_q := "bea.gov OR stlouisfed.org OR worldbank.org OR bls.gov OR imf.org OR oecd.org OR europa.eu\/eurostat OR unstats.un.org";
       sp_type := "statuses"; sp_limit := "40"; sp_max_id := Some "40" |} in
  mf_requests (fetchMastodonPosts 2 dropped_second_page) !! 1%nat = Some cursor
  /\ page_failed (dropped_second_page 1%nat cursor) = true
  /\ mf_result (fetchMastodonPosts 2 dropped_second_page) = Resolved [].
Proof.
  intros cursor.
  assert (mf_requests (fetchMastodonPosts 2 dropped_second_page) !! 1%nat
          = Some cursor) as Hasked by (vm_compute; reflexivity).
  assert (page_failed (dropped_second_page 1%nat cursor) = true) as Hfail
    by reflexivity.
  split; [exact Hasked|]. split; [exact Hfail|].
  exact (fetchMastodonPosts_page_failure_empty 2 dropped_second_page 1%nat
           cursor Hasked Hfail).
Defined.

(** X9.  When the Mastodon fetcher returns posts at all, they are the
    statuses of the pages it received that pass the tab's pattern, in the
    order the upstream sent them, page after page, each reduced to its id,
    content, creation date, account names and url. *)
Theorem fetchMastodonPosts_in_page_order :
  forall (activeTab : Z) (re : RegExp.t) (up : Upstream)
         (posts : list MastodonPost),
    js_index nostrSearchPatterns activeTab = Some re ->
    mf_result (fetchMastodonPosts activeTab up) = Resolved posts ->
    posts <> [] ->
    Forall2
      (fun st post =>
         mp_id post = st_id st
         /\ mp_content post = st_content st
         /\ mp_createdAt post = st_created_at st
         /\ mp_url post = st_url st
         /\ Some (mp_username post, mp_displayName post)
            = (fun a => (acc_username a, acc_display_name a)) <$> st_account st)
      (List.filter (passes re)
         (statuses_seen up 0 (mf_requests (fetchMastodonPosts activeTab up))))
      posts.
Proof.
  intros activeTab re up posts Hre Hres Hne.
  rewrite (fetchMastodonPosts_requests _ _ _ Hre).
  rewrite (fetchMastodonPosts_result _ _ _ Hre) in Hres.
  destruct (snd (mastodon_pages up re (Z.to_nat maxPages) 0 None []))
    as [e | kept] eqn:Hloop; [congruence|].
  destruct (map_throwing process_status kept) as [ps|] eqn:Hmap; [|congruence].
  injection Hres as <-.
  rewrite (pages_accumulate up re _ _ _ _ _ Hloop) in Hmap. cbn [app] in Hmap.
  apply map_throwing_Forall2 in Hmap.
  eapply Forall2_impl; [exact Hmap|].
  intros st post Hp. unfold process_status in Hp.
  destruct (st_account st) as [a|]; [|discriminate].
  injection Hp as <-. cbn. repeat split.
Qed.

Lemma fetchMastodonPosts_in_page_order_witness :
  js_index nostrSearchPatterns 2
  = Some (RegExp.new (nth 2 pattern_sources "") "i")
  /\ mf_result (fetchMastodonPosts 2 mixed_single_page)
     = Resolved [sample_mastodon_post]
  /\ [sample_mastodon_post] <> []
  /\ Forall2
       (fun st post =>
          mp_id post = st_id st
          /\ mp_content post = st_content st
          /\ mp_createdAt post = st_created_at st
          /\ mp_url post = st_url st
          /\ Some (mp_username post, mp_displayName post)
             = (fun a => (acc_username a, acc_display_name a)) <$> st_account st)
       (List.filter (passes (RegExp.new (nth 2 pattern_sources "") "i"))
          (statuses_seen mixed_single_page 0
             (mf_requests (fetchMastodonPosts 2 mixed_single_page))))
       [sample_mastodon_post].
Proof.
  assert (js_index nostrSearchPatterns 2
          = Some (RegExp.new (nth 2 pattern_sources "") "i")) as Hre
    by reflexivity.
  assert (mf_result (fetchMastodonPosts 2 mixed_single_page)
          = Resolved [sample_mastodon_post]) as Hres
    by (vm_compute; reflexivity).
  assert ([sample_mastodon_post] <> []) as Hne by discriminate.
  split; [exact Hre|]. split; [exact Hres|]. split; [exact Hne|].
  exact (fetchMastodonPosts_in_page_order 2 _ mixed_single_page _ Hre Hres Hne).
Defined.

(** X10.  A single status that passes the tab's pattern and comes without
    an account empties the whole result of the Mastodon fetcher. *)
Theorem fetchMastodonPosts_accountless_empty :
  forall (activeTab : Z) (re : RegExp.t) (up : Upstream),
    js_index nostrSearchPatterns activeTab = Some re ->
    Exists (fun st => passes re st = true /\ st_account st = None)
      (statuses_seen up 0 (mf_requests (fetchMastodonPosts activeTab up))) ->
    mf_result (fetchMastodonPosts activeTab up) = Resolved [].
Proof.
  intros activeTab re up Hre Hbad.
  rewrite (fetchMastodonPosts_requests _ _ _ Hre) in Hbad.
  rewrite (fetchMastodonPosts_result _ _ _ Hre).
  destruct (snd (mastodon_pages up re (Z.to_nat maxPages) 0 None []))
    as [e | kept] eqn:Hloop; [reflexivity|].
  rewrite (map_throwing_None process_status kept); [reflexivity|].
  rewrite (pages_accumulate up re _ _ _ _ _ Hloop). cbn [app].
  apply Exists_exists in Hbad. destruct Hbad as (st & Hin & Hpass & Hacc).
  apply Exists_exists. exists st. split.
  - apply list_elem_of_In, filter_In. split;
      [apply list_elem_of_In; exact Hin | exact Hpass].
  - unfold process_status. rewrite Hacc. reflexivity.
Qed.

Lemma fetchMastodonPosts_accountless_empty_witness :
  let re := RegExp.new (nth 2 pattern_sources "") "i" in
  js_index nostrSearchPatterns 2 = Some re
  /\ Exists (fun st => passes re st = true /\ st_account st = None)
       (statuses_seen accountless_page 0
          (mf_requests (fetchMastodonPosts 2 accountless_page)))
  /\ mf_result (fetchMastodonPosts 2 accountless_page) = Resolved [].
Proof.
  intros re.
  assert (js_index nostrSearchPatterns 2 = Some re) as Hre by reflexivity.
  assert (Exists (fun st => passes re st = true /\ st_account st = None)
            (statuses_seen accountless_page 0
               (mf_requests (fetchMastodonPosts 2 accountless_page)))) as Hbad
    by (apply Exists_cons_tl, Exists_cons_hd; split; reflexivity).
  split; [exact Hre|]. split; [exact Hbad|].
  exact (fetchMastodonPosts_accountless_empty 2 re accountless_page Hre Hbad).
Defined.

(** X11.  If the upstream never sends more than the 40 statuses a request
    asks for, the Mastodon fetcher never returns more than 400 posts. *)
Theorem fetchMastodonPosts_at_most_400 :
  forall (activeTab : Z) (up : Upstream) (posts : list MastodonPost),
    (forall (k : nat) (params : SearchParams) (statuses : list Status),
        page_statuses (up k params) = Some statuses ->
        (length statuses <= 40)%nat) ->
    mf_result (fetchMastodonPosts activeTab up) = Resolved posts ->
    (length posts <= 400)%nat.
Proof.
  intros activeTab up posts Hlimit Hres.
  destruct (js_index nostrSearchPatterns activeTab) as [re|] eqn:Hre.
  2:{ rewrite (fetchMastodonPosts_no_pattern _ _ Hre) in Hres. discriminate. }
  rewrite (fetchMastodonPosts_result _ _ _ Hre) in Hres.
  destruct (snd (mastodon_pages up re (Z.to_nat maxPages) 0 None []))
    as [e | kept] eqn:Hloop.
  { injection Hres as <-. cbn. lia. }
  destruct (map_throwing process_status kept) as [ps|] eqn:Hmap.
  2:{ injection Hres as <-. cbn. lia. }
  injection Hres as <-.
  apply map_throwing_Forall2 in Hmap. apply Forall2_length in Hmap.
  rewrite <- Hmap. rewrite (pages_accumulate up re _ _ _ _ _ Hloop). cbn [app].
  pose proof (filter_length_le (passes re)
    (statuses_seen up 0
       (fst (mastodon_pages up re (Z.to_nat maxPages) 0 None [])))) as Hf.
  pose proof (statuses_seen_length up 0
    (fst (mastodon_pages up re (Z.to_nat maxPages) 0 None [])) Hlimit) as Hs.
  pose proof (pages_length up re (Z.to_nat maxPages) 0 None []) as Hp.
  change (Z.to_nat maxPages) with 10%nat in *. lia.
Qed.

Lemma fetchMastodonPosts_at_most_400_witness :
  (forall (k : nat) (params : SearchParams) (statuses : list Status),
      page_statuses (nine_full_then_five k params) = Some statuses ->
      (length statuses <= 40)%nat)
  /\ exists posts,
       mf_result (fetchMastodonPosts 2 nine_full_then_five) = Resolved posts
       /\ (length posts <= 400)%nat.
Proof.
  assert (forall (k : nat) (params : SearchParams) (statuses : list Status),
             page_statuses (nine_full_then_five k params) = Some statuses ->
             (length statuses <= 40)%nat) as Hlimit.
  { intros k params statuses. unfold nine_full_then_five.
    destruct (k <? 9)%nat; cbn [page_statuses]; intros [= <-];
      unfold sample_page; rewrite length_map, length_seq; lia. }
  split; [exact Hlimit|].
  destruct (fetchMastodonPosts_resolves nine_full_then_five 2 _ eq_refl)
    as [posts Hposts].
  exists posts. split; [exact Hposts|].
  exact (fetchMastodonPosts_at_most_400 2 nine_full_then_five posts Hlimit Hposts).
Defined.

(** ** The feed route *)

(** X12.  For a tab index from 0 to 6, and so too when [activeTab] is
    missing, zero or not a number, the route answers 200 with three lists,
    each the list its own fetcher resolved to: whatever one upstream does,
    the lists of the other two are what they would be without it. *)
Theorem api_feed_in_range_200 :
  forall (npubEncode : string -> option string) (parsedActiveTab : option Z)
         (queryLanguages : option string) (w : World) (s : ServerState),
    0 <= activeTab_of parsedActiveTab < 7 ->
    exists blueskyFeed nostrFeed mastodonFeed,
      fst (api_feed npubEncode parsedActiveTab queryLanguages w s)
      = Reply200 blueskyFeed nostrFeed mastodonFeed
      /\ fst (fetchBlueskyPosts (activeTab_of parsedActiveTab)
                (preferredLanguages_of queryLanguages) (w_now_bluesky w)
                (w_bluesky w) (s_tokenBucket s))
         = Resolved blueskyFeed
      /\ nf_result (fetchNostrPosts npubEncode (activeTab_of parsedActiveTab)
                      (w_now_nostr w) (w_relays w) (s_nostrCache s))
         = Resolved nostrFeed
      /\ mf_result (fetchMastodonPosts (activeTab_of parsedActiveTab)
                      (w_mastodon w))
         = Resolved mastodonFeed.
Proof.
  intros npubEncode parsed queryLanguages w s Hrange. unfold api_feed.
  destruct (fetchBlueskyPosts_resolves (activeTab_of parsed)
              (preferredLanguages_of queryLanguages) (w_now_bluesky w)
              (w_bluesky w) (s_tokenBucket s)) as [b Hb].
  destruct (fetchNostrPosts_resolves npubEncode (activeTab_of parsed)
              (w_now_nostr w) (w_relays w) (s_nostrCache s)) as [n Hn].
  destruct (pattern_in_range _ Hrange) as [re Hre].
  destruct (fetchMastodonPosts_resolves (w_mastodon w) _ _ Hre) as [m Hm].
  destruct (fetchBlueskyPosts _ _ _ _ _) as [bres bucket'].
  cbn [fst] in Hb. subst bres. rewrite Hn, Hm. cbn [promise_all3 fst].
  exists b, n, m. repeat split.
Qed.

Lemma api_feed_in_range_200_witness :
  let w := {| w_now_bluesky := 1714521600000;
              w_bluesky := sample_bluesky;
              w_now_nostr := 1714521600001;
              w_relays := SubscribeThrows (Error "no relay reachable");
              w_mastodon := mixed_single_page |} in
  0 <= activeTab_of None < 7
  /\ fst (api_feed sample_npubEncode None None w sample_state)
     = Reply200
         [ {| bp_item := sample_feed_item; bp_markdown := "good morning";
              bp_facets := None; bp_embed := None |} ]
         []
         [ sample_mastodon_post ].
Proof.
  intros w.
  assert (0 <= activeTab_of None < 7) as Hrange by (cbn; lia).
  split; [exact Hrange|].
  destruct (api_feed_in_range_200 sample_npubEncode None None w sample_state
              Hrange) as (b & n & m & Hreply & Hb & Hn & Hm).
  rewrite Hreply.
  assert (Resolved b
          = Resolved [ {| bp_item := sample_feed_item;
                          bp_markdown := "good morning";
                          bp_facets := None; bp_embed := None |} ]) as Eb
    by (rewrite <- Hb; reflexivity).
  assert (Resolved n = Resolved (@nil NostrPost)) as En
    by (rewrite <- Hn; reflexivity).
  assert (Resolved m = Resolved [sample_mastodon_post]) as Em
    by (rewrite <- Hm; vm_compute; reflexivity).
  injection Eb as ->. injection En as ->. injection Em as ->. reflexivity.
Defined.

Lemma no_pattern_below_0 (n : Z) :
  n < 0 -> js_index nostrSearchPatterns n = None.
Proof.
  intros Hn. unfold js_index.
  destruct (Z.ltb_spec n 0); [reflexivity | lia].
Qed.

(** X13.  When [parseInt] answers a negative integer the route answers
    the 500 envelope: a negative index finds no pattern either. *)
Theorem api_feed_negative_500 :
  forall (npubEncode : string -> option string) (n : Z)
         (queryLanguages : option string) (w : World) (s : ServerState),
    n < 0 ->
    exists details,
      fst (api_feed npubEncode (Some n) queryLanguages w s)
      = Reply500 "Error fetching feed" details.
Proof.
  intros npubEncode n queryLanguages w s Hn. unfold api_feed.
  assert (activeTab_of (Some n) = n) as ->.
  { cbn [activeTab_of]. destruct (Z.eqb_spec n 0); [lia | reflexivity]. }
  rewrite (fetchMastodonPosts_no_pattern _ _ (no_pattern_below_0 n Hn)).
  cbn [mf_result].
  destruct (fetchBlueskyPosts n _ _ _ _) as [[b | eb] bucket'];
    destruct (nf_result _) as [r | er]; cbn [promise_all3 fst]; eauto.
Qed.

Lemma api_feed_negative_500_witness :
  -1 < 0
  /\ exists details,
       fst (api_feed sample_npubEncode (Some (-1)) None sample_world sample_state)
       = Reply500 "Error fetching feed" details.
Proof.
  assert (-1 < 0) as Hn by lia.
  split; [exact Hn|].
  exact (api_feed_negative_500 sample_npubEncode (-1) None sample_world
           sample_state Hn).
Defined.

(** ** The classifier *)

Section Classifier.

Implicit Types (ic : bool) (p s pre post : string) (alts : list string).




Lemma search_app ic (alts1 alts2 : list string) s :
  RegExp.search ic (alts1 ++ alts2) s
  = RegExp.search ic alts1 s || RegExp.search ic alts2 s.
Proof.
  induction s as [|c s IH]; cbn [RegExp.search]; rewrite existsb_app.
  - rewrite !orb_false_r. reflexivity.
  - rewrite IH.
    destruct (existsb _ alts1), (existsb _ alts2),
      (RegExp.search ic alts1 s), (RegExp.search ic alts2 s); reflexivity.
Qed.

Lemma canonicalize_idempotent (c : ascii) :
  RegExp.canonicalize (RegExp.canonicalize c) = RegExp.canonicalize c.
Proof. destruct c as [[] [] [] [] [] [] [] []]; reflexivity. Qed.

Lemma existsb_pointwise {A : Type} (f g : A -> bool) (l : list A) :
  (forall x, f x = g x) -> existsb f l = existsb g l.
Proof.
  intros Hfg. induction l as [|x l IH]; cbn [existsb]; [reflexivity|].
  rewrite Hfg, IH. reflexivity.
Qed.

Lemma matches_here_canonical p s :
  RegExp.matches_here true p (canonical s) = RegExp.matches_here true p s.
Proof.
  revert s. induction p as [|a p IH]; intros s; [reflexivity|].
  destruct s as [|b s]; [reflexivity|].
  cbn [canonical RegExp.matches_here RegExp.char_matches].
  rewrite canonicalize_idempotent, IH. reflexivity.
Qed.

Lemma search_canonical alts s :
  RegExp.search true alts (canonical s) = RegExp.search true alts s.
Proof.
  induction s as [|c s IH]; cbn [canonical RegExp.search].
  - reflexivity.
  - rewrite IH. f_equal. apply existsb_pointwise. intros p.
    apply (matches_here_canonical p (String c s)).
Qed.

End Classifier.



(** X15.  The seven tab patterns do not see the case of ASCII letters:
    two texts that are equal once their ASCII letters are put in upper
    case are classified alike at every tab. *)
Theorem tab_matches_ignores_case :
  forall (activeTab : Z) (s1 s2 : string),
    canonical s1 = canonical s2 ->
    tab_matches activeTab s1 = tab_matches activeTab s2.
Proof.
  intros activeTab s1 s2 Heq. unfold tab_matches.
  destruct (js_index nostrSearchPatterns activeTab) as [re|] eqn:Hre;
    [|reflexivity].
  assert (RegExp.ignoreCase re = true) as Hic.
  { unfold js_index in Hre. destruct (activeTab <? 0); [discriminate|].
    apply nth_error_In in Hre. unfold nostrSearchPatterns in Hre.
    apply in_map_iff in Hre. destruct Hre as (src & <- & _). reflexivity. }
  unfold RegExp.test. destruct (RegExp.branches re) as [alts|]; [|reflexivity].
  rewrite Hic, <- (search_canonical alts s1), <- (search_canonical alts s2), Heq.
  reflexivity.
Qed.

Lemma tab_matches_ignores_case_witness :
  canonical "Forms at IRS.gov/Forms" = canonical "forms at irs.GOV/forms"
  /\ tab_matches 1 "Forms at IRS.gov/Forms"
     = tab_matches 1 "forms at irs.GOV/forms".
Proof.
  assert (canonical "Forms at IRS.gov/Forms" = canonical "forms at irs.GOV/forms")
    as Heq by reflexivity.
  split; [exact Heq|].
  exact (tab_matches_ignores_case 1 _ _ Heq).
Defined.

(** X16.  The first tab is the union of the next three: a text matches
    the pattern of tab 0 exactly when it matches that of tab 1, of tab 2 or
    of tab 3. *)
Theorem tab0_is_union_of_tabs_1_2_3 :
  forall s : string,
    tab_matches 0 s = tab_matches 1 s || tab_matches 2 s || tab_matches 3 s.
Proof.
  intros s. unfold tab_matches.
  change (js_index nostrSearchPatterns 0)
    with (Some (RegExp.new (nth 0 pattern_sources "") "i")).
  change (js_index nostrSearchPatterns 1)
    with (Some (RegExp.new (nth 1 pattern_sources "") "i")).
  change (js_index nostrSearchPatterns 2)
    with (Some (RegExp.new (nth 2 pattern_sources "") "i")).
  change (js_index nostrSearchPatterns 3)
    with (Some (RegExp.new (nth 3 pattern_sources "") "i")).
  unfold RegExp.test.
  set (b1 := [".gov/"]).
  set (b2 := ["bea.gov"; "stlouisfed.org"; "worldbank.org"; "bls.gov";
              "imf.org"; "oecd.org"; "europa.eu/eurostat"; "unstats.un.org"]).
  set (b3 := ["arxiv.org"; "nih.gov"; "nasa.gov"; "science.org"; "cell.com";
              "pnas.org"]).
  change (RegExp.branches (RegExp.new (nth 0 pattern_sources "") "i"))
    with (Some (b1 ++ b2 ++ b3)).
  change (RegExp.branches (RegExp.new (nth 1 pattern_sources "") "i"))
    with (Some b1).
  change (RegExp.branches (RegExp.new (nth 2 pattern_sources "") "i"))
    with (Some b2).
  change (RegExp.branches (RegExp.new (nth 3 pattern_sources "") "i"))
    with (Some b3).
  change (RegExp.ignoreCase (RegExp.new _ "i")) with true.
  cbv beta iota. rewrite !search_app. rewrite orb_assoc. reflexivity.
Qed.

(** ** The search query against the alternatives of the pattern *)

Section QueryTerms.

Implicit Types (c d : ascii) (r s cur : string).

Lemma replace_bars_cons c r :
  replace_bars (String c r)
  = if Ascii.eqb c "|" then " OR " +:+ replace_bars r
    else String c (replace_bars r).
Proof. destruct c as [[] [] [] [] [] [] [] []]; reflexivity. Qed.

Lemma replace_escaped_dots_cons c r :
  replace_escaped_dots (String c r)
  = if Ascii.eqb c "\" then
      match r with
      | String d r' =>
          if Ascii.eqb d "." then String "." (replace_escaped_dots r')
          else String c (replace_escaped_dots r)
      | EmptyString => String c EmptyString
      end
    else String c (replace_escaped_dots r).
Proof.
  destruct c as [[] [] [] [] [] [] [] []];
    first [ reflexivity
          | destruct r as [|d r']; [reflexivity|];
            destruct d as [[] [] [] [] [] [] [] []]; reflexivity ].
Qed.

Lemma branches_from_cons c r cur :
  RegExp.branches_from (String c r) cur
  = if Ascii.eqb c "\" then
      match r with
      | String d r' =>
          if RegExp.is_escapable d
          then RegExp.branches_from r' (cur +:+ String d EmptyString)
          else None
      | EmptyString => None
      end
    else if Ascii.eqb c "|" then
      match RegExp.branches_from r EmptyString with
      | Some bs => Some (cur :: bs)
      | None => None
      end
    else if RegExp.is_meta c then None
    else RegExp.branches_from r (cur +:+ String c EmptyString).
Proof.
  destruct c as [[] [] [] [] [] [] [] []];
    first [ reflexivity | destruct r as [|d r']; reflexivity ].
Qed.

Lemma dots_only_cons c r :
  dots_only (String c r)
  = if Ascii.eqb c "\" then
      match r with
      | String d r' => if Ascii.eqb d "." then dots_only r' else false
      | EmptyString => false
      end
    else if Ascii.eqb c "|" then dots_only r
    else negb (RegExp.is_meta c) && dots_only r.
Proof.
  destruct c as [[] [] [] [] [] [] [] []];
    first [ reflexivity
          | destruct r as [|d r']; [reflexivity|];
            destruct d as [[] [] [] [] [] [] [] []]; reflexivity ].
Qed.

Lemma append_char cur c s :
  (cur +:+ String c EmptyString) +:+ s = cur +:+ String c s.
Proof. rewrite append_assoc. reflexivity. Qed.

Lemma query_terms_from (n : nat) s cur :
  (String.length s <= n)%nat ->
  dots_only s = true ->
  exists bs,
    RegExp.branches_from s cur = Some bs
    /\ bs <> []
    /\ String.concat " OR " bs
       = cur +:+ replace_bars (replace_escaped_dots s).
Proof.
  revert s cur. induction n as [|n IH]; intros s cur Hlen Hdots.
  - destruct s; [|cbn in Hlen; lia].
    exists [cur]. split; [reflexivity|]. split; [discriminate|].
    cbn [String.concat replace_escaped_dots replace_bars].
    rewrite append_empty_r. reflexivity.
  - destruct s as [|c r].
    { exists [cur]. split; [reflexivity|]. split; [discriminate|].
      cbn [String.concat replace_escaped_dots replace_bars].
      rewrite append_empty_r. reflexivity. }
    cbn [String.length] in Hlen.
    rewrite dots_only_cons in Hdots.
    rewrite branches_from_cons, replace_escaped_dots_cons.
    destruct (Ascii.eqb c "\") eqn:Hbs.
    + destruct r as [|d r']; [discriminate|].
      destruct (Ascii.eqb_spec d ".") as [-> | Hd]; [|discriminate].
      change (RegExp.is_escapable ".") with true. cbv iota.
      destruct (IH r' (cur +:+ ".") ltac:(cbn [String.length] in Hlen; lia) Hdots)
        as (bs & Hb & Hne & Hq).
      exists bs. split; [exact Hb|]. split; [exact Hne|].
      rewrite Hq, replace_bars_cons. change (Ascii.eqb "." "|") with false.
      cbv iota. apply append_char.
    + destruct (Ascii.eqb c "|") eqn:Hbar.
      * destruct (IH r "" ltac:(lia) Hdots) as (bs & Hb & Hne & Hq).
        rewrite Hb. exists (cur :: bs). split; [reflexivity|].
        split; [discriminate|].
        rewrite replace_bars_cons, Hbar.
        destruct bs as [|b bs]; [contradiction|].
        change (String.concat " OR " (cur :: b :: bs))
          with (cur +:+ " OR " +:+ String.concat " OR " (b :: bs)).
        rewrite Hq. reflexivity.
      * apply andb_true_iff in Hdots. destruct Hdots as [Hmeta Hdots].
        apply negb_true_iff in Hmeta. rewrite Hmeta.
        destruct (IH r (cur +:+ String c "") ltac:(lia) Hdots)
          as (bs & Hb & Hne & Hq).
        exists bs. split; [exact Hb|]. split; [exact Hne|].
        rewrite Hq, replace_bars_cons, Hbar. apply append_char.
Qed.

End QueryTerms.

(** X17.  For a pattern whose source escapes nothing but dots, the search
    query is its alternatives joined by [ OR ]: the terms the upstream is
    asked for are exactly the literal texts the pattern looks for. *)
Theorem searchQuery_joins_alternatives :
  forall re : RegExp.t,
    dots_only (RegExp.source re) = true ->
    exists alternatives,
      RegExp.branches re = Some alternatives
      /\ searchQuery_of re = String.concat " OR " alternatives.
Proof.
  intros re Hdots.
  destruct (query_terms_from (String.length (RegExp.source re))
              (RegExp.source re) "" ltac:(lia) Hdots) as (bs & Hb & _ & Hq).
  exists bs. split; [exact Hb|]. unfold searchQuery_of. rewrite Hq.
  reflexivity.
Qed.

Lemma searchQuery_joins_alternatives_witness :
  dots_only (RegExp.source (RegExp.new (nth 3 pattern_sources "") "i")) = true
  /\ exists alternatives,
       RegExp.branches (RegExp.new (nth 3 pattern_sources "") "i")
         = Some alternatives
       /\ searchQuery_of (RegExp.new (nth 3 pattern_sources "") "i")
          = String.concat " OR " alternatives.
Proof.
  assert (dots_only (RegExp.source (RegExp.new (nth 3 pattern_sources "") "i"))
          = true) as Hdots by reflexivity.
  split; [exact Hdots|].
  exact (searchQuery_joins_alternatives _ Hdots).
Defined.

(** * Properties of the client *)

(** ** The relative time *)

(** X18.  For a valid date, [formatTimeAgo] prints a count and a unit
    (second, minute, hour or day, with an [s] unless the count is 1): the
    count is the whole number of units in the elapsed seconds; the unit is
    the second below one minute, the minute below one hour, the hour below
    one day and the day from there on, so a count of minutes, hours or
    days is never zero; and a date in the future is printed as a negative
    count of seconds. *)
Theorem formatTimeAgo_count_and_unit :
  forall now date : Z,
    let seconds := (now - date) / 1000 in
    exists (count unit limit : Z) (name : string),
      formatTimeAgo now (Some date)
      = pretty count +:+ " " +:+ name
          +:+ (if count =? 1 then "" else "s") +:+ " ago"
      /\ In (unit, limit, name)
           [(1, 60, "second"); (60, 3600, "minute"); (3600, 86400, "hour");
            (86400, seconds + 1, "day")]
      /\ count * unit <= seconds < (count + 1) * unit
      /\ seconds < limit
      /\ (unit = 1 \/ unit <= seconds)
      /\ (0 <= seconds \/ unit = 1 /\ count = seconds).
Proof.
  intros now date seconds. unfold formatTimeAgo. fold seconds.
  destruct (Z.ltb_spec seconds 60) as [H60 | H60].
  { exists seconds, 1, 60, "second". split; [reflexivity|].
    split; [left; reflexivity|].
    split; [lia|]. split; [lia|]. split; [left; reflexivity|].
    destruct (Z.le_gt_cases 0 seconds); [left; assumption | right; split; reflexivity]. }
  destruct (Z.ltb_spec seconds 3600) as [H3600 | H3600].
  { exists (seconds / 60), 60, 3600, "minute". split; [reflexivity|].
    split; [right; left; reflexivity|].
    pose proof (Z.mul_div_le seconds 60 ltac:(lia)).
    pose proof (Z.mul_succ_div_gt seconds 60 ltac:(lia)).
    split; [lia|]. split; [lia|]. split; [right; lia | left; lia]. }
  destruct (Z.ltb_spec seconds 86400) as [Hday | Hday].
  { exists (seconds / 3600), 3600, 86400, "hour". split; [reflexivity|].
    split; [right; right; left; reflexivity|].
    pose proof (Z.mul_div_le seconds 3600 ltac:(lia)).
    pose proof (Z.mul_succ_div_gt seconds 3600 ltac:(lia)).
    split; [lia|]. split; [lia|]. split; [right; lia | left; lia]. }
  exists (seconds / 86400), 86400, (seconds + 1), "day". split; [reflexivity|].
  split; [right; right; right; left; reflexivity|].
  pose proof (Z.mul_div_le seconds 86400 ltac:(lia)).
  pose proof (Z.mul_succ_div_gt seconds 86400 ltac:(lia)).
  split; [lia|]. split; [lia|]. split; [right; lia | left; lia].
Qed.

Example formatTimeAgo_samples :
  formatTimeAgo 1714521690500 (Some 1714521600000) = "1 minute ago"
  /\ formatTimeAgo 1714521600000 (Some 1714521601000) = "-1 seconds ago"
  /\ formatTimeAgo 1714694400000 (Some 1714521600000) = "2 days ago"
  /\ formatTimeAgo 1714521600000 None = "NaN days ago".
Proof. repeat split. Qed.

(** ** The cards of a Bluesky post *)

Section Cards.

Implicit Types (facets : list Facet) (embed : option Embed) (link u : string).

Lemma truthy_spec u : truthy u = true <-> u <> "".
Proof. unfold truthy. destruct (decide (u = "")); split; congruence. Qed.

Lemma reduce_links_kept facets link :
  truthy link = true ->
  fold_left (fun link facet => if truthy link then link else facet_link facet)
    facets link = link.
Proof.
  revert link. induction facets as [|f facets IH]; intros link Hl;
    cbn [fold_left]; [reflexivity|].
  rewrite Hl. apply IH. exact Hl.
Qed.

(** The reduction gives the link of the first facet that has one. *)
Lemma reduce_links_first facets u :
  u <> "" ->
  fold_left (fun link facet => if truthy link then link else facet_link facet)
    facets "" = u
  <-> exists before facet after,
        facets = before ++ facet :: after
        /\ Forall (fun f => facet_link f = "") before
        /\ facet_link facet = u.
Proof.
  intros Hu. induction facets as [|f facets IH]; cbn [fold_left].
  - split.
    + intros H. congruence.
    + intros (before & facet & after & Heq & _). destruct before; discriminate.
  - change (truthy "") with false. cbv iota.
    destruct (truthy (facet_link f)) eqn:Hf.
    + rewrite (reduce_links_kept facets _ Hf). apply truthy_spec in Hf. split.
      * intros <-. exists [], f, facets. repeat split. constructor.
      * intros (before & facet & after & Heq & Hnone & Hl).
        destruct before as [|f0 before]; cbn [app] in Heq.
        -- injection Heq as <- _. exact Hl.
        -- injection Heq as <- _. apply Forall_cons_iff in Hnone.
           destruct Hnone as [Hnone _]. contradiction.
    + assert (facet_link f = "") as Hempty.
      { unfold truthy in Hf. destruct (decide (facet_link f = ""));
          [assumption | discriminate]. }
      rewrite Hempty. rewrite IH. split.
      * intros (before & facet & after & -> & Hnone & Hl).
        exists (f :: before), facet, after. repeat split; [|exact Hl].
        constructor; assumption.
      * intros (before & facet & after & Heq & Hnone & Hl).
        destruct before as [|f0 before]; cbn [app] in Heq.
        -- injection Heq as -> _. congruence.
        -- injection Heq as -> ->. apply Forall_cons_iff in Hnone.
           destruct Hnone as [_ Hnone]. exists before, facet, after.
           repeat split; assumption.
Qed.

End Cards.

(** X19.  A Bluesky post never gets both cards: when [renderEmbed] gives
    the card of an external embed, or raises because that embed has no
    [external], [renderLink] gives [null] whatever the facets are; and
    when [renderLink] gives a card, [renderEmbed] gives [null]. *)
Theorem renderEmbed_renderLink_exclusive :
  forall (facets : Facets) (embed : option Embed),
    (renderEmbed embed <> Null -> renderLink facets embed = Null)
    /\ (renderLink facets embed <> Null -> renderEmbed embed = Null).
Proof.
  intros facets embed. unfold renderEmbed, renderLink.
  destruct (is_external embed); cbn [negb]; split; congruence.
Qed.

Lemma renderEmbed_renderLink_exclusive_witness :
  let embed :=
    Some {| em_type := "app.bsky.embed.external";
            em_external := Some {| ext_uri := "https://www.bls.gov/cpi/";
                                   ext_title := "CPI"; ext_description := "" |} |} in
  let facets :=
    FacetArray [ {| fc_features :=
                      Some [ {| ft_type := "app.bsky.richtext.facet#link";
                                ft_uri := Some "https://www.bls.gov/cpi/" |} ] |} ] in
  (renderEmbed embed <> Null /\ renderLink facets embed = Null)
  /\ (renderLink facets None <> Null /\ renderEmbed None = Null).
Proof.
  intros embed facets.
  assert (renderEmbed embed <> Null) as H1 by discriminate.
  assert (renderLink facets None <> Null) as H2 by discriminate.
  split; split; try assumption.
  - exact (proj1 (renderEmbed_renderLink_exclusive facets embed) H1).
  - exact (proj2 (renderEmbed_renderLink_exclusive facets None) H2).
Defined.

(** X20.  [renderLink] gives the card of a link exactly when the embed is
    not an external one and the link is the non-empty [uri] of the first
    link feature of some facet, every facet before it having no link
    feature or an empty [uri] in its first one. *)
Theorem renderLink_first_link :
  forall (facets : Facets) (embed : option Embed) (uri : string),
    renderLink facets embed = Element (LinkCard uri)
    <-> is_external embed = false
        /\ uri <> ""
        /\ exists before facet after,
             facets = FacetArray (before ++ facet :: after)
             /\ Forall (fun f => facet_link f = "") before
             /\ facet_link facet = uri.
Proof.
  intros facets embed uri. unfold renderLink.
  destruct (is_external embed); cbn [negb].
  { split; [discriminate | intros [? _]; discriminate]. }
  destruct facets as [|facets].
  { split; [discriminate|].
    intros (_ & _ & before & facet & after & Heq & _). discriminate. }
  destruct (truthy (fold_left _ facets "")) eqn:Ht.
  - apply truthy_spec in Ht. split.
    + intros [= Hu]. subst uri. split; [reflexivity|]. split; [exact Ht|].
      destruct (proj1 (reduce_links_first facets _ Ht) eq_refl)
        as (before & facet & after & -> & Hb & Hl).
      exists before, facet, after. repeat split; assumption.
    + intros (_ & Hu & before & facet & after & [= ->] & Hb & Hl).
      do 2 f_equal. apply (reduce_links_first _ uri Hu).
      exists before, facet, after. repeat split; assumption.
  - split; [discriminate|].
    intros (_ & Hu & before & facet & after & [= ->] & Hb & Hl).
    assert (fold_left
              (fun link facet => if truthy link then link else facet_link facet)
              (before ++ facet :: after) "" = uri) as Hfold.
    { apply (reduce_links_first _ uri Hu).
      exists before, facet, after. repeat split; assumption. }
    rewrite Hfold in Ht. apply truthy_spec in Hu. congruence.
Qed.

Lemma renderLink_first_link_witness :
  let plain := {| fc_features := Some [ {| ft_type := "app.bsky.richtext.facet#mention";
                                           ft_uri := None |} ] |} in
  let linked := {| fc_features :=
                     Some [ {| ft_type := "app.bsky.richtext.facet#link";
                               ft_uri := Some "https://www.bls.gov/cpi/" |} ] |} in
  let other := {| fc_features :=
                    Some [ {| ft_type := "app.bsky.richtext.facet#link";
                              ft_uri := Some "https://arxiv.org/abs/1" |} ] |} in
  (is_external None = false
   /\ "https://www.bls.gov/cpi/" <> ""
   /\ exists before facet after,
        FacetArray [plain; linked; other] = FacetArray (before ++ facet :: after)
        /\ Forall (fun f => facet_link f = "") before
        /\ facet_link facet = "https://www.bls.gov/cpi/")
  /\ renderLink (FacetArray [plain; linked; other]) None
     = Element (LinkCard "https://www.bls.gov/cpi/").
Proof.
  intros plain linked other.
  assert (is_external None = false
          /\ "https://www.bls.gov/cpi/" <> ""
          /\ exists before facet after,
               FacetArray [plain; linked; other]
               = FacetArray (before ++ facet :: after)
               /\ Forall (fun f => facet_link f = "") before
               /\ facet_link facet = "https://www.bls.gov/cpi/") as Hfirst.
  { split; [reflexivity|]. split; [discriminate|].
    exists [plain], linked, [other]. split; [reflexivity|].
    split; [repeat constructor | reflexivity]. }
  split; [exact Hfirst|].
  exact (proj2 (renderLink_first_link (FacetArray [plain; linked; other]) None
                  "https://www.bls.gov/cpi/") Hfirst).
Defined.

(** ** The bookmarks *)

Section Bookmarks.

Implicit Types (item other bookmark : FeedEntry) (bookmarks : list FeedEntry).

Lemma same_id_true item bookmark :
  same_id item bookmark = true <-> entry_id bookmark = entry_id item.
Proof.
  unfold same_id. destruct (decide (entry_id bookmark = entry_id item));
    split; congruence.
Qed.

Lemma findIndex_None {A : Type} (f : A -> bool) (arr : list A) :
  findIndex f arr = None <-> existsb f arr = false.
Proof.
  induction arr as [|x arr IH]; cbn [findIndex existsb]; [split; reflexivity|].
  destruct (f x); cbn [orb]; [split; discriminate|].
  destruct (findIndex f arr) as [i|].
  - split; [discriminate|]. intros H. apply IH in H. discriminate.
  - split; [intros _; apply IH; reflexivity | reflexivity].
Qed.

(** The index found splits the array at its first hit. *)
Lemma findIndex_Some {A : Type} (f : A -> bool) (arr : list A) (i : nat) :
  findIndex f arr = Some i ->
  exists x, arr = take i arr ++ x :: drop (S i) arr
            /\ f x = true
            /\ existsb f (take i arr) = false.
Proof.
  revert i. induction arr as [|y arr IH]; intros i; cbn [findIndex];
    [discriminate|].
  destruct (f y) eqn:Hy.
  - intros [= <-]. exists y. cbn. rewrite drop_0. repeat split. exact Hy.
  - destruct (findIndex f arr) as [j|]; [|discriminate].
    intros [= <-]. destruct (IH j eq_refl) as (x & Heq & Hx & Hbefore).
    exists x. cbn [take drop app existsb]. rewrite Hy, Hbefore.
    repeat split; [|exact Hx]. f_equal. exact Heq.
Qed.

Lemma findIndex_app_hit {A : Type} (f : A -> bool) (arr : list A) (x : A) :
  existsb f arr = false -> f x = true ->
  findIndex f (arr ++ [x]) = Some (length arr).
Proof.
  induction arr as [|y arr IH]; cbn [app findIndex existsb length].
  - intros _ ->. reflexivity.
  - intros H Hx. apply orb_false_iff in H. destruct H as [-> H].
    rewrite (IH H Hx). reflexivity.
Qed.

Lemma handleBookmark_fresh item bookmarks :
  isBookmarked item bookmarks = false ->
  handleBookmark item bookmarks = bookmarks ++ [item].
Proof.
  intros H. unfold handleBookmark.
  rewrite (proj2 (findIndex_None _ _) H). reflexivity.
Qed.

(** A click on an entry that has the id of the entry just added takes
    that entry out again. *)
Lemma handleBookmark_undo item other bookmarks :
  entry_id other = entry_id item ->
  isBookmarked item bookmarks = false ->
  handleBookmark other (handleBookmark item bookmarks) = bookmarks.
Proof.
  intros Hid Hfresh. rewrite (handleBookmark_fresh _ _ Hfresh).
  unfold handleBookmark.
  assert (same_id other = same_id item) as Hsame.
  { unfold same_id. rewrite Hid. reflexivity. }
  rewrite Hsame.
  rewrite (findIndex_app_hit (same_id item) bookmarks item Hfresh).
  2:{ apply same_id_true. reflexivity. }
  rewrite take_app_length. rewrite drop_ge; [apply app_nil_r|].
  rewrite length_app. cbn. lia.
Qed.

Lemma existsb_app_single {A : Type} (f : A -> bool) (l : list A) (x : A) :
  existsb f (l ++ [x]) = existsb f l || f x.
Proof. rewrite existsb_app. cbn. rewrite orb_false_r. reflexivity. Qed.

End Bookmarks.

(** X21.  On bookmarks whose ids are all different, a click on an item
    flips whether that item is bookmarked, leaves every item with another
    id as it was, and keeps the ids different. *)
Theorem handleBookmark_toggles :
  forall (item : FeedEntry) (bookmarks : list FeedEntry),
    NoDup (map entry_id bookmarks) ->
    isBookmarked item (handleBookmark item bookmarks)
    = negb (isBookmarked item bookmarks)
    /\ (forall other : FeedEntry,
          entry_id other <> entry_id item ->
          isBookmarked other (handleBookmark item bookmarks)
          = isBookmarked other bookmarks)
    /\ NoDup (map entry_id (handleBookmark item bookmarks)).
Proof.
  intros item bookmarks Hnodup. unfold handleBookmark, isBookmarked.
  destruct (findIndex (same_id item) bookmarks) as [i|] eqn:Hfind.
  - destruct (findIndex_Some _ _ _ Hfind) as (x & Heq & Hx & Hbefore).
    apply same_id_true in Hx.
    assert (existsb (same_id item) bookmarks = true) as Hin.
    { rewrite Heq, existsb_app. cbn [existsb].
      rewrite (proj2 (same_id_true item x) Hx). rewrite orb_true_r. reflexivity. }
    rewrite Hin. cbn [negb].
    rewrite Heq in Hnodup. rewrite map_app in Hnodup. cbn [map] in Hnodup.
    apply NoDup_ListNoDup in Hnodup.
    pose proof (NoDup_remove_1 _ _ _ Hnodup) as Hrest.
    pose proof (NoDup_remove_2 _ _ _ Hnodup) as Hnotin.
    rewrite <- map_app in Hrest, Hnotin. apply NoDup_ListNoDup in Hrest.
    split; [|split].
    + destruct (existsb (same_id item) (take i bookmarks ++ drop (S i) bookmarks))
        eqn:Hex; [|reflexivity].
      exfalso. apply Hnotin. apply existsb_exists in Hex.
      destruct Hex as (y & Hy & Hsame). apply same_id_true in Hsame.
      apply in_map_iff. exists y. split; [congruence | exact Hy].
    + intros other Hother.
      transitivity (existsb (same_id other)
                      (take i bookmarks ++ x :: drop (S i) bookmarks));
        [|rewrite <- Heq; reflexivity].
      rewrite !existsb_app. cbn [existsb]. f_equal.
      replace (same_id other x) with false; [reflexivity|].
      symmetry. unfold same_id.
      destruct (decide (entry_id x = entry_id other)); [congruence | reflexivity].
    + exact Hrest.
  - apply findIndex_None in Hfind. rewrite Hfind. cbn [negb].
    split; [|split].
    + rewrite existsb_app_single. rewrite (proj2 (same_id_true item item) eq_refl).
      apply orb_true_r.
    + intros other Hother. rewrite existsb_app_single.
      replace (same_id other item) with false; [apply orb_false_r|].
      symmetry. unfold same_id.
      destruct (decide (entry_id item = entry_id other)); [congruence | reflexivity].
    + rewrite map_app. cbn [map]. apply NoDup_app. split; [exact Hnodup|].
      split; [|apply NoDup_singleton].
      intros id Hid Hsingle. apply list_elem_of_singleton in Hsingle. subst id.
      apply list_elem_of_In, in_map_iff in Hid. destruct Hid as (y & Hy & Hyin).
      assert (existsb (same_id item) bookmarks = true) as Hex.
      { apply existsb_exists. exists y. split; [exact Hyin|].
        apply same_id_true. exact Hy. }
      congruence.
Qed.

Lemma handleBookmark_toggles_witness :
  let saved := [FromNostr (sample_post "e1" "a"); FromMastodon sample_mastodon_post] in
  let item := FromNostr (sample_post "e1" "a") in
  NoDup (map entry_id saved)
  /\ isBookmarked item (handleBookmark item saved) = negb (isBookmarked item saved)
  /\ (entry_id (FromMastodon sample_mastodon_post) <> entry_id item
      /\ isBookmarked (FromMastodon sample_mastodon_post) (handleBookmark item saved)
         = isBookmarked (FromMastodon sample_mastodon_post) saved)
  /\ NoDup (map entry_id (handleBookmark item saved)).
Proof.
  intros saved item.
  assert (NoDup (map entry_id saved)) as Hnodup
    by (apply NoDup_ListNoDup; repeat constructor; cbn; intuition discriminate).
  assert (entry_id (FromMastodon sample_mastodon_post) <> entry_id item) as Hother
    by discriminate.
  destruct (handleBookmark_toggles item saved Hnodup) as (H1 & H2 & H3).
  split; [exact Hnodup|]. split; [exact H1|].
  split; [split; [exact Hother | exact (H2 _ Hother)] | exact H3].
Defined.

(** X22.  After a click has added an item, a click on any item with the
    same id gives back the bookmarks as they were before: the added entry
    is the one removed, and nothing else moves. *)
Theorem handleBookmark_twice :
  forall (item other : FeedEntry) (bookmarks : list FeedEntry),
    entry_id other = entry_id item ->
    isBookmarked item bookmarks = false ->
    handleBookmark other (handleBookmark item bookmarks) = bookmarks.
Proof.
  intros item other bookmarks Hid Hfresh.
  apply handleBookmark_undo; assumption.
Qed.

Lemma handleBookmark_twice_witness :
  let saved := [FromMastodon sample_mastodon_post] in
  let item := FromNostr (sample_post "e1" "a") in
  entry_id item = entry_id item
  /\ isBookmarked item saved = false
  /\ handleBookmark item (handleBookmark item saved) = saved.
Proof.
  intros saved item.
  assert (isBookmarked item saved = false) as Hfresh by reflexivity.
  split; [reflexivity|]. split; [exact Hfresh|].
  exact (handleBookmark_twice item item saved eq_refl Hfresh).
Defined.

(** X23.  Bluesky entries carry no [id], so for the bookmarks they are
    all the same item: once one Bluesky post is saved every Bluesky post
    shows as saved, and a click on another Bluesky post does not save it
    but takes the first one out. *)
Theorem handleBookmark_bluesky_collide :
  forall (first second : BlueskyView) (bookmarks : list FeedEntry),
    isBookmarked (FromBluesky first) bookmarks = false ->
    isBookmarked (FromBluesky second)
      (handleBookmark (FromBluesky first) bookmarks) = true
    /\ handleBookmark (FromBluesky second)
         (handleBookmark (FromBluesky first) bookmarks) = bookmarks.
Proof.
  intros first second bookmarks Hfresh. split.
  - rewrite (handleBookmark_fresh _ _ Hfresh). unfold isBookmarked.
    rewrite existsb_app_single. apply orb_true_r.
  - apply handleBookmark_undo; [reflexivity | exact Hfresh].
Qed.

Lemma handleBookmark_bluesky_collide_witness :
  let first := sample_view "at://did:plc:a/app.bsky.feed.post/1" "2024-05-01T00:10:00.000Z" in
  let second := sample_view "at://did:plc:a/app.bsky.feed.post/2" "2024-05-02T00:00:00.000Z" in
  let saved := [FromMastodon sample_mastodon_post] in
  isBookmarked (FromBluesky first) saved = false
  /\ isBookmarked (FromBluesky second) (handleBookmark (FromBluesky first) saved)
     = true
  /\ handleBookmark (FromBluesky second) (handleBookmark (FromBluesky first) saved)
     = saved.
Proof.
  intros first second saved.
  assert (isBookmarked (FromBluesky first) saved = false) as Hfresh
    by reflexivity.
  split; [exact Hfresh|].
  exact (handleBookmark_bluesky_collide first second saved Hfresh).
Defined.

(** ** The combined feed *)

Section FeedOrder.

Variable Date_parse : string -> option Z.

Implicit Types (a b x : FeedEntry) (arr : list FeedEntry).

Lemma sort_insert_perm {A : Type} (compare : A -> A -> Z) (x : A) (l : list A) :
  sort_insert compare x l ≡ₚ x :: l.
Proof.
  induction l as [|y l IH]; cbn [sort_insert]; [reflexivity|].
  destruct (compare x y <=? 0); [reflexivity|].
  rewrite IH. apply Permutation_swap.
Qed.

Lemma js_sort_perm {A : Type} (compare : A -> A -> Z) (l : list A) :
  js_sort compare l ≡ₚ l.
Proof.
  induction l as [|x l IH]; cbn [js_sort fold_right]; [reflexivity|].
  rewrite sort_insert_perm. fold (js_sort compare l). rewrite IH. reflexivity.
Qed.

Lemma by_date_valid a b (ta tb : Z) :
  entry_time Date_parse a = Some ta ->
  entry_time Date_parse b = Some tb ->
  by_date Date_parse a b = tb - ta.
Proof. intros Ha Hb. unfold by_date. rewrite Ha, Hb. reflexivity. Qed.

Lemma sort_insert_sorted x arr :
  is_Some (entry_time Date_parse x) ->
  Forall (fun a => is_Some (entry_time Date_parse a)) arr ->
  StronglySorted (not_older Date_parse) arr ->
  StronglySorted (not_older Date_parse) (sort_insert (by_date Date_parse) x arr).
Proof.
  intros [tx Hx] Hvalid Hsorted.
  induction arr as [|y arr IH]; cbn [sort_insert].
  - constructor; [constructor | constructor].
  - apply Forall_cons_iff in Hvalid. destruct Hvalid as [[ty Hy] Hvalid].
    apply StronglySorted_inv in Hsorted. destruct Hsorted as [Hsorted Hall].
    rewrite (by_date_valid x y tx ty Hx Hy).
    destruct (Z.leb_spec (ty - tx) 0) as [Hle | Hgt].
    + constructor; [constructor; assumption|].
      apply List.Forall_cons.
      * exists tx, ty. repeat split; [assumption | assumption | lia].
      * eapply List.Forall_impl; [|exact Hall].
        intros z (ty' & tz & Hy' & Hz & Hzy).
        exists tx, tz. repeat split; [assumption | assumption |].
        rewrite Hy in Hy'. injection Hy' as <-. lia.
    + constructor; [apply IH; assumption|].
      assert (Forall (not_older Date_parse y) (x :: arr)) as Hxarr.
      { apply Forall_cons. split; [|apply Forall_forall; intros z Hz;
          rewrite List.Forall_forall in Hall; apply Hall;
          apply list_elem_of_In; exact Hz].
        exists ty, tx. repeat split; [assumption | assumption | lia]. }
      apply Forall_forall. intros z Hz. rewrite Forall_forall in Hxarr.
      apply Hxarr. rewrite <- (sort_insert_perm (by_date Date_parse) x arr).
      exact Hz.
Qed.

Lemma js_sort_sorted arr :
  Forall (fun a => is_Some (entry_time Date_parse a)) arr ->
  StronglySorted (not_older Date_parse) (js_sort (by_date Date_parse) arr).
Proof.
  induction arr as [|x arr IH]; intros Hvalid; cbn [js_sort fold_right].
  - constructor.
  - apply Forall_cons_iff in Hvalid. destruct Hvalid as [Hx Hvalid].
    apply sort_insert_sorted; [exact Hx | | apply IH; exact Hvalid].
    fold (js_sort (by_date Date_parse) arr).
    rewrite (js_sort_perm (by_date Date_parse) arr). exact Hvalid.
Qed.

Lemma filter_map_network {A : Type} (f : A -> FeedEntry) (network : Network)
  (en : EnabledNetworks) (l : list A) :
  (forall v : A, entry_network (f v) = network) ->
  List.filter (fun a => enabled en (entry_network a)) (map f l)
  = if enabled en network then map f l else [].
Proof.
  intros Hf. induction l as [|v l IH]; cbn [map List.filter].
  - destruct (enabled en network); reflexivity.
  - rewrite Hf, IH. destruct (enabled en network); reflexivity.
Qed.

Lemma enabled_entries (en : EnabledNetworks) (feed : Feed) :
  List.filter (fun a => enabled en (entry_network a)) (all_entries feed)
  = (if en_bluesky en then map FromBluesky (blueskyFeed feed) else [])
    ++ (if en_nostr en then map FromNostr (nostrFeed feed) else [])
    ++ (if en_mastodon en then map FromMastodon (mastodonFeed feed) else []).
Proof.
  unfold all_entries. rewrite !List.filter_app.
  rewrite (filter_map_network FromBluesky Bluesky),
          (filter_map_network FromNostr Nostr),
          (filter_map_network FromMastodon Mastodon); reflexivity.
Qed.

End FeedOrder.

(** X24.  On the main page the combined feed holds exactly the entries of
    the networks that are switched on, each as often as its network sent
    it; a click on a network button flips that network and no other; and
    on the bookmarks page the feed is the bookmarks, whatever the
    switches. *)
Theorem filteredCombinedFeed_enabled_entries :
  forall (Date_parse : string -> option Z) (enabledNetworks : EnabledNetworks)
         (feed : Feed) (bookmarks : list FeedEntry),
    filteredCombinedFeed Date_parse MainPage enabledNetworks feed bookmarks
      ≡ₚ List.filter (fun a => enabled enabledNetworks (entry_network a))
           (all_entries feed)
    /\ (forall network other : Network,
          enabled (toggleNetwork network enabledNetworks) other
          = if decide (other = network)
            then negb (enabled enabledNetworks other)
            else enabled enabledNetworks other)
    /\ filteredCombinedFeed Date_parse BookmarksPage enabledNetworks feed bookmarks
       = bookmarks.
Proof.
  intros Date_parse en feed bookmarks. split; [|split].
  - unfold filteredCombinedFeed. rewrite js_sort_perm, enabled_entries.
    reflexivity.
  - intros network other. destruct network, other; cbn;
      match goal with |- context [decide ?P] => destruct (decide P) end;
      congruence.
  - reflexivity.
Qed.

(** X25.  When every entry shown has a valid date, the combined feed of
    the main page is in order of date, newest first: no entry comes before
    one that is newer. *)
Theorem filteredCombinedFeed_newest_first :
  forall (Date_parse : string -> option Z) (enabledNetworks : EnabledNetworks)
         (feed : Feed) (bookmarks : list FeedEntry),
    Forall (fun a => is_Some (entry_time Date_parse a))
      (List.filter (fun a => enabled enabledNetworks (entry_network a))
         (all_entries feed)) ->
    forall (i j : nat) (a b : FeedEntry) (ta tb : Z),
      (i < j)%nat ->
      filteredCombinedFeed Date_parse MainPage enabledNetworks feed bookmarks !! i
        = Some a ->
      filteredCombinedFeed Date_parse MainPage enabledNetworks feed bookmarks !! j
        = Some b ->
      entry_time Date_parse a = Some ta ->
      entry_time Date_parse b = Some tb ->
      tb <= ta.
Proof.
  intros Date_parse en feed bookmarks Hvalid i j a b ta tb Hij Ha Hb Hta Htb.
  unfold filteredCombinedFeed in Ha, Hb.
  rewrite enabled_entries in Hvalid.
  pose proof (js_sort_sorted Date_parse _ Hvalid) as Hsorted.
  revert i j Hij Ha Hb.
  induction Hsorted as [|x l Hl IH Hx]; intros i j Hij Ha Hb.
  - rewrite lookup_nil in Ha. discriminate.
  - destruct j as [|j]; [lia|]. rewrite at_later in Hb.
    destruct i as [|i].
    + rewrite at_first in Ha. injection Ha as ->.
      rewrite List.Forall_forall in Hx.
      destruct (Hx b) as (ta' & tb' & Ha' & Hb' & Hle).
      { apply list_elem_of_In. eapply list_elem_of_lookup_2. exact Hb. }
      congruence.
    + rewrite at_later in Ha. apply (IH i j); [lia | exact Ha | exact Hb].
Qed.

Lemma filteredCombinedFeed_newest_first_witness :
  let en := {| en_nostr := true; en_bluesky := true; en_mastodon := true |} in
  let shown := filteredCombinedFeed sample_Date_parse MainPage en sample_feed [] in
  Forall (fun a => is_Some (entry_time sample_Date_parse a))
    (List.filter (fun a => enabled en (entry_network a)) (all_entries sample_feed))
  /\ (0 < 3)%nat
  /\ shown !! 0%nat
     = Some (FromBluesky (sample_view "at://did:plc:a/app.bsky.feed.post/2"
                            "2024-05-02T00:00:00.000Z"))
  /\ shown !! 3%nat = Some (FromMastodon sample_mastodon_post)
  /\ 1714521600000 <= 1714608000000.
Proof.
  intros en shown.
  assert (Forall (fun a => is_Some (entry_time sample_Date_parse a))
            (List.filter (fun a => enabled en (entry_network a))
               (all_entries sample_feed))) as Hvalid
    by (repeat constructor; cbn; eauto).
  assert (0 < 3)%nat as Hij by lia.
  assert (shown !! 0%nat
          = Some (FromBluesky (sample_view "at://did:plc:a/app.bsky.feed.post/2"
                                 "2024-05-02T00:00:00.000Z"))) as Ha
    by reflexivity.
  assert (shown !! 3%nat = Some (FromMastodon sample_mastodon_post)) as Hb
    by reflexivity.
  split; [exact Hvalid|]. split; [exact Hij|]. split; [exact Ha|].
  split; [exact Hb|].
  exact (filteredCombinedFeed_newest_first sample_Date_parse en sample_feed []
           Hvalid 0%nat 3%nat _ _ 1714608000000 1714521600000 Hij Ha Hb
           eq_refl eq_refl).
Defined.

(** * A call after a full interval *)

(** X26.  Whatever calls came before, a call made at least 60 seconds
    after the bucket's refill baseline is granted a token, and it moves the
    baseline to its own instant. *)
Theorem getToken_granted_after_interval :
  forall (start : Z) (times : list Z) (now : Z),
    let b := snd (getToken_seq times (tokenBucket start)) in
    60000 <= now - lastRefill b ->
    fst (getToken now b) = true
    /\ lastRefill (snd (getToken now b)) = now.
Proof.
  intros start times now b Hdue.
  destruct (getToken_seq_invariant start times) as (Hb & Hc & Hr).
  fold b in Hb, Hc, Hr.
  rewrite (getToken_refilled now b); [split; reflexivity | lia | lia | lia | lia].
Qed.

Lemma getToken_granted_after_interval_witness :
  let b := snd (getToken_seq [10; 20; 30; 40; 50; 60; 70] (tokenBucket 0)) in
  60000 <= 60000 - lastRefill b
  /\ fst (getToken 60000 b) = true
  /\ lastRefill (snd (getToken 60000 b)) = 60000.
Proof.
  intros b.
  assert (60000 <= 60000 - lastRefill b) as Hdue by (vm_compute; discriminate).
  split; [exact Hdue|].
  exact (getToken_granted_after_interval 0 [10; 20; 30; 40; 50; 60; 70] 60000
           Hdue).
Defined.
